(** * ActNexus: the document-ingestion pipeline and the AI usage ledger

    A shallow embedding of the core of the backend:

    - [app/services/ai_usage_service.py]: structural and pattern-based
      sanitization, ledger entry creation, the retention sweep;
    - [app/schemas/ai_usage.py]: the prompt validator;
    - [app/services/langflow_service.py]: the HTTP client and the five
      response adapters;
    - [app/services/livro_service.py]: the book lookup and the update of
      the processing status;
    - [app/db/base.py]: [update_from_dict];
    - [app/services/pdf_processor.py]: upload, background processing,
      persistence of the extracted acts, reprocessing.

    Python values of type [Any] (JSON-shaped payloads) are the inductive type
    [pyval]; a dict is the list of its items in insertion order.  Text handled
    by the regular expressions is a list of characters; the character classes
    are the ASCII ones.  Exceptions are values of [exn], and code that raises
    returns in [result].  Code that talks to the database threads a [World]
    through a state-and-exception monad.  A call of a method that a class
    does not define, a read of an attribute that an object does not have and
    an import of a name that a module does not define raise as they do in
    Python. *)

From Stdlib Require Import ZArith Ascii String List Bool Lia.
From Stdlib Require QArith.
From stdpp Require Import base tactics option list strings gmap.

Set Warnings "-register-all".
Open Scope string_scope.
Open Scope Z_scope.
Open Scope nat_scope.

(* ===================================================================== *)
(** * Part I: the embedding *)
(* ===================================================================== *)

(** ** Exceptions and results *)

(** The exceptions the modelled code raises.  [HTTPException] is FastAPI's;
    the other built-in exceptions carry their class name. *)
Inductive exn :=
| HTTPException (status_code : Z) (detail : string)
| ValueError (msg : string)
| TimeoutException                       (* httpx.TimeoutException *)
| RequestError (msg : string)            (* the other httpx.RequestError *)
| PyError (cls : string) (msg : string).

Definition HTTP_400_BAD_REQUEST : Z := 400.
Definition HTTP_404_NOT_FOUND : Z := 404.
Definition HTTP_409_CONFLICT : Z := 409.
Definition HTTP_500_INTERNAL_SERVER_ERROR : Z := 500.
Definition HTTP_502_BAD_GATEWAY : Z := 502.
Definition HTTP_503_SERVICE_UNAVAILABLE : Z := 503.
Definition HTTP_504_GATEWAY_TIMEOUT : Z := 504.

Inductive result (A : Type) :=
| Ok (a : A)
| Raise (e : exn).
Arguments Ok {A} a.
Arguments Raise {A} e.

Definition is_ok {A} (r : result A) : bool :=
  match r with Ok _ => true | Raise _ => false end.

Definition rbind {A B} (r : result A) (f : A -> result B) : result B :=
  match r with
  | Ok a => f a
  | Raise e => Raise e
  end.

(** Decimal rendering of an integer, as [str(n)] gives it. *)
Fixpoint digits_of_pos (fuel : nat) (n : N) (acc : string) : string :=
  match fuel with
  | O => acc
  | S fuel' =>
      let d := ascii_of_N (48 + N.modulo n 10) in
      let acc' := String d acc in
      if N.ltb n 10 then acc' else digits_of_pos fuel' (N.div n 10) acc'
  end.

Definition str_of_Z (z : Z) : string :=
  match z with
  | Z0 => "0"
  | Zpos p => digits_of_pos (S (Pos.size_nat p)) (Npos p) ""
  | Zneg p => String "-" (digits_of_pos (S (Pos.size_nat p)) (Npos p) "")
  end.

(** [str(e)]: Starlette renders an [HTTPException] as "<status>: <detail>";
    the built-in exceptions render as their message. *)
Definition str_of_exn (e : exn) : string :=
  match e with
  | HTTPException code detail => str_of_Z code +:+ ": " +:+ detail
  | ValueError msg => msg
  | TimeoutException => ""
  | RequestError msg => msg
  | PyError _ msg => msg
  end.

(** ** Python values *)

Inductive pyval :=
| PNone
| PBool (b : bool)
| PInt (n : Z)
| PFloat (q : QArith_base.Q)
| PStr (s : string)
| PList (l : list pyval)
| PDict (items : list (string * pyval)).

Definition is_container (v : pyval) : bool :=
  match v with
  | PDict _ | PList _ => true
  | _ => false
  end.

(** Truthiness, as [if v:] and [not v] test it. *)
Definition truthy (v : pyval) : bool :=
  match v with
  | PNone => false
  | PBool b => b
  | PInt n => negb (Z.eqb n 0)
  | PFloat q => negb (Z.eqb (QArith_base.Qnum q) 0)
  | PStr s => negb (String.eqb s "")
  | PList l => match l with [] => false | _ => true end
  | PDict items => match items with [] => false | _ => true end
  end.

(** [d[key]] on the items of a dict. *)
Fixpoint dict_lookup (key : string) (items : list (string * pyval)) : option pyval :=
  match items with
  | [] => None
  | (k, v) :: rest => if String.eqb k key then Some v else dict_lookup key rest
  end.

(** [d[key] = v]: overwrite in place, or append a new item. *)
Fixpoint dict_set (key : string) (v : pyval) (items : list (string * pyval))
  : list (string * pyval) :=
  match items with
  | [] => [(key, v)]
  | (k, v0) :: rest =>
      if String.eqb k key then (k, v) :: rest else (k, v0) :: dict_set key v rest
  end.

(** [obj.get(key, default)]: only a dict has [get]. *)
Definition py_get (obj : pyval) (key : string) (default : pyval) : result pyval :=
  match obj with
  | PDict items =>
      Ok (match dict_lookup key items with Some v => v | None => default end)
  | _ => Raise (PyError "AttributeError" "object has no attribute 'get'")
  end.

(** [for x in v]: the elements a loop over [v] visits. *)
Definition py_iter (v : pyval) : result (list pyval) :=
  match v with
  | PList l => Ok l
  | PDict items => Ok (map (fun kv => PStr (fst kv)) items)
  | PStr s => Ok (map (fun c => PStr (String c EmptyString)) (list_ascii_of_string s))
  | _ => Raise (PyError "TypeError" "object is not iterable")
  end.

(** [len(v)]. *)
Definition py_len (v : pyval) : result Z :=
  match v with
  | PList l => Ok (Z.of_nat (length l))
  | PDict items => Ok (Z.of_nat (length items))
  | PStr s => Ok (Z.of_nat (String.length s))
  | _ => Raise (PyError "TypeError" "object has no len()")
  end.

(** ** Characters and strings *)

Definition is_digit (c : ascii) : bool :=
  let n := nat_of_ascii c in (48 <=? n) && (n <=? 57).
Definition is_upper (c : ascii) : bool :=
  let n := nat_of_ascii c in (65 <=? n) && (n <=? 90).
Definition is_lower (c : ascii) : bool :=
  let n := nat_of_ascii c in (97 <=? n) && (n <=? 122).
Definition is_alpha (c : ascii) : bool := is_upper c || is_lower c.

(** [\w]: letters, digits and the underscore. *)
Definition is_word (c : ascii) : bool :=
  is_alpha c || is_digit c || Ascii.eqb c "_".

(** [\s], and what [str.strip()] removes. *)
Definition is_space (c : ascii) : bool :=
  let n := nat_of_ascii c in ((9 <=? n) && (n <=? 13)) || ((28 <=? n) && (n <=? 32)).

Definition lower_char (c : ascii) : ascii :=
  if is_upper c then ascii_of_nat (nat_of_ascii c + 32) else c.

(** [s.lower()]. *)
Fixpoint lower (s : string) : string :=
  match s with
  | EmptyString => EmptyString
  | String c s' => String (lower_char c) (lower s')
  end.

(** [needle in hay] on strings. *)
Fixpoint contains (needle hay : string) : bool :=
  String.prefix needle hay
  || match hay with
     | EmptyString => false
     | String _ hay' => contains needle hay'
     end.

(** ** ai_usage_service: structural sanitization *)

Definition sensitive_fields : list string :=
  ["password"; "senha"; "token"; "key"; "secret"; "cpf"; "cnpj";
   "rg"; "passport"; "credit_card"; "cartao"; "account"; "conta"].

(** [any(field in key.lower() for field in sensitive_fields)]. *)
Definition is_sensitive (key : string) : bool :=
  existsb (fun field => contains field (lower key)) sensitive_fields.

Definition REDACTED : pyval := PStr "[REDACTED]".

(** [AiUsageService._sanitize_data]. *)
Fixpoint _sanitize_data (data : pyval) : pyval :=
  match data with
  | PDict items =>
      PDict (map (fun kv =>
                    let '(key, value) := kv in
                    if is_sensitive key then (key, REDACTED)
                    else match value with
                         | PDict _ | PList _ => (key, _sanitize_data value)
                         | _ => (key, value)
                         end) items)
  | PList l => PList (map _sanitize_data l)
  | _ => data
  end.

(** Positions inside a payload: a dict key or a list index at each level. *)
Inductive step :=
| Key (k : string)
| Index (i : nat).

Fixpoint lookup_path (p : list step) (d : pyval) : option pyval :=
  match p with
  | [] => Some d
  | Key k :: p' =>
      match d with
      | PDict items =>
          match dict_lookup k items with
          | Some v => lookup_path p' v
          | None => None
          end
      | _ => None
      end
  | Index i :: p' =>
      match d with
      | PList l =>
          match nth_error l i with
          | Some v => lookup_path p' v
          | None => None
          end
      | _ => None
      end
  end.

(** A path none of whose keys is sensitive: the positions that survive
    sanitization. *)
Definition clean_step (s : step) : bool :=
  match s with
  | Key k => negb (is_sensitive k)
  | Index _ => true
  end.

Definition clean_path (p : list step) : bool := forallb clean_step p.

(** ** Regular expressions

    The six patterns of [_sanitize_prompt] are concatenations of word
    boundaries and of character classes under a greedy quantifier.  A pattern
    is the list of its items; [re_match] is the backtracking matcher of
    Python's [re] on this fragment: a quantifier takes as many characters as
    it can and gives them back one at a time when the rest fails. *)

Definition text := list ascii.

Inductive item :=
| Bnd                                                  (* \b *)
| Rep (cls : ascii -> bool) (lo : nat) (hi : option nat). (* cls{lo,hi} *)

Definition regex := list item.

Definition lit (c : ascii) : item := Rep (Ascii.eqb c) 1 (Some 1).
Definition times (n : nat) (cls : ascii -> bool) : item := Rep cls n (Some n).
Definition between (lo hi : nat) (cls : ascii -> bool) : item := Rep cls lo (Some hi).
Definition optional (cls : ascii -> bool) : item := Rep cls 0 (Some 1).
Definition at_least (n : nat) (cls : ascii -> bool) : item := Rep cls n None.

Definition is_word_opt (o : option ascii) : bool :=
  match o with
  | Some c => is_word c
  | None => false
  end.

(** [\b] between the character before the position and the one at it. *)
Definition word_boundary (prev next : option ascii) : bool :=
  xorb (is_word_opt prev) (is_word_opt next).

Definition may_take (hi : option nat) : bool :=
  match hi with
  | Some O => false
  | _ => true
  end.

Definition hi_pred (hi : option nat) : option nat :=
  match hi with
  | Some n => Some (pred n)
  | None => None
  end.

(** The greedy quantifier: take one more character of the class if allowed
    and go on; if that fails, stop here (when the lower bound is met) and run
    the rest [k] of the pattern.  The result is the number of characters the
    whole match consumes. *)
Fixpoint greedy (cls : ascii -> bool) (k : option ascii -> text -> option nat)
    (lo : nat) (hi : option nat) (prev : option ascii) (s : text) {struct s}
  : option nat :=
  let stop := match lo with O => k prev s | S _ => None end in
  match s with
  | c :: s' =>
      if cls c && may_take hi then
        match greedy cls k (pred lo) (hi_pred hi) (Some c) s' with
        | Some n => Some (S n)
        | None => stop
        end
      else stop
  | [] => stop
  end.

(** [pattern.match] at a position: [prev] is the character before it, [s] the
    text from it on. *)
Fixpoint re_match (r : regex) (prev : option ascii) (s : text) : option nat :=
  match r with
  | [] => Some 0
  | Bnd :: r' => if word_boundary prev (head s) then re_match r' prev s else None
  | Rep cls lo hi :: r' => greedy cls (re_match r') lo hi prev s
  end.

(** [re.search(r, s) is not None], for a text whose left neighbour is [prev]. *)
Fixpoint re_search (r : regex) (prev : option ascii) (s : text) : bool :=
  match re_match r prev s with
  | Some _ => true
  | None =>
      match s with
      | [] => false
      | c :: s' => re_search r (Some c) s'
      end
  end.

(** [re.sub(r, repl, s)] for a pattern that matches no empty string: scan
    from the left, replace each match found and resume after it.  [skip]
    counts the characters of the current match still to be dropped. *)
Fixpoint re_sub_aux (r : regex) (repl : text) (prev : option ascii) (skip : nat)
    (s : text) {struct s} : text :=
  match s with
  | [] => []
  | c :: s' =>
      match skip with
      | S k => re_sub_aux r repl (Some c) k s'
      | O =>
          match re_match r prev s with
          | Some (S n) => (repl ++ re_sub_aux r repl (Some c) n s')%list
          | _ => c :: re_sub_aux r repl (Some c) O s'
          end
      end
  end.

Definition re_sub (r : regex) (repl : text) (s : text) : text :=
  re_sub_aux r repl None 0 s.

(** The character classes of the patterns. *)
Definition cls_local (c : ascii) : bool :=          (* [A-Za-z0-9._%+-] *)
  is_alpha c || is_digit c
  || Ascii.eqb c "." || Ascii.eqb c "_" || Ascii.eqb c "%"
  || Ascii.eqb c "+" || Ascii.eqb c "-".
Definition cls_domain (c : ascii) : bool :=         (* [A-Za-z0-9.-] *)
  is_alpha c || is_digit c || Ascii.eqb c "." || Ascii.eqb c "-".
Definition cls_tld (c : ascii) : bool :=            (* [A-Z|a-z] *)
  is_alpha c || Ascii.eqb c "|".

(** [r'\b\d{3}\.\d{3}\.\d{3}-\d{2}\b'] *)
Definition re_cpf : regex :=
  [Bnd; times 3 is_digit; lit "."; times 3 is_digit; lit "."; times 3 is_digit;
   lit "-"; times 2 is_digit; Bnd].
(** [r'\b\d{2}\.\d{3}\.\d{3}/\d{4}-\d{2}\b'] *)
Definition re_cnpj : regex :=
  [Bnd; times 2 is_digit; lit "."; times 3 is_digit; lit "."; times 3 is_digit;
   lit "/"; times 4 is_digit; lit "-"; times 2 is_digit; Bnd].
(** [r'\b\d{1,2}\.\d{3}\.\d{3}-\d{1}\b'] *)
Definition re_rg : regex :=
  [Bnd; between 1 2 is_digit; lit "."; times 3 is_digit; lit "."; times 3 is_digit;
   lit "-"; times 1 is_digit; Bnd].
(** [r'\b\d{4}\s?\d{4}\s?\d{4}\s?\d{4}\b'] *)
Definition re_card : regex :=
  [Bnd; times 4 is_digit; optional is_space; times 4 is_digit; optional is_space;
   times 4 is_digit; optional is_space; times 4 is_digit; Bnd].
(** [r'\b[A-Za-z0-9._%+-]+@[A-Za-z0-9.-]+\.[A-Z|a-z]{2,}\b'] *)
Definition re_email : regex :=
  [Bnd; at_least 1 cls_local; lit "@"; at_least 1 cls_domain; lit ".";
   at_least 2 cls_tld; Bnd].
(** [r'\b\d{5}-?\d{3}\b'] *)
Definition re_cep : regex :=
  [Bnd; times 5 is_digit; optional (Ascii.eqb "-"); times 3 is_digit; Bnd].

Definition tok (s : string) : text := list_ascii_of_string s.

(** The [patterns] list of [_sanitize_prompt], in its order. *)
Definition patterns : list (regex * text) :=
  [(re_cpf, tok "[CPF]"); (re_cnpj, tok "[CNPJ]"); (re_rg, tok "[RG]");
   (re_card, tok "[CARD]"); (re_email, tok "[EMAIL]"); (re_cep, tok "[CEP]")].

Definition apply_patterns (ps : list (regex * text)) (prompt : text) : text :=
  fold_left (fun sanitized_prompt '(pattern, replacement) =>
               re_sub pattern replacement sanitized_prompt) ps prompt.

(** [AiUsageService._sanitize_prompt]. *)
Definition _sanitize_prompt (prompt : text) : text :=
  match prompt with
  | [] => prompt
  | _ => apply_patterns patterns prompt
  end.

(** ** schemas/ai_usage: the prompt validator *)

Fixpoint lstrip (s : text) : text :=
  match s with
  | c :: s' => if is_space c then lstrip s' else s
  | [] => []
  end.

Fixpoint rstrip (s : text) : text :=
  match s with
  | [] => []
  | c :: s' =>
      match rstrip s' with
      | [] => if is_space c then [] else [c]
      | r => c :: r
      end
  end.

(** [v.strip()]. *)
Definition strip (s : text) : text := rstrip (lstrip s).

Definition truncation_marker : text := tok "... [truncado]".

Definition prompt_limit : Z := 10000.

(** [AiUsageLogBase.validate_prompt]. *)
Definition validate_prompt (v : text) : result text :=
  if Z.eqb (Z.of_nat (length (strip v))) 0 then
    Raise (ValueError "Prompt não pode estar vazio")
  else if Z.gtb (Z.of_nat (length v)) prompt_limit then
    Ok (firstn (Z.to_nat prompt_limit) v ++ truncation_marker)%list
  else Ok v.

(** ** Rows and the database

    [app/models] is not part of the sources: the rows are modelled from the
    data model of the specification and from the attributes the services read
    and write. *)

Definition dict := list (string * pyval).

(** Modelled from the spec: the UsageLogEntry row (class [AiUsageLog] of
    [app/models/ai_usage.py]).  [Base] gives every row its [id] and
    [created_at]; the other attributes are kept by name, the names being
    those of the constructor call in [create_log]. *)
Record AiUsageLog := {
  log_id : Z;
  created_at : Z;
  log_attributes : dict
}.

(** Modelled from the spec: the Book row (class [Livro] of
    [app/models/livro.py]) with the attributes the services of this file read
    and write.  [status] is the attribute [reprocess_pdf] reads;
    [status_processamento] is the one [update_processing_status] writes. *)
Record Livro := {
  numero : Z;
  ano : Z;
  tipo : string;
  status : string;
  status_processamento : option string;
  url_pdf_original : option string;
  metadados_arquivo : option dict;
  metadados_pdf : option dict;
  data_processamento : option Z
}.

(** Modelled from the spec: the Act row (class [Ato] of
    [app/models/ato.py]). *)
Record Ato := {
  ato_id : Z;
  ato_livro_id : Z;
  ato_numero : string;
  ato_tipo : string
}.

(** What [background_tasks.add_task(self.process_pdf_background, ...)]
    queues: the arguments of the run. *)
Record BackgroundTask := {
  task_livro_id : Z;
  task_bucket_name : pyval;
  task_object_name : string
}.

Record World := {
  livros : gmap Z Livro;
  atos : list Ato;
  ai_usage_logs : list AiUsageLog;
  next_ato_id : Z;
  next_log_id : Z;
  background_tasks : list BackgroundTask
}.

Definition set_livros (f : gmap Z Livro -> gmap Z Livro) (w : World) : World :=
  {| livros := f (livros w); atos := atos w; ai_usage_logs := ai_usage_logs w;
     next_ato_id := next_ato_id w; next_log_id := next_log_id w;
     background_tasks := background_tasks w |}.

Definition set_logs (f : list AiUsageLog -> list AiUsageLog) (w : World) : World :=
  {| livros := livros w; atos := atos w; ai_usage_logs := f (ai_usage_logs w);
     next_ato_id := next_ato_id w; next_log_id := next_log_id w;
     background_tasks := background_tasks w |}.

(** ** The monad of service code: a database and exceptions *)

Definition M (A : Type) : Type := World -> result A * World.

Definition ret {A} (a : A) : M A := fun w => (Ok a, w).
Definition raise {A} (e : exn) : M A := fun w => (Raise e, w).
Definition bind {A B} (m : M A) (f : A -> M B) : M B :=
  fun w => match m w with
           | (Ok a, w') => f a w'
           | (Raise e, w') => (Raise e, w')
           end.
Definition lift {A} (r : result A) : M A := fun w => (r, w).
Definition get_world : M World := fun w => (Ok w, w).
Definition modify (f : World -> World) : M unit := fun w => (Ok tt, f w).

(** [try: m except Exception as e: h e]. *)
Definition try_except {A} (m : M A) (h : exn -> M A) : M A :=
  fun w => match m w with
           | (Ok a, w') => (Ok a, w')
           | (Raise e, w') => h e w'
           end.

Notation "x <- m ;; k" := (bind m (fun x => k))
  (at level 100, m at next level, right associativity).
Notation "m ;;; k" := (bind m (fun _ => k))
  (at level 100, right associativity).
Notation "x <-r r ;; k" := (rbind r (fun x => k))
  (at level 100, r at next level, right associativity).

(** [result.scalar_one_or_none()] inside a helper that returns [None] when
    the query raises: one row is returned, none or several give [None]. *)
Definition one_or_none {A} (rows : list A) : option A :=
  match rows with
  | [x] => Some x
  | _ => None
  end.

(** ** schemas/ai_usage: the entry-creation schema *)

(** [AiUsageLogCreate], the fields of [AiUsageLogBase]. *)
Record AiUsageLogCreate := {
  operation_type : string;
  operation_id : option string;
  c_prompt : text;
  input_data : pyval;
  response_data : pyval;
  model_used : option string;
  tokens_input : option Z;
  tokens_output : option Z;
  tokens_total : option Z;
  cost_estimate : option QArith_base.Q;
  response_time_ms : option Z;
  c_status : option string;
  error_message : option string
}.

Definition ValidationError : exn := PyError "ValidationError" "validation error".

(** [AiUsageLogBase.validate_tokens_total]. *)
Definition validate_tokens_total (v tokens_input tokens_output : option Z)
  : result (option Z) :=
  match v with
  | Some t =>
      let expected_total :=
        (default 0 tokens_input + default 0 tokens_output)%Z in
      if Z.gtb expected_total 0 && Z.gtb (Z.abs (t - expected_total)) 10 then
        Raise (ValueError "Total de tokens inconsistente com entrada + saída")
      else Ok v
  | None => Ok v
  end.

Definition opt_forall {A} (p : A -> bool) (o : option A) : bool :=
  match o with
  | Some a => p a
  | None => true
  end.

(** The [Field] constraints of [AiUsageLogBase]. *)
Definition AiUsageLogBase_fields_ok (d : AiUsageLogCreate) : bool :=
  opt_forall (fun s => String.length s <=? 100) (operation_id d)
  && opt_forall (fun s => String.length s <=? 100) (model_used d)
  && opt_forall (Z.leb 0) (tokens_input d)
  && opt_forall (Z.leb 0) (tokens_output d)
  && opt_forall (Z.leb 0) (tokens_total d)
  && opt_forall (fun q => Z.leb 0 (QArith_base.Qnum q)) (cost_estimate d)
  && opt_forall (Z.leb 0) (response_time_ms d).

(** Construction of an [AiUsageLogCreate]: the field constraints, then the
    two validators; a validator's [ValueError] surfaces as pydantic's
    [ValidationError].  The object carries the validated prompt. *)
Definition AiUsageLogCreate_new (d : AiUsageLogCreate) : result AiUsageLogCreate :=
  if negb (AiUsageLogBase_fields_ok d) then Raise ValidationError
  else
    match validate_tokens_total (tokens_total d) (tokens_input d) (tokens_output d),
          validate_prompt (c_prompt d) with
    | Ok total, Ok p =>
        Ok {| operation_type := operation_type d; operation_id := operation_id d;
              c_prompt := p; input_data := input_data d;
              response_data := response_data d; model_used := model_used d;
              tokens_input := tokens_input d; tokens_output := tokens_output d;
              tokens_total := total; cost_estimate := cost_estimate d;
              response_time_ms := response_time_ms d; c_status := c_status d;
              error_message := error_message d |}
    | _, _ => Raise ValidationError
    end.

(** ** Names: what a class or a module defines

    [obj.name], the first step of a method call [obj.name(...)] included,
    looks [name] up in the class of [obj] and raises [AttributeError] when
    the class does not define it; [from module import name] raises
    [ImportError] when the module does not.  A class or a module is here the
    list of the names it defines, the double-underscore names that every
    object has left out.  A failing lookup is written with the evidence that
    the name is not in that list. *)
Record Namespace := {
  ns_name : string;
  ns_defines : list string
}.

Definition defines (n : Namespace) (name : string) : bool :=
  existsb (String.eqb name) (ns_defines n).

Definition AttributeError (cls : Namespace) (name : string) : exn :=
  PyError "AttributeError"
    ("'" +:+ ns_name cls +:+ "' object has no attribute '" +:+ name +:+ "'").

(** The message of the interpreter goes on with the path of the module's
    file. *)
Definition ImportError (module : Namespace) (name : string) : exn :=
  PyError "ImportError"
    ("cannot import name '" +:+ name +:+ "' from '" +:+ ns_name module +:+ "'").

Definition no_attribute {A} (cls : Namespace) (name : string)
    (undefined : defines cls name = false) : result A :=
  Raise (AttributeError cls name).

Definition cannot_import {A} (module : Namespace) (name : string)
    (undefined : defines module name = false) : result A :=
  Raise (ImportError module name).

(** The methods of [class LivroService] ([services/livro_service.py]). *)
Definition LivroService : Namespace :=
  {| ns_name := "LivroService";
     ns_defines :=
       ["create_livro"; "get_livro_by_id"; "get_livro_by_numero_ano";
        "get_livro_with_atos"; "update_livro"; "upload_pdf";
        "update_processing_status"; "add_atos_processados"; "list_livros";
        "get_livros_stats"; "delete_livro"] |}.

(** The methods of [class AtoService] ([services/ato_service.py]). *)
Definition AtoService : Namespace :=
  {| ns_name := "AtoService";
     ns_defines :=
       ["create_ato"; "get_ato_by_id"; "get_ato_by_numero_livro";
        "get_ato_with_averbacoes"; "update_ato"; "update_processing_status";
        "list_atos"; "search_atos_by_content"; "get_atos_stats"] |}.

(** The methods of [class AiUsageService]
    ([services/ai_usage_service.py]). *)
Definition AiUsageService : Namespace :=
  {| ns_name := "AiUsageService";
     ns_defines :=
       ["_sanitize_data"; "_sanitize_prompt"; "create_log"; "get_log_by_id";
        "update_log"; "list_logs"; "get_usage_stats"; "get_cost_analysis";
        "cleanup_old_logs"; "export_logs"] |}.

(** The names of the module [app.db.session] ([db/session.py]): what it
    imports and what it defines. *)
Definition app_db_session : Namespace :=
  {| ns_name := "app.db.session";
     ns_defines :=
       ["AsyncSession"; "create_async_engine"; "async_sessionmaker";
        "StaticPool"; "AsyncGenerator"; "settings"; "logger"; "engine";
        "AsyncSessionLocal"; "get_session"; "init_db"; "drop_db"; "reset_db";
        "DatabaseManager"; "db_manager"] |}.

(** The attributes of an [AiUsageLogCreate] ([schemas/ai_usage.py]): the
    fields and validators of [AiUsageLogBase], and the names pydantic's
    [BaseModel] brings. *)
Definition AiUsageLogCreate_class : Namespace :=
  {| ns_name := "AiUsageLogCreate";
     ns_defines :=
       ["operation_type"; "operation_id"; "prompt"; "input_data";
        "response_data"; "model_used"; "tokens_input"; "tokens_output";
        "tokens_total"; "cost_estimate"; "response_time_ms"; "status";
        "error_message"; "validate_tokens_total"; "validate_prompt";
        "model_config"; "model_fields"; "model_computed_fields";
        "model_extra"; "model_fields_set"; "model_construct"; "model_copy";
        "model_dump"; "model_dump_json"; "model_json_schema";
        "model_parametrized_name"; "model_post_init"; "model_rebuild";
        "model_validate"; "model_validate_json"; "model_validate_strings";
        "dict"; "json"; "copy"; "parse_obj"; "parse_raw"; "parse_file";
        "from_orm"; "construct"; "schema"; "schema_json"; "validate";
        "update_forward_refs"] |}.

(** The methods of the built-in [dict]. *)
Definition dict_class : Namespace :=
  {| ns_name := "dict";
     ns_defines :=
       ["clear"; "copy"; "fromkeys"; "get"; "items"; "keys"; "pop";
        "popitem"; "setdefault"; "update"; "values"] |}.

(** The methods of the built-in [str]. *)
Definition str_class : Namespace :=
  {| ns_name := "str";
     ns_defines :=
       ["capitalize"; "casefold"; "center"; "count"; "encode"; "endswith";
        "expandtabs"; "find"; "format"; "format_map"; "index"; "isalnum";
        "isalpha"; "isascii"; "isdecimal"; "isdigit"; "isidentifier";
        "islower"; "isnumeric"; "isprintable"; "isspace"; "istitle";
        "isupper"; "join"; "ljust"; "lower"; "lstrip"; "maketrans";
        "partition"; "removeprefix"; "removesuffix"; "replace"; "rfind";
        "rindex"; "rjust"; "rpartition"; "rsplit"; "rstrip"; "split";
        "splitlines"; "startswith"; "strip"; "swapcase"; "title";
        "translate"; "upper"; "zfill"] |}.

(** ** ai_usage_service: the ledger *)

Definition opt_str (o : option string) : pyval :=
  match o with
  | Some s => PStr s
  | None => PNone
  end.

(** [x or default]. *)
Definition py_or (x default : pyval) : pyval :=
  if truthy x then x else default.

(** What a caller hands to [create_log] as [log_data]: the
    [AiUsageLogCreate] of the signature, or a plain dict, as
    [process_pdf_background] does. *)
Inductive LogData :=
| LogObject (d : AiUsageLogCreate)
| LogDict (d : dict).

Definition log_data_class (log_data : LogData) : Namespace :=
  match log_data with
  | LogObject _ => AiUsageLogCreate_class
  | LogDict _ => dict_class
  end.

(** [log_data.name] for a field [name] of the schema: a dict has no such
    attribute. *)
Definition log_data_field {A} (log_data : LogData) (name : string)
    (value : AiUsageLogCreate -> A)
    (defined : defines AiUsageLogCreate_class name = true)
    (undefined : defines dict_class name = false) : result A :=
  match log_data with
  | LogObject d => Ok (value d)
  | LogDict _ => Raise (AttributeError dict_class name)
  end.

(** [log_data.name] for a name that neither the schema nor [dict]
    defines. *)
Definition log_data_no_attribute {A} (log_data : LogData) (name : string)
    (undefined : defines AiUsageLogCreate_class name = false)
    (undefined' : defines dict_class name = false) : result A :=
  Raise (AttributeError (log_data_class log_data) name).

(** [session.add(log); await session.commit(); await session.refresh(log)]:
    the row gets the next id and the reading [now] of the database clock. *)
Definition add_log (now : Z) (attributes : dict) : M AiUsageLog :=
  fun w =>
    let log := {| log_id := next_log_id w; created_at := now;
                  log_attributes := attributes |} in
    (Ok log,
     {| livros := livros w; atos := atos w;
        ai_usage_logs := (ai_usage_logs w ++ [log])%list;
        next_ato_id := next_ato_id w; next_log_id := (next_log_id w + 1)%Z;
        background_tasks := background_tasks w |}).

(** [AiUsageService.create_log].  The function reads [log_data.prompt] and
    then [log_data.dados_entrada], [.resposta], [.tipo_operacao] and so on,
    names the schema does not have; its one handler turns any exception into
    the 500. *)
Definition create_log (now : Z) (log_data : LogData) : M AiUsageLog :=
  try_except
    (prompt <- lift (log_data_field log_data "prompt" c_prompt eq_refl eq_refl) ;;
     let prompt_sanitizado := _sanitize_prompt prompt in
     dados_entrada <-
       lift (log_data_no_attribute log_data "dados_entrada" eq_refl eq_refl) ;;
     let dados_entrada_sanitizados := _sanitize_data dados_entrada in
     resposta <- lift (log_data_no_attribute log_data "resposta" eq_refl eq_refl) ;;
     let resposta_sanitizada := _sanitize_data resposta in
     tipo_operacao <-
       lift (log_data_no_attribute log_data "tipo_operacao" eq_refl eq_refl) ;;
     operacao_id <-
       lift (log_data_no_attribute log_data "operacao_id" eq_refl eq_refl) ;;
     modelo_utilizado <-
       lift (log_data_no_attribute log_data "modelo_utilizado" eq_refl eq_refl) ;;
     tokens_entrada <-
       lift (log_data_no_attribute log_data "tokens_entrada" eq_refl eq_refl) ;;
     tokens_saida <-
       lift (log_data_no_attribute log_data "tokens_saida" eq_refl eq_refl) ;;
     custo_estimado <-
       lift (log_data_no_attribute log_data "custo_estimado" eq_refl eq_refl) ;;
     tempo_resposta_ms <-
       lift (log_data_no_attribute log_data "tempo_resposta_ms" eq_refl eq_refl) ;;
     status <-
       lift (log_data_field log_data "status" (fun d => opt_str (c_status d))
               eq_refl eq_refl) ;;
     erro <- lift (log_data_no_attribute log_data "erro" eq_refl eq_refl) ;;
     metadados <- lift (log_data_no_attribute log_data "metadados" eq_refl eq_refl) ;;
     add_log now
       [("tipo_operacao", tipo_operacao);
        ("operacao_id", operacao_id);
        ("prompt", PStr (string_of_list_ascii prompt_sanitizado));
        ("dados_entrada", dados_entrada_sanitizados);
        ("resposta", resposta_sanitizada);
        ("modelo_utilizado", modelo_utilizado);
        ("tokens_entrada", tokens_entrada);
        ("tokens_saida", tokens_saida);
        ("custo_estimado", custo_estimado);
        ("tempo_resposta_ms", tempo_resposta_ms);
        ("status", py_or status (PStr "Concluído"));
        ("erro", erro);
        ("metadados", py_or metadados (PDict []))])
    (fun e =>
       raise (HTTPException HTTP_500_INTERNAL_SERVER_ERROR
                "Erro interno do servidor")).

(** [AiUsageService.get_log_by_id]. *)
Definition get_log_by_id (w : World) (id : Z) : option AiUsageLog :=
  one_or_none (List.filter (fun l => Z.eqb (log_id l) id) (ai_usage_logs w)).

(** An [AiUsageLogUpdate] ([schemas/ai_usage.py]): for each field, the
    value it was given, [None] when the field was not set. *)
Record AiUsageLogUpdate := {
  u_response_data : option pyval;
  u_tokens_input : option pyval;
  u_tokens_output : option pyval;
  u_tokens_total : option pyval;
  u_cost_estimate : option pyval;
  u_response_time_ms : option pyval;
  u_status : option pyval;
  u_error_message : option pyval
}.

Definition set_field (name : string) (value : option pyval) : dict :=
  match value with
  | Some v => [(name, v)]
  | None => []
  end.

(** [log_data.model_dump(exclude_unset=True)] on the schema object. *)
Definition AiUsageLogUpdate_model_dump (u : AiUsageLogUpdate) : dict :=
  (set_field "response_data" (u_response_data u)
   ++ set_field "tokens_input" (u_tokens_input u)
   ++ set_field "tokens_output" (u_tokens_output u)
   ++ set_field "tokens_total" (u_tokens_total u)
   ++ set_field "cost_estimate" (u_cost_estimate u)
   ++ set_field "response_time_ms" (u_response_time_ms u)
   ++ set_field "status" (u_status u)
   ++ set_field "error_message" (u_error_message u))%list.

(** What a caller hands to [update_log] as [log_data]: the
    [AiUsageLogUpdate] of the signature, or a plain dict, as
    [process_pdf_background] does. *)
Inductive LogUpdateData :=
| LogUpdateObject (u : AiUsageLogUpdate)
| LogUpdateDict (d : dict).

(** [log_data.model_dump(exclude_unset=True)]. *)
Definition model_dump_exclude_unset (log_data : LogUpdateData) : result dict :=
  match log_data with
  | LogUpdateObject u => Ok (AiUsageLogUpdate_model_dump u)
  | LogUpdateDict _ => no_attribute dict_class "model_dump" eq_refl
  end.

(** The attributes every row has from [Base] ([db/base.py]) and from
    SQLAlchemy's declarative classes. *)
Definition Base_attributes : list string :=
  ["id"; "created_at"; "updated_at"; "to_dict"; "update_from_dict";
   "metadata"; "registry"; "awaitable_attrs"].

(** [hasattr(self, key)] on a row with these other attributes. *)
Definition hasattr (attributes : dict) (key : string) : bool :=
  existsb (String.eqb key) Base_attributes
  || existsb (fun kv => String.eqb key (fst kv)) attributes.

(** [Base.update_from_dict] ([db/base.py]), on the attributes of a row
    other than [id] and [created_at], which it never assigns. *)
Definition update_from_dict (data : dict) (attributes : dict) : dict :=
  fold_left
    (fun attributes kv =>
       let '(key, value) := kv in
       if hasattr attributes key
          && negb (existsb (String.eqb key) ["id"; "created_at"; "updated_at"])
       then dict_set key value attributes
       else attributes)
    data attributes.

(** [AiUsageService.update_log]. *)
Definition update_log (id : Z) (log_data : LogUpdateData) : M AiUsageLog :=
  try_except
    (w <- get_world ;;
     match get_log_by_id w id with
     | None => raise (HTTPException HTTP_404_NOT_FOUND "Log não encontrado")
     | Some log =>
         update_data <- lift (model_dump_exclude_unset log_data) ;;
         let update_data :=
           match dict_lookup "resposta" update_data with
           | Some v => dict_set "resposta" (_sanitize_data v) update_data
           | None => update_data
           end in
         let log' :=
           {| log_id := log_id log; created_at := created_at log;
              log_attributes := update_from_dict update_data (log_attributes log) |} in
         modify (set_logs (map (fun l => if Z.eqb (log_id l) id then log' else l))) ;;;
         ret log'
     end)
    (fun e =>
       match e with
       | HTTPException _ _ => raise e
       | _ => raise (HTTPException HTTP_500_INTERNAL_SERVER_ERROR
                       "Erro interno do servidor")
       end).

Definition seconds_per_day : Z := 86400.

(** [cutoff_date = datetime.now() - timedelta(days=days_to_keep)], in
    seconds. *)
Definition cutoff_date (now days_to_keep : Z) : Z :=
  (now - days_to_keep * seconds_per_day)%Z.

(** [AiUsageService.cleanup_old_logs]: count the rows older than the cutoff
    and, when there are some, delete them. *)
Definition cleanup_old_logs (now days_to_keep : Z) : M Z :=
  fun w =>
    let cutoff := cutoff_date now days_to_keep in
    let logs_to_delete :=
      Z.of_nat (length (List.filter (fun l => Z.ltb (created_at l) cutoff)
                               (ai_usage_logs w))) in
    if Z.gtb logs_to_delete 0 then
      (Ok logs_to_delete,
       set_logs (List.filter (fun l => negb (Z.ltb (created_at l) cutoff))) w)
    else (Ok logs_to_delete, w).

(** ** Numbers of the payloads *)

Definition Q := QArith_base.Q.

(** The number a value counts as in arithmetic ([bool] is an [int]). *)
Definition as_number (v : pyval) : option (Z + Q) :=
  match v with
  | PInt n => Some (inl n)
  | PBool b => Some (inl (if b then 1 else 0)%Z)
  | PFloat q => Some (inr q)
  | _ => None
  end.

Definition to_Q (n : Z + Q) : Q :=
  match n with
  | inl z => QArith_base.inject_Z z
  | inr q => q
  end.

Definition TypeError (msg : string) : exn := PyError "TypeError" msg.
Definition ZeroDivisionError : exn := PyError "ZeroDivisionError" "division by zero".

(** [a + b]. *)
Definition py_add (a b : pyval) : result pyval :=
  match as_number a, as_number b with
  | Some (inl x), Some (inl y) => Ok (PInt (x + y))
  | Some x, Some y => Ok (PFloat (QArith_base.Qplus (to_Q x) (to_Q y)))
  | _, _ => Raise (TypeError "unsupported operand type(s) for +")
  end.

(** [a / b]: true division. *)
Definition py_truediv (a b : pyval) : result pyval :=
  match as_number a, as_number b with
  | Some x, Some y =>
      if Z.eqb (QArith_base.Qnum (to_Q y)) 0 then Raise ZeroDivisionError
      else Ok (PFloat (QArith_base.Qdiv (to_Q x) (to_Q y)))
  | _, _ => Raise (TypeError "unsupported operand type(s) for /")
  end.

(** [sum(xs)]. *)
Fixpoint py_sum_from (acc : pyval) (xs : list pyval) : result pyval :=
  match xs with
  | [] => Ok acc
  | x :: xs' => acc' <-r py_add acc x ;; py_sum_from acc' xs'
  end.

Definition py_sum (xs : list pyval) : result pyval := py_sum_from (PInt 0) xs.

Fixpoint mapM_result {A B} (f : A -> result B) (l : list A) : result (list B) :=
  match l with
  | [] => Ok []
  | x :: l' => y <-r f x ;; ys <-r mapM_result f l' ;; Ok (y :: ys)
  end.

(** [v[0]]. *)
Definition py_index0 (v : pyval) : result pyval :=
  match v with
  | PList (x :: _) => Ok x
  | PList [] => Raise (PyError "IndexError" "list index out of range")
  | PStr (String c _) => Ok (PStr (String c EmptyString))
  | PStr EmptyString => Raise (PyError "IndexError" "string index out of range")
  | PDict _ => Raise (PyError "KeyError" "0")
  | _ => Raise (TypeError "object is not subscriptable")
  end.

(** ** langflow_service: the client of the AI workflow service *)

Record Settings := {
  LANGFLOW_HOST : string;
  LANGFLOW_API_KEY : option string;
  LANGFLOW_FLOW_PROCESS_PDF : string;
  LANGFLOW_FLOW_EXTRACT_ACT : string;
  LANGFLOW_FLOW_SEARCH_ACTS : string;
  LANGFLOW_FLOW_GENERATE_SUMMARY : string;
  LANGFLOW_FLOW_CLASSIFY_DOC : string
}.

(** What [client.post] gives back. *)
Record Response := {
  status_code : Z;
  response_text : string;
  response_json : result pyval     (* [response.json()] *)
}.

(** The network: [client.post(url, json=payload, headers=headers)] under a
    timeout, returning a response or raising. *)
Definition Http := string -> pyval -> list (string * string) -> Z -> result Response.

(** [self.timeout = 300]: five minutes for an AI call. *)
Definition langflow_timeout : Z := 300.

(** [d.update(other)]. *)
Definition dict_update (d other : dict) : dict :=
  fold_left (fun acc kv => dict_set (fst kv) (snd kv) acc) other d.

Definition no_outputs : exn := ValueError "Resposta do LangFlow não contém outputs".

(** [LangFlowService._make_request]. *)
Definition _make_request (settings : Settings) (post : Http)
    (flow_id : string) (inputs : dict) (tweaks : option dict) : result pyval :=
  let body : result pyval :=
    let url := LANGFLOW_HOST settings +:+ "/api/v1/run/" +:+ flow_id in
    let payload :=
      [("input_value", default (PStr "") (dict_lookup "input_value" inputs));
       ("input_type", PStr "chat");
       ("output_type", PStr "chat");
       ("tweaks", PDict (match tweaks with
                         | Some (_ :: _ as t) => t
                         | _ => []
                         end))] in
    payload <-r match dict_lookup "inputs" inputs with
                | Some (PDict more) => Ok (dict_update payload more)
                | Some _ => Raise (TypeError "dict.update: not a mapping")
                | None => Ok payload
                end ;;
    let headers :=
      [("Content-Type", "application/json"); ("Accept", "application/json")] in
    let headers :=
      match LANGFLOW_API_KEY settings with
      | Some key =>
          if String.eqb key "" then headers
          else (headers ++ [("Authorization", "Bearer " +:+ key)])%list
      | None => headers
      end in
    response <-r post url (PDict payload) headers langflow_timeout ;;
    if Z.eqb (status_code response) 200 then response_json response
    else Raise (HTTPException HTTP_502_BAD_GATEWAY
                  ("Erro no serviço de IA: " +:+ str_of_Z (status_code response)))
  in
  match body with
  | Ok result => Ok result
  | Raise TimeoutException =>
      Raise (HTTPException HTTP_504_GATEWAY_TIMEOUT "Timeout no processamento de IA")
  | Raise (RequestError _) =>
      Raise (HTTPException HTTP_503_SERVICE_UNAVAILABLE "Serviço de IA indisponível")
  | Raise _ =>
      Raise (HTTPException HTTP_500_INTERNAL_SERVER_ERROR
               "Erro interno no processamento de IA")
  end.

(** [except Exception as e: raise ValueError(f"{prefix}: {str(e)}")]. *)
Definition reraise_as_ValueError {A} (prefix : string) (r : result A) : result A :=
  match r with
  | Ok a => Ok a
  | Raise e => Raise (ValueError (prefix +:+ ": " +:+ str_of_exn e))
  end.

(** The dict built for one act inside [_process_pdf_response]. *)
Definition processed_ato (ato_data : pyval) : result pyval :=
  numero <-r py_get ato_data "numero" PNone ;;
  tipo <-r py_get ato_data "tipo" PNone ;;
  data_ato <-r py_get ato_data "data_ato" PNone ;;
  conteudo_original <-r py_get ato_data "conteudo_original" (PStr "") ;;
  conteudo_markdown <-r py_get ato_data "conteudo_markdown" (PStr "") ;;
  partes <-r py_get ato_data "partes" (PList []) ;;
  observacoes <-r py_get ato_data "observacoes" (PStr "") ;;
  confidence <-r py_get ato_data "confidence" (PFloat (QArith_base.inject_Z 0)) ;;
  Ok (PDict [("numero", numero); ("tipo", tipo); ("data_ato", data_ato);
             ("conteudo_original", conteudo_original);
             ("conteudo_markdown", conteudo_markdown);
             ("partes", partes); ("observacoes", observacoes);
             ("status_ia", PStr "processado"); ("confianca_ia", confidence)]).

(** [sum(ato.get("confianca_ia", 0) for ato in processed_atos)
     / len(processed_atos) if processed_atos else 0]. *)
Definition confidence_avg (processed_atos : list pyval) : result pyval :=
  match processed_atos with
  | [] => Ok (PInt 0)
  | _ =>
      confs <-r mapM_result (fun ato => py_get ato "confianca_ia" (PInt 0))
                  processed_atos ;;
      total <-r py_sum confs ;;
      py_truediv total (PInt (Z.of_nat (length processed_atos)))
  end.

(** The body of [_process_pdf_response], inside its [try]. *)
Definition _process_pdf_response_body (response : pyval) : result pyval :=
  outputs <-r py_get response "outputs" (PList []) ;;
  if negb (truthy outputs) then Raise no_outputs
  else
    main_output <-r py_index0 outputs ;;
    livro_metadata <-r py_get main_output "livro_metadata" (PDict []) ;;
    atos <-r py_get main_output "atos" (PList []) ;;
    atos_items <-r py_iter atos ;;
    processed_atos <-r mapM_result processed_ato atos_items ;;
    processing_time <-r py_get main_output "processing_time" (PInt 0) ;;
    avg <-r confidence_avg processed_atos ;;
    Ok (PDict [("livro_metadata", livro_metadata);
               ("atos", PList processed_atos);
               ("processing_stats",
                PDict [("total_atos", PInt (Z.of_nat (length processed_atos)));
                       ("processing_time", processing_time);
                       ("confidence_avg", avg)])]).

(** [LangFlowService._process_pdf_response]. *)
Definition _process_pdf_response (response : pyval) : result pyval :=
  reraise_as_ValueError "Erro ao interpretar resposta da IA"
    (_process_pdf_response_body response).

(** [LangFlowService._process_act_details_response]. *)
Definition _process_act_details_response (response : pyval) : result pyval :=
  reraise_as_ValueError "Erro ao interpretar detalhes da IA"
    (outputs <-r py_get response "outputs" (PList []) ;;
     if negb (truthy outputs) then Raise no_outputs
     else
       main_output <-r py_index0 outputs ;;
       partes <-r py_get main_output "partes" (PList []) ;;
       datas <-r py_get main_output "datas" (PList []) ;;
       valores <-r py_get main_output "valores" (PList []) ;;
       observacoes <-r py_get main_output "observacoes" (PStr "") ;;
       confidence <-r py_get main_output "confidence" (PFloat (QArith_base.inject_Z 0)) ;;
       tags <-r py_get main_output "tags" (PList []) ;;
       resumo <-r py_get main_output "resumo" (PStr "") ;;
       Ok (PDict [("partes", partes); ("datas_importantes", datas);
                  ("valores", valores); ("observacoes_ia", observacoes);
                  ("confianca", confidence); ("tags", tags); ("resumo", resumo)])).

(** One entry of the result list inside [_process_search_response]. *)
Definition processed_search_result (r : pyval) : result pyval :=
  ato_id <-r py_get r "ato_id" PNone ;;
  livro_id <-r py_get r "livro_id" PNone ;;
  numero <-r py_get r "numero" PNone ;;
  tipo <-r py_get r "tipo" PNone ;;
  similarity <-r py_get r "similarity" (PFloat (QArith_base.inject_Z 0)) ;;
  excerpt <-r py_get r "excerpt" (PStr "") ;;
  highlight <-r py_get r "highlight" (PStr "") ;;
  Ok (PDict [("ato_id", ato_id); ("livro_id", livro_id); ("numero", numero);
             ("tipo", tipo); ("similarity_score", similarity);
             ("excerpt", excerpt); ("highlight", highlight)]).

(** [LangFlowService._process_search_response]. *)
Definition _process_search_response (response : pyval) : result pyval :=
  reraise_as_ValueError "Erro ao interpretar resultados da busca"
    (outputs <-r py_get response "outputs" (PList []) ;;
     if negb (truthy outputs) then
       Ok (PDict [("results", PList []); ("total", PInt 0)])
     else
       main_output <-r py_index0 outputs ;;
       results <-r py_get main_output "results" (PList []) ;;
       results_items <-r py_iter results ;;
       processed_results <-r mapM_result processed_search_result results_items ;;
       query <-r py_get main_output "original_query" (PStr "") ;;
       processing_time <-r py_get main_output "processing_time" (PInt 0) ;;
       Ok (PDict [("results", PList processed_results);
                  ("total", PInt (Z.of_nat (length processed_results)));
                  ("query", query); ("processing_time", processing_time)])).

(** [LangFlowService._process_summary_response]. *)
Definition _process_summary_response (response : pyval) : result pyval :=
  reraise_as_ValueError "Erro ao interpretar resumo da IA"
    (outputs <-r py_get response "outputs" (PList []) ;;
     if negb (truthy outputs) then Raise no_outputs
     else
       main_output <-r py_index0 outputs ;;
       summary <-r py_get main_output "summary" (PStr "") ;;
       keywords <-r py_get main_output "keywords" (PList []) ;;
       confidence <-r py_get main_output "confidence" (PFloat (QArith_base.inject_Z 0)) ;;
       word_count <-r py_get main_output "word_count" (PInt 0) ;;
       processing_time <-r py_get main_output "processing_time" (PInt 0) ;;
       Ok (PDict [("summary", summary); ("keywords", keywords);
                  ("confidence", confidence); ("word_count", word_count);
                  ("processing_time", processing_time)])).

(** [LangFlowService._process_classification_response]. *)
Definition _process_classification_response (response : pyval) : result pyval :=
  reraise_as_ValueError "Erro ao interpretar classificação da IA"
    (outputs <-r py_get response "outputs" (PList []) ;;
     if negb (truthy outputs) then Raise no_outputs
     else
       main_output <-r py_index0 outputs ;;
       classification <-r py_get main_output "classification" (PStr "unknown") ;;
       confidence <-r py_get main_output "confidence" (PFloat (QArith_base.inject_Z 0)) ;;
       entities <-r py_get main_output "entities" (PList []) ;;
       categories <-r py_get main_output "categories" (PList []) ;;
       reasoning <-r py_get main_output "reasoning" (PStr "") ;;
       Ok (PDict [("classification", classification); ("confidence", confidence);
                  ("entities", entities); ("categories", categories);
                  ("reasoning", reasoning)])).

(** The five flow kinds of the client. *)
Inductive flow_kind :=
| ProcessPdf
| ExtractActDetails
| SearchActs
| GenerateSummary
| ClassifyDocument.

(** The response adapter of each flow kind. *)
Definition response_adapter (k : flow_kind) : pyval -> result pyval :=
  match k with
  | ProcessPdf => _process_pdf_response
  | ExtractActDetails => _process_act_details_response
  | SearchActs => _process_search_response
  | GenerateSummary => _process_summary_response
  | ClassifyDocument => _process_classification_response
  end.

(** [self.flow_ids]. *)
Definition flow_ids (settings : Settings) (k : flow_kind) : string :=
  match k with
  | ProcessPdf => LANGFLOW_FLOW_PROCESS_PDF settings
  | ExtractActDetails => LANGFLOW_FLOW_EXTRACT_ACT settings
  | SearchActs => LANGFLOW_FLOW_SEARCH_ACTS settings
  | GenerateSummary => LANGFLOW_FLOW_GENERATE_SUMMARY settings
  | ClassifyDocument => LANGFLOW_FLOW_CLASSIFY_DOC settings
  end.

Definition opt_dict (o : option dict) : pyval :=
  match o with
  | Some (_ :: _ as d) => PDict d
  | _ => PDict []
  end.

(** [LangFlowService.process_pdf]. *)
Definition process_pdf (settings : Settings) (post : Http)
    (pdf_url : string) (livro_id : Z) (additional_context : option dict)
  : result pyval :=
  let flow_id := flow_ids settings ProcessPdf in
  let inputs :=
    [("input_value", PStr ("Processar PDF do livro " +:+ str_of_Z livro_id));
     ("inputs", PDict [("pdf_url", PStr pdf_url); ("livro_id", PInt livro_id);
                       ("context", opt_dict additional_context)])] in
  let tweaks :=
    [("extraction_mode", PStr "detailed"); ("include_metadata", PBool true);
     ("parse_acts", PBool true)] in
  result <-r _make_request settings post flow_id inputs (Some tweaks) ;;
  _process_pdf_response result.

(** [LangFlowService.extract_act_details]. *)
Definition extract_act_details (settings : Settings) (post : Http)
    (ato_content : string) (ato_id : Z) (context : option dict) : result pyval :=
  let flow_id := flow_ids settings ExtractActDetails in
  let inputs :=
    [("input_value", PStr ("Extrair detalhes do ato " +:+ str_of_Z ato_id));
     ("inputs", PDict [("ato_content", PStr ato_content); ("ato_id", PInt ato_id);
                       ("context", opt_dict context)])] in
  let tweaks :=
    [("detail_level", PStr "comprehensive"); ("extract_parties", PBool true);
     ("extract_dates", PBool true); ("extract_values", PBool true)] in
  result <-r _make_request settings post flow_id inputs (Some tweaks) ;;
  _process_act_details_response result.

(** [LangFlowService.search_acts]. *)
Definition search_acts (settings : Settings) (post : Http)
    (query : string) (filters : option dict) (limit : Z) : result pyval :=
  let flow_id := flow_ids settings SearchActs in
  let inputs :=
    [("input_value", PStr query);
     ("inputs", PDict [("search_query", PStr query); ("filters", opt_dict filters);
                       ("limit", PInt limit)])] in
  let tweaks :=
    [("search_mode", PStr "semantic"); ("include_similarity", PBool true);
     ("min_similarity", PFloat (QArith_base.Qmake 7 10))] in
  result <-r _make_request settings post flow_id inputs (Some tweaks) ;;
  _process_search_response result.

(** [LangFlowService.generate_summary]. *)
Definition generate_summary (settings : Settings) (post : Http)
    (content summary_type : string) (context : option dict) : result pyval :=
  let flow_id := flow_ids settings GenerateSummary in
  let inputs :=
    [("input_value", PStr content);
     ("inputs", PDict [("content", PStr content);
                       ("summary_type", PStr summary_type);
                       ("context", opt_dict context)])] in
  let tweaks :=
    [("max_length", PInt (if String.eqb summary_type "brief" then 500 else 1000));
     ("include_keywords", PBool true); ("language", PStr "pt-br")] in
  result <-r _make_request settings post flow_id inputs (Some tweaks) ;;
  _process_summary_response result.

(** [LangFlowService.classify_document]. *)
Definition classify_document (settings : Settings) (post : Http)
    (content : string) (document_type : option string) : result pyval :=
  let flow_id := flow_ids settings ClassifyDocument in
  let inputs :=
    [("input_value", PStr content);
     ("inputs", PDict [("content", PStr content);
                       ("hint_type", match document_type with
                                     | Some t => PStr t
                                     | None => PNone
                                     end)])] in
  let tweaks :=
    [("classification_mode", PStr "detailed"); ("include_confidence", PBool true);
     ("extract_entities", PBool true)] in
  result <-r _make_request settings post flow_id inputs (Some tweaks) ;;
  _process_classification_response result.

(** ** livro_service: the two methods the orchestrator can reach *)

(** [LivroService.get_livro_by_id]. *)
Definition get_livro_by_id (w : World) (livro_id : Z) : option Livro :=
  livros w !! livro_id.

(** [LivroService.update_processing_status]; [now] is the clock read when
    the status is ["concluido"].  The parameter the source calls [status] (a
    [str]) hides the module [fastapi.status] in the body, so that
    [status.HTTP_404_NOT_FOUND] and [status.HTTP_500_INTERNAL_SERVER_ERROR]
    are attribute reads on a string: the first raises inside the [try], the
    second inside the handler that catches the first. *)
Definition update_processing_status (now : Z) (livro_id : Z) (new_status : string)
    (metadata : option dict) (error_message : option string) : M Livro :=
  try_except
    (w <- get_world ;;
     match get_livro_by_id w livro_id with
     | None =>
         status_code <-
           lift (no_attribute (A := Z) str_class "HTTP_404_NOT_FOUND" eq_refl) ;;
         raise (HTTPException status_code "Livro não encontrado")
     | Some livro =>
         let pdf1 :=
           match metadata with
           | Some (_ :: _ as m) => Some m
           | _ => metadados_pdf livro
           end in
         let pdf2 :=
           match error_message with
           | Some msg =>
               if String.eqb msg "" then pdf1
               else
                 let base := match pdf1 with
                             | Some (_ :: _ as m) => m
                             | _ => []
                             end in
                 Some (dict_set "error" (PStr msg) base)
           | None => pdf1
           end in
         let livro' :=
           {| numero := numero livro; ano := ano livro; tipo := tipo livro;
              status := status livro;
              status_processamento := Some new_status;
              url_pdf_original := url_pdf_original livro;
              metadados_arquivo := metadados_arquivo livro;
              metadados_pdf := pdf2;
              data_processamento :=
                if String.eqb new_status "concluido" then Some now
                else data_processamento livro |} in
         modify (set_livros (insert livro_id livro')) ;;;
         ret livro'
     end)
    (fun e =>
       match e with
       | HTTPException _ _ => raise e
       | _ =>
           status_code <-
             lift (no_attribute (A := Z) str_class
                     "HTTP_500_INTERNAL_SERVER_ERROR" eq_refl) ;;
           raise (HTTPException status_code "Erro interno do servidor")
       end).

(** ** pdf_processor: the orchestrator *)

(** The uploaded file, as FastAPI's [UploadFile] presents it. *)
Record UploadFile := {
  content_type : option string;
  filename : option string;
  file_content : list ascii
}.

(** The dict [minio_service.upload_file] returns. *)
Record UploadResult := {
  bucket_name : string;
  object_name : string;
  original_filename : option string;
  file_size : Z;
  up_content_type : string;
  upload_timestamp : string
}.

Definition upload_result_dict (r : UploadResult) : dict :=
  [("bucket_name", PStr (bucket_name r)); ("object_name", PStr (object_name r));
   ("original_filename", opt_str (original_filename r));
   ("file_size", PInt (file_size r)); ("content_type", PStr (up_content_type r));
   ("upload_timestamp", PStr (upload_timestamp r))].

(** What lies outside the process: the configuration, the network, the
    object store and the clock readings of one call. *)
Record Env := {
  settings : Settings;
  http_post : Http;
  minio_upload_file : UploadFile -> string -> result UploadResult;
  minio_create_presigned_url : pyval -> string -> Z -> result string;
  now_log : Z;           (* when the ledger row is inserted, in seconds *)
  start_time : Z;        (* clock readings around the AI call, in ms *)
  end_time : Z;
  now_iso : string       (* [datetime.now().isoformat()] *)
}.

(** [s.endswith(suffix)]. *)
Definition ends_with (suffix s : string) : bool :=
  let n := String.length s in
  let k := String.length suffix in
  (k <=? n) && String.eqb (String.substring (n - k) k s) suffix.

(** [not s] on an optional string. *)
Definition falsy_str (o : option string) : bool :=
  match o with
  | Some s => String.eqb s ""
  | None => true
  end.

(** The two-level test at the top of [upload_and_process_pdf]. *)
Definition not_a_pdf (file : UploadFile) : bool :=
  (falsy_str (content_type file)
   || negb (contains "pdf" (lower (default "" (content_type file)))))
  && (falsy_str (filename file)
      || negb (ends_with ".pdf" (lower (default "" (filename file))))).

(** [except HTTPException: raise / except Exception as e: raise
    HTTPException(500, f"{prefix}: {str(e)}")]. *)
Definition http_boundary {A} (prefix : string) (m : M A) : M A :=
  try_except m (fun e =>
    match e with
    | HTTPException _ _ => raise e
    | _ => raise (HTTPException HTTP_500_INTERNAL_SERVER_ERROR
                    (prefix +:+ ": " +:+ str_of_exn e))
    end).

Definition add_task (t : BackgroundTask) : M unit :=
  modify (fun w =>
    {| livros := livros w; atos := atos w; ai_usage_logs := ai_usage_logs w;
       next_ato_id := next_ato_id w; next_log_id := next_log_id w;
       background_tasks := (background_tasks w ++ [t])%list |}).

(** [key in v]. *)
Definition py_in (key : string) (v : pyval) : result bool :=
  match v with
  | PDict items => Ok (match dict_lookup key items with Some _ => true | None => false end)
  | PList l =>
      Ok (existsb (fun x => match x with
                            | PStr s => String.eqb s key
                            | _ => false
                            end) l)
  | PStr s => Ok (contains key s)
  | _ => Raise (TypeError "argument is not iterable")
  end.

(** [v[key]] with a string key. *)
Definition py_getitem (v : pyval) (key : string) : result pyval :=
  match v with
  | PDict items =>
      match dict_lookup key items with
      | Some x => Ok x
      | None => Raise (PyError "KeyError" key)
      end
  | _ => Raise (TypeError "indices must be integers")
  end.

(** [if key in source: target[key] = source[key]]. *)
Definition copy_key (source : pyval) (key : string) (target : dict) : result dict :=
  present <-r py_in key source ;;
  if present then v <-r py_getitem source key ;; Ok (dict_set key v target)
  else Ok target.

(** [livro.name], for an attribute of the row, on a value that may be
    [None]. *)
Definition attr {A} (o : option Livro) (name : string) (f : Livro -> A) : result A :=
  match o with
  | Some l => Ok (f l)
  | None =>
      Raise (PyError "AttributeError"
               ("'NoneType' object has no attribute '" +:+ name +:+ "'"))
  end.

(** The dict [ai_log_data] of [process_pdf_background]. *)
Definition ai_log_data (livro_id : Z) (bucket_name : pyval) (object_name : string)
  : dict :=
  [("operacao", PStr "process_pdf");
   ("modelo", PStr "langflow_pdf_processor");
   ("prompt", PStr ("Processar PDF do livro " +:+ str_of_Z livro_id));
   ("dados_entrada",
    PDict [("livro_id", PInt livro_id); ("bucket", bucket_name);
           ("object", PStr object_name)]);
   ("status", PStr "iniciado")].

(** The dict [additional_context]. *)
Definition additional_context (livro : Livro) : dict :=
  [("livro_numero", PInt (numero livro));
   ("livro_ano", PInt (ano livro));
   ("livro_tipo", PStr (tipo livro));
   ("cartorio_info",
    PDict [("nome", PStr "Cartório ActNexus"); ("cidade", PStr "São Paulo");
           ("estado", PStr "SP")])].

(** [PDFProcessorService.reprocess_pdf].  Its first statement calls
    [self.livro_service.get_by_id], and [LivroService] has no method of that
    name. *)
Definition reprocess_pdf (env : Env) (livro_id : Z) (force : bool) : M dict :=
  http_boundary "Erro no reprocessamento"
    (livro <-
       lift (no_attribute (A := option Livro) LivroService "get_by_id" eq_refl) ;;
     match livro with
     | None => raise (HTTPException HTTP_404_NOT_FOUND "Livro não encontrado")
     | Some livro =>
         if falsy_str (url_pdf_original livro) then
           raise (HTTPException HTTP_400_BAD_REQUEST
                    "Livro não possui PDF para reprocessar")
         else if String.eqb (status livro) "processando" && negb force then
           raise (HTTPException HTTP_409_CONFLICT
                    "Livro já está sendo processado. Use force=true para forçar reprocessamento")
         else
           update_processing_status (now_log env) livro_id "processando" None None ;;;
           bucket_name <-
             match metadados_arquivo livro with
             | Some d =>
                 ret (default (PStr "actnexus-livros") (dict_lookup "bucket" d))
             | None =>
                 raise (PyError "AttributeError"
                          "'NoneType' object has no attribute 'get'")
             end ;;
           add_task {| task_livro_id := livro_id;
                       task_bucket_name := bucket_name;
                       task_object_name := default "" (url_pdf_original livro) |} ;;;
           ret [("livro_id", PInt livro_id);
                ("status", PStr "reprocessing_started");
                ("message", PStr "Reprocessamento iniciado com sucesso")]
     end).

Section Orchestrator.

(** What the sources take from libraries and from [app/models]: pydantic's
    conversion of an input to [int] and to [datetime], the members of the
    enumeration [StatusLivro], and [str(v)] of a payload. *)
Variable to_int : pyval -> option Z.
Variable parse_datetime : pyval -> option Z.
Variable is_StatusLivro : pyval -> bool.
Variable py_str : pyval -> string.

(** A field [Optional[int]] with bounds; a field that is not given is
    [None]. *)
Definition optional_int (lo : Z) (hi : option Z) (o : option pyval) : result (option Z) :=
  match o with
  | None | Some PNone => Ok None
  | Some v =>
      match to_int v with
      | Some n =>
          if Z.leb lo n && opt_forall (Z.leb n) hi then Ok (Some n)
          else Raise ValidationError
      | None => Raise ValidationError
      end
  end.

(** A field [Optional[str]] with a minimal and a maximal length. *)
Definition optional_str (min_length : nat) (max_length : option nat)
    (o : option pyval) : result (option string) :=
  match o with
  | None | Some PNone => Ok None
  | Some (PStr s) =>
      if (min_length <=? String.length s)
         && opt_forall (fun m => String.length s <=? m) max_length
      then Ok (Some s)
      else Raise ValidationError
  | Some _ => Raise ValidationError
  end.

(** A required field [str] with [min_length=1] and a maximal length. *)
Definition required_str (max_length : nat) (o : option pyval) : result string :=
  match o with
  | Some (PStr s) =>
      if (1 <=? String.length s) && (String.length s <=? max_length) then Ok s
      else Raise ValidationError
  | _ => Raise ValidationError
  end.

(** A required field [int] with [gt=0]. *)
Definition required_positive_int (o : option pyval) : result Z :=
  match o with
  | Some v =>
      match to_int v with
      | Some n => if Z.ltb 0 n then Ok n else Raise ValidationError
      | None => Raise ValidationError
      end
  | None => Raise ValidationError
  end.

(** A field [Optional[List[Dict[str, Any]]]]. *)
Definition optional_list_of_dicts (o : option pyval) : result pyval :=
  match o with
  | None | Some PNone => Ok PNone
  | Some (PList l) =>
      if forallb (fun x => match x with PDict _ => true | _ => false end) l
      then Ok (PList l) else Raise ValidationError
  | Some _ => Raise ValidationError
  end.

(** A field [Optional[datetime]]. *)
Definition optional_datetime (o : option pyval) : result (option Z) :=
  match o with
  | None | Some PNone => Ok None
  | Some v => match parse_datetime v with
              | Some t => Ok (Some t)
              | None => Raise ValidationError
              end
  end.

(** A field [Optional[StatusLivro]]. *)
Definition optional_status (o : option pyval) : result (option pyval) :=
  match o with
  | None | Some PNone => Ok None
  | Some v => if is_StatusLivro v then Ok (Some v) else Raise ValidationError
  end.

(** [LivroUpdate] ([schemas/livro.py]). *)
Record LivroUpdate := {
  upd_numero : option Z;
  upd_ano : option Z;
  upd_tipo : option string;
  upd_descricao : option string;
  upd_observacoes : option string;
  upd_status : option pyval
}.

(** Construction of a [LivroUpdate] from keywords: each field is
    validated; a keyword that names no field is ignored. *)
Definition LivroUpdate_new (kwargs : dict) : result LivroUpdate :=
  numero <-r optional_int 1 None (dict_lookup "numero" kwargs) ;;
  ano <-r optional_int 1900 (Some 2100%Z) (dict_lookup "ano" kwargs) ;;
  tipo <-r optional_str 1 (Some 100) (dict_lookup "tipo" kwargs) ;;
  descricao <-r optional_str 0 (Some 1000) (dict_lookup "descricao" kwargs) ;;
  observacoes <-r optional_str 0 (Some 2000) (dict_lookup "observacoes" kwargs) ;;
  status <-r optional_status (dict_lookup "status" kwargs) ;;
  Ok {| upd_numero := numero; upd_ano := ano; upd_tipo := tipo;
        upd_descricao := descricao; upd_observacoes := observacoes;
        upd_status := status |}.

(** [AtoCreate] ([schemas/ato.py]): the fields of [AtoBase] and
    [livro_id]. *)
Record AtoCreate := {
  ac_numero_ato : string;
  ac_tipo_ato : string;
  ac_data_ato : option Z;
  ac_data_registro : option Z;
  ac_conteudo_original : option string;
  ac_conteudo_markdown : option string;
  ac_partes : pyval;
  ac_observacoes : option string;
  ac_livro_id : Z
}.

(** Construction of an [AtoCreate] from keywords: [numero_ato],
    [tipo_ato] and [livro_id] are required; a keyword that names no field is
    ignored. *)
Definition AtoCreate_new (kwargs : dict) : result AtoCreate :=
  numero_ato <-r required_str 50 (dict_lookup "numero_ato" kwargs) ;;
  tipo_ato <-r required_str 100 (dict_lookup "tipo_ato" kwargs) ;;
  data_ato <-r optional_datetime (dict_lookup "data_ato" kwargs) ;;
  data_registro <-r optional_datetime (dict_lookup "data_registro" kwargs) ;;
  conteudo_original <-r optional_str 0 None (dict_lookup "conteudo_original" kwargs) ;;
  conteudo_markdown <-r optional_str 0 None (dict_lookup "conteudo_markdown" kwargs) ;;
  partes <-r optional_list_of_dicts (dict_lookup "partes" kwargs) ;;
  observacoes <-r optional_str 0 (Some 2000) (dict_lookup "observacoes" kwargs) ;;
  livro_id <-r required_positive_int (dict_lookup "livro_id" kwargs) ;;
  Ok {| ac_numero_ato := numero_ato; ac_tipo_ato := tipo_ato;
        ac_data_ato := data_ato; ac_data_registro := data_registro;
        ac_conteudo_original := conteudo_original;
        ac_conteudo_markdown := conteudo_markdown; ac_partes := partes;
        ac_observacoes := observacoes; ac_livro_id := livro_id |}.

(** [PDFProcessorService.upload_and_process_pdf].  After the file check the
    function calls [self.livro_service.get_by_id] and, later,
    [self.livro_service.update]: [LivroService] has neither method. *)
Definition upload_and_process_pdf (env : Env) (file : UploadFile) (livro_id : Z)
    (process_immediately : bool) : M dict :=
  http_boundary "Erro no upload do PDF"
    (if not_a_pdf file then
       raise (HTTPException HTTP_400_BAD_REQUEST "Apenas arquivos PDF são aceitos")
     else
       livro <-
         lift (no_attribute (A := option Livro) LivroService "get_by_id" eq_refl) ;;
       match livro with
       | None => raise (HTTPException HTTP_404_NOT_FOUND "Livro não encontrado")
       | Some _ =>
           upload_result <-
             lift (minio_upload_file env file ("livros/" +:+ str_of_Z livro_id)) ;;
           livro_update <-
             lift (LivroUpdate_new
                     [("url_pdf_original", PStr (object_name upload_result));
                      ("status", PStr "processando");
                      ("metadados_arquivo",
                       PDict
                         [("nome_original", opt_str (original_filename upload_result));
                          ("tamanho_bytes", PInt (file_size upload_result));
                          ("tipo_conteudo", PStr (up_content_type upload_result));
                          ("data_upload", PStr (upload_timestamp upload_result));
                          ("bucket", PStr (bucket_name upload_result))])]) ;;
           updated_livro <-
             lift (no_attribute (A := Livro) LivroService "update" eq_refl) ;;
           (if process_immediately then
              add_task {| task_livro_id := livro_id;
                          task_bucket_name := PStr (bucket_name upload_result);
                          task_object_name := object_name upload_result |}
            else ret tt) ;;;
           ret [("livro_id", PInt livro_id);
                ("upload_info", PDict (upload_result_dict upload_result));
                ("status", PStr "uploaded");
                ("processing_started", PBool process_immediately);
                ("message",
                 PStr ("PDF enviado com sucesso"
                       +:+ (if process_immediately
                            then " e processamento iniciado" else "")))]
       end).

(** One turn of the loop of [_process_langflow_result]: build the
    [AtoCreate] from the keywords [numero], [tipo] and the others, and call
    [self.ato_service.create], a method [AtoService] does not have. *)
Definition persist_ato (livro_id : Z) (ato_data : pyval) : M Ato :=
  ato_create <-
    lift (numero <-r py_get ato_data "numero" PNone ;;
          tipo <-r py_get ato_data "tipo" (PStr "Não especificado") ;;
          data_ato <-r py_get ato_data "data_ato" PNone ;;
          conteudo_original <-r py_get ato_data "conteudo_original" (PStr "") ;;
          conteudo_markdown <-r py_get ato_data "conteudo_markdown" (PStr "") ;;
          partes <-r py_get ato_data "partes" (PList []) ;;
          observacoes <-r py_get ato_data "observacoes" (PStr "") ;;
          status_ia <-r py_get ato_data "status_ia" (PStr "processado") ;;
          confianca_ia <-r py_get ato_data "confianca_ia"
                            (PFloat (QArith_base.inject_Z 0)) ;;
          AtoCreate_new
            [("livro_id", PInt livro_id); ("numero", numero); ("tipo", tipo);
             ("data_ato", data_ato); ("conteudo_original", conteudo_original);
             ("conteudo_markdown", conteudo_markdown); ("partes", partes);
             ("observacoes", observacoes); ("status_ia", status_ia);
             ("confianca_ia", confianca_ia)]) ;;
  lift (no_attribute (A := Ato) AtoService "create" eq_refl).

(** The loop: each act is persisted on its own; an act whose turn raises is
    logged and skipped.  The log line of a skipped act reads
    [ato_data.get('numero')], which raises for a value that is no dict. *)
Fixpoint persist_atos (livro_id : Z) (atos_data : list pyval) (atos_criados : list Ato)
  : M (list Ato) :=
  match atos_data with
  | [] => ret atos_criados
  | ato_data :: rest =>
      atos_criados' <-
        try_except
          (ato_criado <- persist_ato livro_id ato_data ;;
           ret (atos_criados ++ [ato_criado])%list)
          (fun ato_error =>
             lift (py_get ato_data "numero" PNone) ;;;
             ret atos_criados) ;;
      persist_atos livro_id rest atos_criados'
  end.

(** The first statements of [_process_langflow_result]: the parts of the
    result and the dict [livro_update_data]; returned with [atos_data]. *)
Definition livro_update_data (env : Env) (langflow_result : pyval)
  : result (dict * pyval) :=
  livro_metadata <-r py_get langflow_result "livro_metadata" (PDict []) ;;
  atos_data <-r py_get langflow_result "atos" (PList []) ;;
  processing_stats <-r py_get langflow_result "processing_stats" (PDict []) ;;
  n_atos <-r py_len atos_data ;;
  processing_time <-r py_get processing_stats "processing_time" (PInt 0) ;;
  confidence <-r py_get processing_stats "confidence_avg"
                   (PFloat (QArith_base.inject_Z 0)) ;;
  let livro_update_data :=
    [("status", PStr "concluido");
     ("metadados_processamento",
      PDict [("data_processamento", PStr (now_iso env));
             ("total_atos_extraidos", PInt n_atos);
             ("tempo_processamento_segundos", processing_time);
             ("confianca_media", confidence);
             ("versao_ia", PStr "langflow_v1")])] in
  livro_update_data <-r
    (if truthy livro_metadata then
       d <-r copy_key livro_metadata "numero" livro_update_data ;;
       d <-r copy_key livro_metadata "ano" d ;;
       d <-r copy_key livro_metadata "tipo" d ;;
       d <-r copy_key livro_metadata "data_abertura" d ;;
       copy_key livro_metadata "data_encerramento" d
     else Ok livro_update_data) ;;
  Ok (livro_update_data, atos_data).

(** [PDFProcessorService._process_langflow_result]: build the update of the
    book, call [self.livro_service.update], a method [LivroService] does not
    have, then persist the acts one by one; its [except] logs and
    re-raises. *)
Definition _process_langflow_result (env : Env) (livro_id : Z)
    (langflow_result : pyval) : M unit :=
  try_except
    (prepared <- lift (livro_update_data env langflow_result) ;;
     livro_update <- lift (LivroUpdate_new (fst prepared)) ;;
     lift (no_attribute (A := Livro) LivroService "update" eq_refl) ;;;
     atos_items <- lift (py_iter (snd prepared)) ;;
     persist_atos livro_id atos_items [] ;;;
     ret tt)
    (fun e => raise e).

(** The dict handed to [update_log] after a successful AI call. *)
Definition log_success (env : Env) (pdf_url : string) (langflow_result : pyval)
  : dict :=
  let elapsed_ms := (end_time env - start_time env)%Z in
  [("status", PStr "concluido");
   ("dados_resposta", langflow_result);
   ("tempo_resposta_ms", PInt elapsed_ms);
   ("tokens_entrada", PInt (Z.of_nat (String.length pdf_url) / 4));
   ("tokens_saida", PInt (Z.of_nat (String.length (py_str langflow_result)) / 4));
   ("custo_estimado", PFloat (QArith_base.Qmake elapsed_ms 100000))].

(** The dict handed to [update_log] after a failure. *)
Definition log_failure (env : Env) (langflow_error : exn) : dict :=
  [("status", PStr "erro");
   ("mensagem_erro", PStr (str_of_exn langflow_error));
   ("tempo_resposta_ms", PInt (end_time env - start_time env))].

(** [PDFProcessorService.process_pdf_background].  Its first statement,
    outside the [try], imports [get_db_session] from [app.db.session], a
    name that module does not define.  The session that
    [async with get_db_session() as db] would open is the database the monad
    threads. *)
Definition process_pdf_background (env : Env) (livro_id : Z) (bucket_name : pyval)
    (object_name : string) : M unit :=
  lift (cannot_import (A := unit) app_db_session "get_db_session" eq_refl) ;;;
  try_except
    (ai_log <-
       create_log (now_log env) (LogDict (ai_log_data livro_id bucket_name object_name)) ;;
     pdf_url <- lift (minio_create_presigned_url env bucket_name object_name 3600) ;;
     livro <-
       lift (no_attribute (A := option Livro) LivroService "get_by_id" eq_refl) ;;
     additional_context <- lift (attr livro "numero" additional_context) ;;
     try_except
       (langflow_result <-
          lift (process_pdf (settings env) (http_post env) pdf_url livro_id
                  (Some additional_context)) ;;
        update_log (log_id ai_log)
          (LogUpdateDict (log_success env pdf_url langflow_result)) ;;;
        _process_langflow_result env livro_id langflow_result)
       (fun langflow_error =>
          update_log (log_id ai_log)
            (LogUpdateDict (log_failure env langflow_error)) ;;;
          update_processing_status (now_log env) livro_id "erro" None
            (Some ("Erro no processamento de IA: " +:+ str_of_exn langflow_error)) ;;;
          raise langflow_error))
    (fun e =>
       try_except
         (update_processing_status (now_log env) livro_id "erro" None
            (Some ("Erro no processamento: " +:+ str_of_exn e)) ;;;
          ret tt)
         (fun update_error => ret tt)).

End Orchestrator.

(* ===================================================================== *)
(** * Part II: properties *)
(* ===================================================================== *)

(** ** Sample data for the closed statements *)

Definition sample_book : Livro :=
  {| numero := 7; ano := 2024; tipo := "Notas"; status := "processando";
     status_processamento := None;
     url_pdf_original := Some "livros/1/20240101_000000_id.pdf";
     metadados_arquivo := Some [("bucket", PStr "actnexus-livros")];
     metadados_pdf := None; data_processamento := None |}.

Definition world_of_book (livro_id : Z) (l : Livro) : World :=
  {| livros := {[ livro_id := l ]}; atos := []; ai_usage_logs := [];
     next_ato_id := 1; next_log_id := 1; background_tasks := [] |}.

Definition idle_env : Env :=
  {| settings :=
       {| LANGFLOW_HOST := "http://langflow"; LANGFLOW_API_KEY := None;
          LANGFLOW_FLOW_PROCESS_PDF := "process_pdf";
          LANGFLOW_FLOW_EXTRACT_ACT := "extract_act";
          LANGFLOW_FLOW_SEARCH_ACTS := "search_acts";
          LANGFLOW_FLOW_GENERATE_SUMMARY := "generate_summary";
          LANGFLOW_FLOW_CLASSIFY_DOC := "classify_doc" |};
     http_post := fun _ _ _ _ => Raise TimeoutException;
     minio_upload_file := fun file prefix =>
       Ok {| bucket_name := "actnexus-livros";
             object_name := prefix +:+ "/20240101_000000_id.pdf";
             original_filename := filename file;
             file_size := Z.of_nat (length (file_content file));
             up_content_type := default "application/octet-stream" (content_type file);
             upload_timestamp := "2024-01-01T00:00:00" |};
     minio_create_presigned_url := fun _ object _ => Ok ("http://minio/" +:+ object);
     now_log := 1704067200; start_time := 0; end_time := 300000;
     now_iso := "2024-01-01T00:05:00" |}.

(** Library behaviour for the closed statements: integers convert to
    themselves, nothing parses as a date, the four processing statuses are
    members of the enumeration. *)
Definition int_only (v : pyval) : option Z :=
  match v with
  | PInt n => Some n
  | _ => None
  end.

Definition no_dates (v : pyval) : option Z := None.

Definition four_statuses (v : pyval) : bool :=
  match v with
  | PStr s => existsb (String.eqb s) ["pendente"; "processando"; "concluido"; "erro"]
  | _ => false
  end.

Definition a_pdf : UploadFile :=
  {| content_type := Some "application/pdf"; filename := Some "livro.pdf";
     file_content := list_ascii_of_string "%PDF-1.7" |}.

(** ** Structural sanitization *)

(** What [_sanitize_data] puts under a key. *)
Definition sanitized_value (key : string) (value : pyval) : pyval :=
  if is_sensitive key then REDACTED else _sanitize_data value.

Lemma sanitize_scalar v : is_container v = false -> _sanitize_data v = v.
Proof. destruct v; simpl; congruence. Qed.

Lemma sanitize_dict items :
  _sanitize_data (PDict items)
  = PDict (map (fun kv => (fst kv, sanitized_value (fst kv) (snd kv))) items).
Proof.
  simpl. f_equal. apply map_ext. intros [key value]. unfold sanitized_value. simpl.
  destruct (is_sensitive key); [reflexivity|].
  destruct value; reflexivity.
Qed.

Lemma dict_lookup_map_values (f : string -> pyval -> pyval) key items :
  dict_lookup key (map (fun kv => (fst kv, f (fst kv) (snd kv))) items)
  = f key <$> dict_lookup key items.
Proof.
  induction items as [|[k v] items IH]; simpl; [reflexivity|].
  destruct (String.eqb_spec k key) as [->|_]; [reflexivity|]. exact IH.
Qed.

(** Sanitization commutes with the lookup of a path without sensitive
    keys. *)
Lemma lookup_path_sanitize p : forall data,
  clean_path p = true ->
  lookup_path p (_sanitize_data data) = _sanitize_data <$> lookup_path p data.
Proof.
  induction p as [|s p IH]; intros data Hclean; [reflexivity|].
  simpl in Hclean. apply andb_true_iff in Hclean as [Hs Hp].
  destruct s as [k|i].
  - destruct data; try reflexivity.
    rewrite sanitize_dict. simpl. rewrite dict_lookup_map_values.
    destruct (dict_lookup k items) as [v|]; simpl; [|reflexivity].
    unfold sanitized_value. simpl in Hs. apply negb_true_iff in Hs. rewrite Hs.
    apply IH, Hp.
  - destruct data; try reflexivity.
    simpl. rewrite nth_error_map.
    destruct (nth_error l i) as [v|]; simpl; [|reflexivity].
    apply IH, Hp.
Qed.

(** C5. In a payload of nested dicts and lists, at the end of any path that
    goes through no sensitive key: a dict keeps its keys, in their order; the
    value of each key whose lower-cased name contains a sensitive term is the
    redaction marker; the value of any other key is unchanged when it is no
    container, and is the sanitized container otherwise; a list keeps its
    length. *)
Theorem sanitize_data_redacts_sensitive_keys
    (data : pyval) (p : list step) (items : dict) :
  clean_path p = true ->
  lookup_path p data = Some (PDict items) ->
  exists items',
    lookup_path p (_sanitize_data data) = Some (PDict items')
    /\ map fst items' = map fst items
    /\ forall i key value,
         nth_error items i = Some (key, value) ->
         exists value',
           nth_error items' i = Some (key, value')
           /\ (is_sensitive key = true -> value' = REDACTED)
           /\ (is_sensitive key = false -> is_container value = false ->
               value' = value)
           /\ (is_sensitive key = false -> value' = _sanitize_data value)
           /\ (forall l, value = PList l -> is_sensitive key = false ->
               exists l', value' = PList l' /\ length l' = length l).
Proof.
  intros Hclean Hlook.
  exists (map (fun kv => (fst kv, sanitized_value (fst kv) (snd kv))) items).
  split; [|split].
  - rewrite lookup_path_sanitize, Hlook by exact Hclean. simpl.
    rewrite <- sanitize_dict. reflexivity.
  - rewrite map_map. reflexivity.
  - intros i key value Hi. exists (sanitized_value key value).
    split; [|split; [|split; [|split]]].
    + rewrite nth_error_map, Hi. reflexivity.
    + unfold sanitized_value. intros ->. reflexivity.
    + unfold sanitized_value. intros -> Hc. apply sanitize_scalar, Hc.
    + unfold sanitized_value. intros ->. reflexivity.
    + intros l -> Hk. unfold sanitized_value. rewrite Hk. simpl.
      eexists. split; [reflexivity|]. apply length_map.
Qed.

Definition sample_payload : pyval :=
  PDict [("livro_id", PInt 42);
         ("usuario",
          PDict [("nome", PStr "Ana");
                 ("API_Key", PStr "k-123");
                 ("documentos",
                  PList [PDict [("tipo", PStr "escritura");
                                ("CPF", PStr "123.456.789-01")]])])].

Lemma sanitize_data_redacts_sensitive_keys_witness :
  exists items',
    lookup_path [Key "usuario"; Key "documentos"; Index 0]
      (_sanitize_data sample_payload) = Some (PDict items')
    /\ map fst items' = ["tipo"; "CPF"]
    /\ nth_error items' 1 = Some ("CPF", REDACTED)
    /\ nth_error items' 0 = Some ("tipo", PStr "escritura").
Proof.
  destruct (sanitize_data_redacts_sensitive_keys sample_payload
              [Key "usuario"; Key "documentos"; Index 0]
              [("tipo", PStr "escritura"); ("CPF", PStr "123.456.789-01")]
              eq_refl eq_refl) as (items' & Hl & Hk & Hv).
  exists items'. split; [exact Hl|]. split; [exact Hk|]. split.
  - destruct (Hv 1 "CPF" (PStr "123.456.789-01") eq_refl) as (v' & Hn & Hs & _).
    rewrite Hn, (Hs eq_refl). reflexivity.
  - destruct (Hv 0 "tipo" (PStr "escritura") eq_refl) as (v' & Hn & _ & Hs & _).
    rewrite Hn, (Hs eq_refl eq_refl). reflexivity.
Defined.

(** ** The cap on the prompt, and entry creation *)

(** The prompt an [AiUsageLogCreate] carries after validation. *)
Definition capped (v : text) : text :=
  if Z.gtb (Z.of_nat (length v)) prompt_limit
  then (firstn (Z.to_nat prompt_limit) v ++ truncation_marker)%list
  else v.

Lemma validate_prompt_capped v p : validate_prompt v = Ok p -> p = capped v.
Proof.
  unfold validate_prompt, capped.
  destruct (Z.eqb _ 0); [discriminate|].
  destruct (Z.gtb _ prompt_limit); intros [= <-]; reflexivity.
Qed.

Lemma AiUsageLogCreate_new_prompt d d' :
  AiUsageLogCreate_new d = Ok d' -> c_prompt d' = capped (c_prompt d).
Proof.
  unfold AiUsageLogCreate_new.
  destruct (negb _); [discriminate|].
  destruct (validate_tokens_total _ _ _); [|discriminate].
  destruct (validate_prompt (c_prompt d)) as [p|] eqn:Hp; [|discriminate].
  intros [= <-]. simpl. apply validate_prompt_capped, Hp.
Qed.

(** A pattern that matches nowhere leaves the text as it is. *)
Lemma re_sub_aux_no_match r repl s : forall prev,
  re_search r prev s = false -> re_sub_aux r repl prev 0 s = s.
Proof.
  induction s as [|c s IH]; intros prev H; [reflexivity|].
  simpl in *. destruct (re_match r prev (c :: s)); [discriminate|].
  f_equal. apply IH, H.
Qed.

Lemma apply_patterns_no_match ps : forall s,
  forallb (fun p => negb (re_search (fst p) None s)) ps = true ->
  apply_patterns ps s = s.
Proof.
  induction ps as [|[r repl] ps IH]; intros s H; [reflexivity|].
  simpl in H. apply andb_true_iff in H as [H1 H2].
  apply negb_true_iff in H1. unfold apply_patterns in *. simpl.
  unfold re_sub. rewrite (re_sub_aux_no_match r repl s None H1). apply IH, H2.
Qed.

Definition log_request (p : text) : AiUsageLogCreate :=
  {| operation_type := "process_pdf"; operation_id := None; c_prompt := p;
     input_data := PNone; response_data := PNone; model_used := None;
     tokens_input := None; tokens_output := None; tokens_total := None;
     cost_estimate := None; response_time_ms := None; c_status := None;
     error_message := None |}.

Definition internal_error : exn :=
  HTTPException HTTP_500_INTERNAL_SERVER_ERROR "Erro interno do servidor".

(** C7. Entry creation stores no prompt, capped or not: whatever it is
    given, [create_log] fails with the 500 of its handler and leaves the
    ledger and the rest of the database as they were.  For a validated
    [AiUsageLogCreate], such as the entry with the prompt ["Resumir o ato 12"],
    the failure comes from reading [log_data.dados_entrada], a name the
    schema does not have, after the prompt has been sanitized. *)
Theorem create_log_stores_nothing :
  (forall (now : Z) (log_data : LogData) (w : World),
     create_log now log_data w = (Raise internal_error, w))
  /\ AiUsageLogCreate_new (log_request (tok "Resumir o ato 12"))
     = Ok (log_request (tok "Resumir o ato 12"))
  /\ log_data_no_attribute (A := pyval)
       (LogObject (log_request (tok "Resumir o ato 12"))) "dados_entrada"
       eq_refl eq_refl
     = Raise (PyError "AttributeError"
                "'AiUsageLogCreate' object has no attribute 'dados_entrada'")
  /\ create_log 1704067200 (LogObject (log_request (tok "Resumir o ato 12")))
       (world_of_book 1 sample_book)
     = (Raise internal_error, world_of_book 1 sample_book).
Proof.
  split; [intros now [d|d] w; reflexivity|].
  split; [vm_compute; reflexivity|].
  split; reflexivity.
Qed.

(** ** Pattern-based sanitization *)

Section Patterns.
Local Open Scope list_scope.

(** *** What a pattern matches

    [Matches r prev w rest]: the pattern [r] matches exactly the text [w]
    when [prev] is the character before it and [rest] the text after it. *)

(** The character before the position reached after reading [w]. *)
Definition last_or (prev : option ascii) (w : text) : option ascii :=
  fold_left (fun _ c => Some c) w prev.

Definition hi_ok (hi : option nat) (n : nat) : Prop :=
  match hi with
  | Some h => n <= h
  | None => True
  end.

Inductive Matches : regex -> option ascii -> text -> text -> Prop :=
| M_nil prev rest : Matches [] prev [] rest
| M_bnd r prev w rest :
    word_boundary prev (head (w ++ rest)) = true ->
    Matches r prev w rest ->
    Matches (Bnd :: r) prev w rest
| M_rep cls lo hi r prev u w rest :
    forallb cls u = true -> lo <= length u -> hi_ok hi (length u) ->
    Matches r (last_or prev u) w rest ->
    Matches (Rep cls lo hi :: r) prev (u ++ w) rest.

Lemma last_or_app prev u v : last_or prev (u ++ v) = last_or (last_or prev u) v.
Proof. unfold last_or. apply fold_left_app. Qed.

Lemma last_or_nonempty prev prev' u : u <> [] -> last_or prev u = last_or prev' u.
Proof. destruct u as [|c u]; [congruence|]. reflexivity. Qed.

Lemma hi_ok_succ hi n : may_take hi = true -> hi_ok (hi_pred hi) n -> hi_ok hi (S n).
Proof. destruct hi as [[|h]|]; simpl; try discriminate; intros; lia. Qed.

Lemma hi_ok_pred hi n : hi_ok hi (S n) -> may_take hi = true /\ hi_ok (hi_pred hi) n.
Proof. destruct hi as [[|h]|]; simpl; intros; split; try reflexivity; lia. Qed.

(** The quantifier returns only matches. *)
Lemma greedy_sound cls k : forall s lo hi prev n,
  greedy cls k lo hi prev s = Some n ->
  exists u s' m,
    s = (u ++ s') /\ forallb cls u = true /\ lo <= length u
    /\ hi_ok hi (length u) /\ k (last_or prev u) s' = Some m /\ n = length u + m.
Proof.
  assert (Hstop : forall s lo hi prev n,
             match lo with O => k prev s | S _ => None end = Some n ->
             exists u s' m,
               s = (u ++ s') /\ forallb cls u = true /\ lo <= length u
               /\ hi_ok hi (length u) /\ k (last_or prev u) s' = Some m
               /\ n = length u + m).
  { intros s lo hi prev n H. destruct lo; [|discriminate].
    exists [], s, n. simpl. repeat split; auto. destruct hi; simpl; auto; lia. }
  induction s as [|c s IH]; intros lo hi prev n H; simpl in H.
  - apply Hstop, H.
  - destruct (cls c && may_take hi) eqn:Hc; [|apply Hstop, H].
    apply andb_true_iff in Hc as [Hc Hm].
    destruct (greedy cls k (pred lo) (hi_pred hi) (Some c) s) as [n'|] eqn:Hg;
      [|apply Hstop, H].
    injection H as <-.
    destruct (IH _ _ _ _ Hg) as (u & s' & m & -> & Hu & Hlo & Hhi & Hk & ->).
    exists (c :: u), s', m. simpl. rewrite Hc, Hu.
    repeat split; auto; [lia|]. apply hi_ok_succ; assumption.
Qed.

(** The quantifier finds a match whenever there is one. *)
Lemma greedy_complete cls k : forall u lo hi prev s' m,
  forallb cls u = true -> lo <= length u -> hi_ok hi (length u) ->
  k (last_or prev u) s' = Some m ->
  exists n, greedy cls k lo hi prev (u ++ s') = Some n.
Proof.
  induction u as [|c u IH]; intros lo hi prev s' m Hu Hlo Hhi Hk; simpl in *.
  - assert (lo = 0) as -> by lia.
    destruct s' as [|c s']; simpl; [eauto|].
    destruct (cls c && may_take hi); [|eauto].
    destruct (greedy cls k _ _ _ _); eauto.
  - apply andb_true_iff in Hu as [Hc Hu]. apply hi_ok_pred in Hhi as [Hm Hhi].
    rewrite Hc, Hm. simpl.
    destruct (IH (pred lo) (hi_pred hi) (Some c) s' m Hu ltac:(lia) Hhi Hk)
      as (n & ->).
    eauto.
Qed.

Lemma re_match_sound r : forall prev s n,
  re_match r prev s = Some n ->
  exists w rest, s = (w ++ rest) /\ length w = n /\ Matches r prev w rest.
Proof.
  induction r as [|[|cls lo hi] r IH]; intros prev s n H; simpl in H.
  - injection H as <-. exists [], s. repeat split. constructor.
  - destruct (word_boundary prev (head s)) eqn:Hb; [|discriminate].
    destruct (IH _ _ _ H) as (w & rest & -> & Hn & Hm).
    exists w, rest. repeat split; auto. constructor; assumption.
  - destruct (greedy_sound _ _ _ _ _ _ _ H)
      as (u & s' & m & -> & Hu & Hlo & Hhi & Hk & ->).
    destruct (IH _ _ _ Hk) as (w & rest & -> & Hn & Hm).
    exists (u ++ w), rest. rewrite app_assoc, length_app, Hn.
    repeat split. constructor; assumption.
Qed.

Lemma re_match_complete r prev w rest :
  Matches r prev w rest -> exists n, re_match r prev (w ++ rest) = Some n.
Proof.
  induction 1 as [prev rest|r prev w rest Hb _ IH
                 |cls lo hi r prev u w rest Hu Hlo Hhi _ IH]; simpl.
  - eauto.
  - rewrite Hb. exact IH.
  - destruct IH as (m & Hk). rewrite <- app_assoc.
    eapply greedy_complete; eassumption.
Qed.

(** *** Shapes of patterns and tokens *)

Definition bracket (c : ascii) : bool := Ascii.eqb c "[" || Ascii.eqb c "]".

(** Every pattern of the list needs a digit or an at sign. *)
Definition special (c : ascii) : bool := is_digit c || Ascii.eqb c "@".

Definition plain (c : ascii) : bool := negb (special c).

Definition all_ascii : list ascii := map ascii_of_nat (seq 0 256).

Definition cls_subset (a b : ascii -> bool) : bool :=
  forallb (fun c => implb (a c) (b c)) all_ascii.

Definition item_within (good : ascii -> bool) (it : item) : bool :=
  match it with
  | Bnd => true
  | Rep cls _ _ => cls_subset cls good
  end.

Definition item_requires (good : ascii -> bool) (it : item) : bool :=
  match it with
  | Bnd => false
  | Rep cls lo _ => (1 <=? lo) && cls_subset cls good
  end.

Definition starts_with_bnd (r : regex) : bool :=
  match r with
  | Bnd :: _ => true
  | _ => false
  end.

Definition ends_with_bnd (r : regex) : bool := starts_with_bnd (rev r).

(** A pattern between two [\b], whose classes hold no bracket, and which
    needs a digit or an at sign. *)
Definition wf_pattern (r : regex) : bool :=
  starts_with_bnd r && ends_with_bnd r
  && forallb (item_within (fun c => negb (bracket c))) r
  && existsb (item_requires special) r.

(** A token in brackets without digit or at sign. *)
Definition wf_token (t : text) : bool :=
  match t with
  | c :: _ => Ascii.eqb c "["
  | [] => false
  end
  && Ascii.eqb (List.last t "["%char) "]"
  && forallb plain t.

Definition wf_entry (e : regex * text) : bool := wf_pattern (fst e) && wf_token (snd e).

Lemma in_all_ascii c : In c all_ascii.
Proof.
  rewrite <- (ascii_nat_embedding c). apply in_map, in_seq.
  pose proof (nat_ascii_bounded c). lia.
Qed.

Lemma cls_subset_spec a b c : cls_subset a b = true -> a c = true -> b c = true.
Proof.
  intros H Ha. unfold cls_subset in H. rewrite forallb_forall in H.
  specialize (H c (in_all_ascii c)). rewrite Ha in H. exact H.
Qed.

Lemma forallb_subset a b u :
  cls_subset a b = true -> forallb a u = true -> forallb b u = true.
Proof.
  intros H. rewrite !forallb_forall. intros Hu c Hc.
  eapply cls_subset_spec; eauto.
Qed.

Lemma matches_starts r prev w rest :
  starts_with_bnd r = true -> Matches r prev w rest ->
  word_boundary prev (head (w ++ rest)) = true.
Proof.
  intros Hr Hm. destruct Hm; try discriminate. assumption.
Qed.

Lemma matches_ends_app r : forall prev w rest,
  Matches (r ++ [Bnd]) prev w rest ->
  word_boundary (last_or prev w) (head rest) = true.
Proof.
  induction r as [|it r IH]; intros prev w rest Hm; simpl in Hm.
  - inversion Hm as [| ? ? ? ? Hb Hm' |]; subst.
    inversion Hm'; subst. exact Hb.
  - inversion Hm; subst.
    + apply IH. assumption.
    + rewrite last_or_app. apply IH. assumption.
Qed.

Lemma matches_ends r prev w rest :
  ends_with_bnd r = true -> Matches r prev w rest ->
  word_boundary (last_or prev w) (head rest) = true.
Proof.
  unfold ends_with_bnd. intros Hr Hm.
  destruct (rev r) as [|[|] r'] eqn:Hrev; try discriminate.
  assert (r = rev r' ++ [Bnd]) as ->.
  { rewrite <- (rev_involutive r), Hrev. reflexivity. }
  apply matches_ends_app with (r := rev r'). exact Hm.
Qed.

Lemma matches_within good r prev w rest :
  forallb (item_within good) r = true -> Matches r prev w rest ->
  forallb good w = true.
Proof.
  intros Hr Hm. induction Hm; simpl in Hr.
  - reflexivity.
  - auto.
  - apply andb_true_iff in Hr as [Hc Hr].
    rewrite forallb_app, (forallb_subset _ _ _ Hc), IHHm; auto.
Qed.

Lemma matches_requires good r prev w rest :
  existsb (item_requires good) r = true -> Matches r prev w rest ->
  existsb good w = true.
Proof.
  intros Hr Hm. induction Hm; simpl in Hr.
  - discriminate.
  - auto.
  - rewrite existsb_app. apply orb_true_iff in Hr as [Hc|Hr].
    + apply andb_true_iff in Hc as [Hlo Hc].
      destruct lo; [discriminate|].
      destruct u as [|c u]; [simpl in *; lia|].
      simpl in *. apply andb_true_iff in H as [Hcc _].
      rewrite (cls_subset_spec _ _ _ Hc Hcc). reflexivity.
    + rewrite IHHm; auto. apply orb_true_r.
Qed.

Section WellFormed.

Variable P : regex.
Hypothesis HP : wf_pattern P = true.

Lemma wf_starts : starts_with_bnd P = true.
Proof. unfold wf_pattern in HP. rewrite !andb_true_iff in HP. tauto. Qed.

Lemma wf_ends : ends_with_bnd P = true.
Proof. unfold wf_pattern in HP. rewrite !andb_true_iff in HP. tauto. Qed.

Lemma wf_within : forallb (item_within (fun c => negb (bracket c))) P = true.
Proof. unfold wf_pattern in HP. rewrite !andb_true_iff in HP. tauto. Qed.

Lemma wf_requires : existsb (item_requires special) P = true.
Proof. unfold wf_pattern in HP. rewrite !andb_true_iff in HP. tauto. Qed.

Lemma wf_not_empty prev rest : ~ Matches P prev [] rest.
Proof.
  intros Hm. apply (matches_requires _ _ _ _ _ wf_requires) in Hm. discriminate.
Qed.

Lemma wf_match_positive prev s : re_match P prev s <> Some 0.
Proof.
  intros H. apply re_match_sound in H as (w & rest & -> & Hn & Hm).
  destruct w; [|discriminate]. exact (wf_not_empty _ _ Hm).
Qed.

(** No match starts inside a token. *)
Lemma no_match_in_token x prev rest :
  x <> [] -> forallb plain x = true -> List.last x "["%char = "]"%char ->
  re_match P prev (x ++ rest) = None.
Proof.
  intros Hx Hplain Hlast.
  destruct (re_match P prev (x ++ rest)) as [n|] eqn:Hm; [exfalso|reflexivity].
  apply re_match_sound in Hm as (w & rest' & Heq & _ & Hm).
  pose proof (matches_within _ _ _ _ _ wf_within Hm) as Hw.
  pose proof (matches_requires _ _ _ _ _ wf_requires Hm) as Hs.
  assert (Hpre : forall l, x = w ++ l -> False).
  { intros l ->. rewrite forallb_app in Hplain.
    apply andb_true_iff in Hplain as [Hplain _].
    clear -Hplain Hs. induction w as [|c w IH]; simpl in *; [discriminate|].
    apply andb_true_iff in Hplain as [Hc Hplain]. unfold plain in Hc.
    destruct (special c); [discriminate|]. auto. }
  rewrite (app_removelast_last "["%char Hx), Hlast, <- app_assoc in Heq.
  apply app_eq_app in Heq as (l & [[Heq1 Heq2]|[Heq1 Heq2]]).
  - apply (Hpre (l ++ ["]"%char])).
    rewrite (app_removelast_last "["%char Hx), Hlast, Heq1, <- app_assoc.
    reflexivity.
  - destruct l as [|c l]; simpl in Heq2.
    + apply (Hpre ["]"%char]). rewrite Heq1, app_nil_r, <- Hlast.
      apply app_removelast_last, Hx.
    + injection Heq2 as <- _. subst w. rewrite forallb_app in Hw.
      apply andb_true_iff in Hw as [_ Hw]. simpl in Hw. discriminate.
Qed.

Lemma search_in_token : forall x prev rest,
  forallb plain x = true -> List.last x "]"%char = "]"%char ->
  re_search P prev (x ++ rest) = re_search P (last_or prev x) rest.
Proof.
  induction x as [|c x IH]; intros prev rest Hplain Hlast; [reflexivity|].
  assert (Hm : re_match P prev ((c :: x) ++ rest) = None).
  { apply no_match_in_token; [discriminate|assumption|].
    clear -Hlast. revert c Hlast. induction x as [|d x IHx]; intros c Hlast.
    - exact Hlast.
    - change (List.last (d :: x) "["%char = "]"%char). apply IHx. exact Hlast. }
  simpl in *. rewrite Hm. apply andb_true_iff in Hplain as [_ Hplain].
  apply IH; [assumption|]. destruct x; [reflexivity|exact Hlast].
Qed.

Lemma search_app : forall u prev s,
  re_search P (last_or prev u) s = true -> re_search P prev (u ++ s) = true.
Proof.
  induction u as [|c u IH]; intros prev s H; [exact H|].
  simpl. destruct (re_match P prev (c :: u ++ s)); [reflexivity|].
  apply IH. exact H.
Qed.

End WellFormed.

(** *** What [re.sub] does

    [Subst r repl prev s t]: scanning [s] from the left, [t] keeps each
    character at which [r] does not match and has [repl] in place of each
    match found; the scan resumes after the match. *)

Inductive Subst (r : regex) (repl : text) : option ascii -> text -> text -> Prop :=
| S_nil prev : Subst r repl prev [] []
| S_keep prev c s t :
    re_match r prev (c :: s) = None ->
    Subst r repl (Some c) s t ->
    Subst r repl prev (c :: s) (c :: t)
| S_repl prev u s t :
    u <> [] -> re_match r prev (u ++ s) = Some (length u) ->
    Subst r repl (last_or prev u) s t ->
    Subst r repl prev (u ++ s) (repl ++ t).

Lemma re_sub_aux_skip r repl : forall u prev s,
  re_sub_aux r repl prev (length u) (u ++ s) = re_sub_aux r repl (last_or prev u) 0 s.
Proof.
  induction u as [|c u IH]; intros prev s; [reflexivity|].
  simpl. apply IH.
Qed.

Lemma re_sub_aux_Subst r repl :
  (forall prev s, re_match r prev s <> Some 0) ->
  forall s prev, Subst r repl prev s (re_sub_aux r repl prev 0 s).
Proof.
  intros Hpos s.
  induction s as [s IH] using (induction_ltof1 _ (@length ascii)).
  unfold ltof in IH. intros prev. destruct s as [|c s]; [constructor|].
  simpl. destruct (re_match r prev (c :: s)) as [[|n]|] eqn:Hm.
  - destruct (Hpos _ _ Hm).
  - destruct (re_match_sound _ _ _ _ Hm) as (w & rest & Heq & Hn & _).
    destruct w as [|c' u]; [discriminate|].
    injection Heq as <- ->. injection Hn as <-.
    rewrite re_sub_aux_skip.
    apply (S_repl r repl prev (c :: u) rest); [discriminate|exact Hm|].
    apply IH. simpl. rewrite length_app. lia.
  - apply S_keep; [exact Hm|]. apply IH. simpl. lia.
Qed.

(** *** A pass neither leaves its own matches nor makes new ones *)

(** The text [s] read by a pass and the text [t] it writes, at positions
    that correspond: either the characters before are the same, or a token
    was just written, where [s] has a word boundary. *)
Definition ctx (prev tprev : option ascii) (s : text) : Prop :=
  tprev = prev \/ word_boundary prev (head s) = true.

Section Pass.

Variables (Q : regex) (repl : text).
Hypothesis HQ : wf_pattern Q = true.
Hypothesis Hrepl : wf_token repl = true.

Lemma token_head : exists t, repl = "["%char :: t.
Proof.
  unfold wf_token in Hrepl. rewrite !andb_true_iff in Hrepl.
  destruct Hrepl as [[H _] _]. destruct repl as [|c t]; [discriminate|].
  apply Ascii.eqb_eq in H as ->. eauto.
Qed.

Lemma token_plain : forallb plain repl = true.
Proof. unfold wf_token in Hrepl. rewrite !andb_true_iff in Hrepl. tauto. Qed.

Lemma token_last : List.last repl "]"%char = "]"%char.
Proof.
  unfold wf_token in Hrepl. rewrite !andb_true_iff in Hrepl.
  destruct Hrepl as [[H1 H2] _]. apply Ascii.eqb_eq in H2.
  destruct repl as [|c t]; [reflexivity|].
  rewrite <- H2 at 2. clear. revert c. induction t as [|d t IH]; intros c.
  - reflexivity.
  - change (List.last (d :: t) "]"%char = List.last (d :: t) "["%char). apply IH.
Qed.

Lemma replaced_is_match prev u s :
  re_match Q prev (u ++ s) = Some (length u) -> Matches Q prev u s.
Proof.
  intros Hm. apply re_match_sound in Hm as (w & rest & Heq & Hn & Hm).
  apply app_eq_app in Heq as (l & [[-> ->]|[-> ->]]);
    rewrite length_app in Hn; destruct l; simpl in Hn; try lia;
    rewrite ?app_nil_r in *; exact Hm.
Qed.

(** A word boundary in the output is one in the input. *)
Lemma boundary_transfer prev tprev s t :
  Subst Q repl prev s t -> ctx prev tprev s ->
  word_boundary tprev (head t) = true -> word_boundary prev (head s) = true.
Proof.
  intros Hs [->|Hc] Hb; [|exact Hc].
  destruct Hs as [prev|prev c s t _ _|prev u s t Hu Hm _]; try exact Hb.
  apply replaced_is_match in Hm.
  exact (matches_starts _ _ _ _ (wf_starts _ HQ) Hm).
Qed.

(** Characters of the output that are no brackets were kept. *)
Lemma kept_prefix : forall u prev s t,
  forallb (fun c => negb (bracket c)) u = true ->
  Subst Q repl prev s (u ++ t) ->
  exists s', s = u ++ s' /\ Subst Q repl (last_or prev u) s' t.
Proof.
  induction u as [|c u IH]; intros prev s t Hu Hs; [exists s; auto|].
  simpl in Hu. apply andb_true_iff in Hu as [Hc Hu].
  remember ((c :: u) ++ t) as t' eqn:Ht.
  destruct Hs as [prev|prev c0 s0 t0 Hm Hs0|prev u0 s0 t0 Hu0 Hm Hs0].
  - discriminate.
  - injection Ht as -> ->.
    destruct (IH _ _ _ Hu Hs0) as (s' & -> & Hs').
    exists s'. auto.
  - destruct token_head as (t1 & Ht1). rewrite Ht1 in Ht.
    injection Ht as <- _. discriminate.
Qed.

(** A match in the output, at a position that corresponds to one of the
    input, is a match in the input. *)
Lemma match_transfer r tprev w trest :
  Matches r tprev w trest ->
  forallb (item_within (fun c => negb (bracket c))) r = true ->
  forall prev s, ctx prev tprev s -> Subst Q repl prev s (w ++ trest) ->
  exists srest, s = w ++ srest /\ Matches r prev w srest.
Proof.
  induction 1 as [tprev trest|r tprev w trest Hb _ IH
                 |cls lo hi r tprev u w trest Hu Hlo Hhi _ IH];
    intros Hr prev s Hc Hs; simpl in Hr.
  - exists s. split; [reflexivity|constructor].
  - destruct (IH Hr _ _ Hc Hs) as (srest & -> & Hm).
    exists srest. split; [reflexivity|]. constructor; [|exact Hm].
    eapply boundary_transfer; eauto.
  - apply andb_true_iff in Hr as [Hcls Hr]. rewrite <- app_assoc in Hs.
    apply kept_prefix in Hs as (s1 & -> & Hs1);
      [|eapply forallb_subset; eauto].
    assert (Hc1 : ctx (last_or prev u) (last_or tprev u) (s1)).
    { destruct u as [|c u]; [exact Hc|]. left. reflexivity. }
    destruct (IH Hr _ _ Hc1 Hs1) as (srest & -> & Hm).
    exists srest. rewrite app_assoc. split; [reflexivity|].
    constructor; assumption.
Qed.

Lemma match_found_transfer P prev tprev s t n :
  wf_pattern P = true -> Subst Q repl prev s t -> ctx prev tprev s ->
  re_match P tprev t = Some n -> exists m, re_match P prev s = Some m.
Proof.
  intros HP Hs Hc Hm.
  apply re_match_sound in Hm as (w & trest & -> & _ & Hm).
  destruct (match_transfer _ _ _ _ Hm (wf_within _ HP) _ _ Hc Hs)
    as (srest & -> & Hm').
  apply re_match_complete. exact Hm'.
Qed.

Lemma after_match prev tprev u s :
  re_match Q prev (u ++ s) = Some (length u) -> ctx (last_or prev u) tprev s.
Proof.
  intros Hm. right. apply replaced_is_match in Hm.
  exact (matches_ends _ _ _ _ (wf_ends _ HQ) Hm).
Qed.

(** No match of the pattern of the pass is left. *)
Lemma own_matches_gone prev s t :
  Subst Q repl prev s t ->
  forall tprev, ctx prev tprev s -> re_search Q tprev t = false.
Proof.
  induction 1 as [prev|prev c s t Hm Hs IH|prev u s t Hu Hm Hs IH];
    intros tprev Hc.
  - simpl. destruct (re_match Q tprev []) as [n|] eqn:Hn; [|reflexivity].
    destruct (match_found_transfer Q _ _ _ _ _ HQ (S_nil Q repl prev) Hc Hn)
      as (m & Hm).
    apply re_match_sound in Hm as (w & rest & Heq & _ & Hm).
    symmetry in Heq. apply app_eq_nil in Heq as [-> ->].
    destruct (wf_not_empty _ HQ _ _ Hm).
  - simpl. destruct (re_match Q tprev (c :: t)) as [n|] eqn:Hn.
    + destruct (match_found_transfer Q _ _ _ _ _ HQ
                  (S_keep Q repl _ _ _ _ Hm Hs) Hc Hn) as (m & Hm').
      congruence.
    + apply IH. left. reflexivity.
  - rewrite (search_in_token _ HQ _ _ _ token_plain token_last).
    apply IH. eapply after_match; eauto.
Qed.

(** A match of another pattern in the output was one in the input. *)
Lemma no_new_match P prev s t :
  wf_pattern P = true -> Subst Q repl prev s t ->
  forall tprev, ctx prev tprev s ->
    re_search P tprev t = true -> re_search P prev s = true.
Proof.
  intros HP.
  induction 1 as [prev|prev c s t Hm Hs IH|prev u s t Hu Hm Hs IH];
    intros tprev Hc Hf.
  - simpl in *. destruct (re_match P tprev []) as [n|] eqn:Hn; [|discriminate].
    destruct (match_found_transfer P _ _ _ _ _ HP (S_nil Q repl prev) Hc Hn)
      as (m & ->).
    reflexivity.
  - simpl in Hf. destruct (re_match P tprev (c :: t)) as [n|] eqn:Hn.
    + destruct (match_found_transfer P _ _ _ _ _ HP
                  (S_keep Q repl _ _ _ _ Hm Hs) Hc Hn) as (m & Hm').
      simpl. simpl in Hm'. rewrite Hm'. reflexivity.
    + apply (search_app P [c]). simpl. apply (IH (Some c)); [left; reflexivity|].
      exact Hf.
  - rewrite (search_in_token _ HP _ _ _ token_plain token_last) in Hf.
    apply search_app. apply (IH _ (after_match _ _ _ _ Hm) Hf).
Qed.

Lemma re_sub_Subst s : Subst Q repl None s (re_sub Q repl s).
Proof. apply re_sub_aux_Subst. apply wf_match_positive. exact HQ. Qed.

Lemma re_sub_own_matches_gone s : re_search Q None (re_sub Q repl s) = false.
Proof. apply (own_matches_gone _ _ _ (re_sub_Subst s)). left. reflexivity. Qed.

Lemma re_sub_no_new_match P s :
  wf_pattern P = true ->
  re_search P None s = false -> re_search P None (re_sub Q repl s) = false.
Proof.
  intros HP Hs. destruct (re_search P None (re_sub Q repl s)) eqn:Hf; [|reflexivity].
  rewrite <- Hs. symmetry.
  apply (no_new_match P _ _ _ HP (re_sub_Subst s) None); [left; reflexivity|exact Hf].
Qed.

End Pass.

Lemma apply_patterns_clean P : wf_pattern P = true ->
  forall ps s,
    forallb wf_entry ps = true ->
    In P (map fst ps) \/ re_search P None s = false ->
    re_search P None (apply_patterns ps s) = false.
Proof.
  intros HP. induction ps as [|[Q repl] ps IH]; intros s Hps H.
  - destruct H as [[]|H]. exact H.
  - simpl in Hps. apply andb_true_iff in Hps as [HQ Hps].
    unfold wf_entry in HQ. simpl in HQ. apply andb_true_iff in HQ as [HQ Hrepl].
    change (apply_patterns ((Q, repl) :: ps) s)
      with (apply_patterns ps (re_sub Q repl s)).
    apply IH; [exact Hps|].
    destruct H as [[<-|H]|H].
    + right. apply re_sub_own_matches_gone; assumption.
    + left. exact H.
    + right. apply re_sub_no_new_match; assumption.
Qed.

Lemma patterns_wf : forallb wf_entry patterns = true.
Proof. vm_compute. reflexivity. Qed.

(** *** A pass works piece by piece around a token *)

(** One pass of the loop of [_sanitize_prompt], on a text whose left
    neighbour is [prev]. *)
Definition pass (r : regex) (repl : text) (prev : option ascii) (s : text) : text :=
  re_sub_aux r repl prev 0 s.

Lemma last_or_last d : forall x prev, x <> [] -> last_or prev x = Some (List.last x d).
Proof.
  induction x as [|c x IH]; intros prev Hx; [congruence|].
  destruct x as [|c' x]; [reflexivity|].
  change (last_or (Some c) (c' :: x) = Some (List.last (c' :: x) d)).
  apply IH. discriminate.
Qed.

Lemma last_suffix d : forall x1 x2 : text,
  x2 <> [] -> List.last (x1 ++ x2) d = List.last x2 d.
Proof.
  induction x1 as [|c x1 IH]; intros x2 Hx; [reflexivity|].
  simpl. destruct (x1 ++ x2) eqn:E.
  - apply app_eq_nil in E as [_ ->]. congruence.
  - rewrite <- E. apply IH, Hx.
Qed.

(** Only whether the character before is a word character matters. *)
Lemma re_match_prev r : forall prev prev' s,
  is_word_opt prev = is_word_opt prev' -> re_match r prev s = re_match r prev' s.
Proof.
  induction r as [|[|cls lo hi] r IH]; intros prev prev' s Hp; simpl.
  - reflexivity.
  - unfold word_boundary. rewrite Hp, (IH _ _ _ Hp). reflexivity.
  - destruct s as [|c s]; simpl; rewrite (IH _ _ _ Hp); reflexivity.
Qed.

Lemma pass_prev r repl prev prev' s :
  re_match r prev s = re_match r prev' s -> pass r repl prev s = pass r repl prev' s.
Proof.
  intros H. unfold pass. destruct s as [|c s]; [reflexivity|].
  simpl. rewrite H. reflexivity.
Qed.

(** A character that is in no class of the pattern and is no word character
    ends the text for the pattern. *)
Lemma greedy_cut cls k c0 z :
  cls c0 = false ->
  (forall prev x, k prev (x ++ c0 :: z) = k prev x) ->
  forall x lo hi prev,
    greedy cls k lo hi prev (x ++ c0 :: z) = greedy cls k lo hi prev x.
Proof.
  intros Hc Hk. induction x as [|c x IH]; intros lo hi prev; simpl.
  - rewrite Hc. simpl. pose proof (Hk prev []) as H0. simpl in H0.
    rewrite H0. reflexivity.
  - rewrite IH. pose proof (Hk prev (c :: x)) as H0. simpl in H0.
    rewrite H0. reflexivity.
Qed.

Lemma re_match_cut c0 z r :
  is_word c0 = false ->
  forallb (item_within (fun c => negb (Ascii.eqb c c0))) r = true ->
  forall prev x, re_match r prev (x ++ c0 :: z) = re_match r prev x.
Proof.
  intros Hw. induction r as [|[|cls lo hi] r IH]; intros Hr prev x; simpl in *.
  - reflexivity.
  - rewrite (IH Hr). destruct x as [|c x]; simpl; [|reflexivity].
    unfold word_boundary. simpl. rewrite Hw. reflexivity.
  - apply andb_true_iff in Hr as [Hc Hr]. apply greedy_cut; [|apply IH, Hr].
    destruct (cls c0) eqn:E; [|reflexivity].
    apply (cls_subset_spec _ _ _ Hc) in E. rewrite Ascii.eqb_refl in E.
    discriminate.
Qed.

Lemma re_match_length r prev s n : re_match r prev s = Some n -> n <= length s.
Proof.
  intros H. apply re_match_sound in H as (w & rest & -> & <- & _).
  rewrite length_app. lia.
Qed.

(** Where the pattern sees no difference between [x] alone and [x] before
    [z], the pass on [x ++ z] is the pass on [x], then the pass on [z]. *)
Lemma pass_split r repl z : forall x prev,
  (forall x1 x2, x = x1 ++ x2 -> x2 <> [] ->
     re_match r (last_or prev x1) (x2 ++ z) = re_match r (last_or prev x1) x2) ->
  pass r repl prev (x ++ z)
  = pass r repl prev x ++ pass r repl (last_or prev x) z.
Proof.
  intros x. induction x as [x IH] using (induction_ltof1 _ (@length ascii)).
  unfold ltof in IH. intros prev H. destruct x as [|c x]; [reflexivity|].
  pose proof (H [] (c :: x) eq_refl ltac:(discriminate)) as H0.
  unfold pass in *. simpl in *. rewrite H0.
  assert (Hkeep : c :: re_sub_aux r repl (Some c) 0 (x ++ z)
                  = c :: re_sub_aux r repl (Some c) 0 x
                      ++ re_sub_aux r repl (last_or (Some c) x) 0 z).
  { f_equal. apply IH; [simpl; lia|]. intros x1 x2 -> Hx2.
    apply (H (c :: x1) x2 eq_refl Hx2). }
  destruct (re_match r prev (c :: x)) as [[|n]|] eqn:Hm; try exact Hkeep.
  destruct (re_match_sound _ _ _ _ Hm) as (w & rest & Heq & Hn & _).
  destruct w as [|c' u]; [discriminate|].
  injection Heq as <- ->. injection Hn as <-.
  rewrite <- !app_assoc, !re_sub_aux_skip, last_or_app. f_equal.
  apply IH; [simpl; rewrite length_app; lia|]. intros x1 x2 -> Hx2.
  rewrite <- last_or_app.
  apply (H (c :: u ++ x1) x2); [|exact Hx2].
  simpl. rewrite <- app_assoc. reflexivity.
Qed.

Section Token.

Variables (Q : regex) (repl : text) (t : text).
Hypothesis HQ : wf_pattern Q = true.
Hypothesis Ht : wf_token t = true.

Lemma wf_rejects_open : forallb (item_within (fun c => negb (Ascii.eqb c "["))) Q = true.
Proof.
  pose proof (wf_within _ HQ) as H. rewrite forallb_forall in *.
  intros it Hit. specialize (H it Hit). destruct it as [|cls lo hi]; [reflexivity|].
  simpl in *. unfold cls_subset in *. rewrite forallb_forall in *.
  intros c Hc. specialize (H c Hc). destruct (cls c); [|reflexivity].
  simpl in *. unfold bracket in H. destruct (Ascii.eqb c "["); [discriminate|reflexivity].
Qed.

(** The pass keeps a token as it is, and what is before and after a token
    is sanitized on its own. *)
Lemma pass_around_token prev x y :
  pass Q repl prev (x ++ t ++ y)
  = pass Q repl prev x ++ t ++ pass Q repl None y.
Proof.
  destruct (token_head t Ht) as (t' & Et).
  pose proof (token_plain t Ht) as Hplain.
  pose proof (token_last t Ht) as Hlast.
  rewrite pass_split.
  2:{ intros x1 x2 _ _. rewrite Et. apply (re_match_cut "["%char);
        [reflexivity|apply wf_rejects_open]. }
  f_equal. generalize (last_or prev x) as p. intros p.
  assert (Hnone : forall x1 x2 rest, t = x1 ++ x2 -> x2 <> [] ->
            re_match Q (last_or p x1) (x2 ++ rest) = None).
  { intros x1 x2 rest E Hx2. apply (no_match_in_token Q HQ); [exact Hx2| |].
    - rewrite E, forallb_app in Hplain.
      apply andb_true_iff in Hplain as [_ Hp]. exact Hp.
    - rewrite <- (last_suffix _ x1 x2 Hx2), <- E.
      unfold wf_token in Ht. rewrite !andb_true_iff in Ht.
      destruct Ht as [[_ H] _]. apply Ascii.eqb_eq in H. exact H. }
  rewrite pass_split.
  2:{ intros x1 x2 E Hx2. rewrite (Hnone x1 x2 y E Hx2).
      rewrite <- (app_nil_r x2) at 1. rewrite (Hnone x1 x2 [] E Hx2). reflexivity. }
  f_equal.
  - assert (Hkeep : forall x2 x1 p', t = x1 ++ x2 -> p' = last_or p x1 ->
              pass Q repl p' x2 = x2).
    { induction x2 as [|c x2 IH]; intros x1 p' E ->; [reflexivity|].
      unfold pass. simpl.
      pose proof (Hnone x1 (c :: x2) [] E ltac:(discriminate)) as Hn.
      rewrite app_nil_r in Hn. rewrite Hn. f_equal.
      apply (IH (x1 ++ [c])); [rewrite <- app_assoc; exact E|].
      rewrite last_or_app. reflexivity. }
    apply (Hkeep t [] p); reflexivity.
  - apply pass_prev, re_match_prev.
    rewrite (last_or_last "]"%char) by (rewrite Et; discriminate).
    rewrite Hlast. reflexivity.
Qed.

End Token.

Lemma apply_patterns_around_token t : wf_token t = true ->
  forall ps x y,
    forallb wf_entry ps = true ->
    apply_patterns ps (x ++ t ++ y)
    = apply_patterns ps x ++ t ++ apply_patterns ps y.
Proof.
  intros Ht. induction ps as [|[Q repl] ps IH]; intros x y Hps; [reflexivity|].
  simpl in Hps. apply andb_true_iff in Hps as [HQ Hps].
  unfold wf_entry in HQ. simpl in HQ. apply andb_true_iff in HQ as [HQ _].
  change (apply_patterns ((Q, repl) :: ps) ?s)
    with (apply_patterns ps (re_sub Q repl s)).
  unfold re_sub. fold (pass Q repl None (x ++ t ++ y)).
  rewrite (pass_around_token Q repl t HQ Ht). apply IH, Hps.
Qed.

(** *** Patterns of fixed shape, and the CPF pattern *)

(** The classes of the characters of a match, one per position, for a
    pattern all of whose quantifiers are exact. *)
Fixpoint fixed_classes (r : regex) : option (list (ascii -> bool)) :=
  match r with
  | [] => Some []
  | Bnd :: r' => fixed_classes r'
  | Rep cls lo (Some hi) :: r' =>
      if lo =? hi then option_map (app (repeat cls lo)) (fixed_classes r') else None
  | Rep _ _ None :: _ => None
  end.

Definition in_class (cls : ascii -> bool) (c : ascii) : Prop := cls c = true.

Lemma matches_fixed r prev w rest :
  Matches r prev w rest ->
  forall cs, fixed_classes r = Some cs -> List.Forall2 in_class cs w.
Proof.
  induction 1 as [prev rest|r prev w rest Hb _ IH
                 |cls lo hi r prev u w rest Hu Hlo Hhi _ IH];
    intros cs Hcs; simpl in Hcs.
  - injection Hcs as <-. constructor.
  - auto.
  - destruct hi as [hi|]; [|discriminate].
    destruct (lo =? hi) eqn:E; [|discriminate]. apply Nat.eqb_eq in E as <-.
    destruct (fixed_classes r) as [cs'|]; [|discriminate].
    injection Hcs as <-. simpl in Hhi.
    apply List.Forall2_app; [|auto].
    assert (lo = length u) as -> by lia.
    clear -Hu. induction u as [|c u IHu]; simpl in *; [constructor|].
    apply andb_true_iff in Hu as [Hc Hu]. constructor; auto.
Qed.

Definition cpf_classes : list (ascii -> bool) :=
  [is_digit; is_digit; is_digit; Ascii.eqb "."; is_digit; is_digit; is_digit;
   Ascii.eqb "."; is_digit; is_digit; is_digit; Ascii.eqb "-"; is_digit; is_digit].

Lemma cpf_fixed : fixed_classes re_cpf = Some cpf_classes.
Proof. reflexivity. Qed.

Lemma cpf_wf : wf_pattern re_cpf = true.
Proof. vm_compute. reflexivity. Qed.

Lemma digit_is_word c : is_digit c = true -> is_word c = true.
Proof. unfold is_word. intros ->. apply orb_true_iff. left. apply orb_true_r. Qed.

Ltac cpf_chars H :=
  unfold cpf_classes in H;
  repeat match type of H with
         | List.Forall2 _ (_ :: _) _ =>
             let c := fresh "c" in
             let Hc := fresh "Hc" in
             let w := fresh "w" in
             let H' := fresh "H" in
             inversion H as [|? c ? w Hc H']; clear H; subst; rename H' into H;
             unfold in_class in Hc
         | List.Forall2 _ [] _ => inversion H; clear H; subst
         end.

Ltac absurd_chars :=
  repeat match goal with
         | H : Ascii.eqb _ _ = true |- _ => apply Ascii.eqb_eq in H; subst
         end;
  match goal with
  | H : is_digit ?c = true |- _ =>
      assert (is_digit c = false) by reflexivity; congruence
  | H : ?a = ?b :> ascii |- _ => discriminate H
  end.

Lemma cpf_ends prev w rest :
  Matches re_cpf prev w rest ->
  length w = 14
  /\ (forall rest', is_word_opt (head (w ++ rest')) = true)
  /\ (forall prev', is_word_opt (last_or prev' w) = true)
  /\ is_word_opt prev = false
  /\ is_word_opt (head rest) = false.
Proof.
  intros Hm.
  pose proof (matches_fixed _ _ _ _ Hm _ cpf_fixed) as Hs.
  pose proof (matches_starts _ _ _ _ (wf_starts _ cpf_wf) Hm) as Hb.
  pose proof (matches_ends _ _ _ _ (wf_ends _ cpf_wf) Hm) as He.
  cpf_chars Hs. simpl in *. unfold word_boundary in *. simpl in *.
  rewrite (digit_is_word _ Hc) in *. rewrite (digit_is_word _ Hc12) in *.
  repeat split; auto.
  - destruct (is_word_opt prev); [discriminate|reflexivity].
  - destruct (is_word_opt (head rest)); [discriminate|reflexivity].
Qed.

Lemma cpf_match_length prev s n : re_match re_cpf prev s = Some n -> n = 14.
Proof.
  intros H. apply re_match_sound in H as (w & rest & _ & <- & Hm).
  apply cpf_ends in Hm. tauto.
Qed.

Lemma cpf_match_starts_with_word prev s :
  is_word_opt (head s) = false -> re_match re_cpf prev s = None.
Proof.
  intros Hs. destruct (re_match re_cpf prev s) as [n|] eqn:Hm; [|reflexivity].
  apply re_match_sound in Hm as (w & rest & -> & _ & Hm).
  apply cpf_ends in Hm as (_ & Hw & _). rewrite Hw in Hs. discriminate.
Qed.

(** Two occurrences of a CPF do not overlap. *)
Lemma cpf_no_overlap p1 w1 r1 p2 w2 r2 a l :
  Matches re_cpf p1 w1 r1 -> Matches re_cpf p2 w2 r2 ->
  w1 = a ++ l -> a <> [] -> l <> [] -> w2 ++ r2 = l ++ r1 -> False.
Proof.
  intros H1 H2.
  pose proof (matches_fixed _ _ _ _ H1 _ cpf_fixed) as S1.
  pose proof (matches_fixed _ _ _ _ H2 _ cpf_fixed) as S2.
  pose proof (matches_ends _ _ _ _ (wf_ends _ cpf_wf) H1) as E1.
  clear H1 H2. cpf_chars S1. cpf_chars S2. intros Hw Ha Hl Heq.
  destruct a as [|a1 a]; [congruence|]. clear Ha.
  simpl in Hw. injection Hw as <- Hw.
  do 13 (destruct a as [|? a];
         [ simpl in Hw; subst l; simpl in Heq; injection Heq; intros; subst;
           first [ absurd_chars
                 | simpl in E1; unfold word_boundary in E1; simpl in E1;
                   repeat match goal with
                          | H : is_digit _ = true |- _ =>
                              apply digit_is_word in H; rewrite ?H in E1
                          end;
                   discriminate E1 ]
         | simpl in Hw; injection Hw as <- Hw ]).
  destruct a; [|discriminate]. simpl in Hw. subst l. congruence.
Qed.

Lemma matches_rest r prev w rest rest' :
  Matches r prev w rest ->
  is_word_opt (head rest) = is_word_opt (head rest') ->
  Matches r prev w rest'.
Proof.
  intros Hm Hr.
  induction Hm as [prev rest|r prev w rest Hb _ IH
                  |cls lo hi r prev u w rest Hu Hlo Hhi _ IH].
  - constructor.
  - constructor; [|auto]. destruct w as [|c w]; [|exact Hb].
    simpl in *. unfold word_boundary in *. rewrite <- Hr. exact Hb.
  - constructor; auto.
Qed.

Lemma matches_prev r prev w rest :
  Matches r prev w rest ->
  forall prev', is_word_opt prev = is_word_opt prev' -> Matches r prev' w rest.
Proof.
  induction 1 as [prev rest|r prev w rest Hb _ IH
                 |cls lo hi r prev u w rest Hu Hlo Hhi _ IH]; intros prev' Hp.
  - constructor.
  - constructor; [|auto]. unfold word_boundary in *. rewrite <- Hp. exact Hb.
  - constructor; auto. apply IH. destruct u; [exact Hp|reflexivity].
Qed.

Lemma head_nonempty (l rest rest' : text) :
  l <> [] -> is_word_opt (head (l ++ rest)) = is_word_opt (head (l ++ rest')).
Proof. destruct l; [congruence|reflexivity]. Qed.

(** An occurrence of the pattern: a match at some position of the text. *)
Definition occurrence (r : regex) (pre w post : text) : Prop :=
  Matches r (last_or None pre) w post.

Lemma re_search_occurrence r : forall s prev,
  re_search r prev s = true <->
  exists pre w post, s = pre ++ w ++ post /\ Matches r (last_or prev pre) w post.
Proof.
  induction s as [|c s IH]; intros prev; simpl.
  - split.
    + destruct (re_match r prev []) as [n|] eqn:Hm; [|discriminate]. intros _.
      apply re_match_sound in Hm as (w & rest & Heq & _ & Hw).
      exists [], w, rest. auto.
    + intros (pre & w & post & Heq & Hm).
      symmetry in Heq. apply app_eq_nil in Heq as [-> Heq].
      apply re_match_complete in Hm as (n & Hn). simpl in Hn.
      rewrite <- Heq, Hn. reflexivity.
  - split.
    + destruct (re_match r prev (c :: s)) as [n|] eqn:Hm.
      * intros _. apply re_match_sound in Hm as (w & rest & Heq & _ & Hw).
        exists [], w, rest. auto.
      * intros H. apply IH in H as (pre & w & post & -> & Hw).
        exists (c :: pre), w, post. auto.
    + intros (pre & w & post & Heq & Hm). destruct pre as [|c' pre].
      * apply re_match_complete in Hm as (n & Hn). simpl in Heq, Hn.
        rewrite Heq, Hn. reflexivity.
      * injection Heq as <- ->.
        destruct (re_match r prev (c :: pre ++ w ++ post)); [reflexivity|].
        apply IH. exists pre, w, post. auto.
Qed.

Section Occurrence.

Variables (prev : option ascii) (pre w post : text).
Hypothesis Hocc : Matches re_cpf (last_or prev pre) w post.

(** Before the occurrence, the pattern matches as it does in the text
    before it alone. *)
Lemma cpf_before_occurrence x1 x2 :
  pre = x1 ++ x2 -> x2 <> [] ->
  re_match re_cpf (last_or prev x1) (x2 ++ w ++ post)
  = re_match re_cpf (last_or prev x1) x2.
Proof.
  intros Epre Hx2.
  destruct (cpf_ends _ _ _ Hocc) as (_ & Hhead & _ & Hprev & _).
  assert (Hend : forall w' r', Matches re_cpf (last_or prev x1) w' r' ->
                   x2 = w' -> False).
  { intros w' r' Hm' ->. destruct (cpf_ends _ _ _ Hm') as (_ & _ & Hlast & _).
    rewrite Epre, last_or_app, Hlast in Hprev. discriminate. }
  destruct (re_match re_cpf (last_or prev x1) (x2 ++ w ++ post)) as [n|] eqn:H1;
    destruct (re_match re_cpf (last_or prev x1) x2) as [m|] eqn:H2.
  - apply cpf_match_length in H1, H2. congruence.
  - exfalso. apply re_match_sound in H1 as (w' & r' & Heq & _ & Hm').
    apply app_eq_app in Heq as (l & [[E1 E2]|[E1 E2]]).
    + destruct l as [|c l].
      * rewrite app_nil_r in E1. eapply Hend; eauto.
      * subst r'. apply matches_rest with (rest' := c :: l) in Hm';
          [|reflexivity].
        apply re_match_complete in Hm' as (k & Hk). congruence.
    + destruct l as [|c l].
      * rewrite app_nil_r in E1. eapply Hend; eauto.
      * eapply (cpf_no_overlap _ _ _ _ _ _ x2 (c :: l) Hm' Hocc); eauto.
  - exfalso. apply re_match_sound in H2 as (w' & r' & Heq & _ & Hm').
    destruct r' as [|c r'].
    + rewrite app_nil_r in Heq. eapply Hend; eauto.
    + apply matches_rest with (rest' := (c :: r') ++ w ++ post) in Hm';
        [|reflexivity].
      apply re_match_complete in Hm' as (k & Hk).
      rewrite Heq, <- app_assoc in H1. congruence.
  - reflexivity.
Qed.

Lemma cpf_at_occurrence repl :
  pass re_cpf repl (last_or prev pre) (w ++ post)
  = repl ++ pass re_cpf repl None post.
Proof.
  destruct (cpf_ends _ _ _ Hocc) as (Hlen & _ & _ & _ & Hpost).
  destruct (re_match_complete _ _ _ _ Hocc) as (n & Hn).
  pose proof (cpf_match_length _ _ _ Hn) as ->.
  destruct w as [|c u]; [discriminate|]. injection Hlen as Hlen.
  unfold pass.
  change (re_sub_aux re_cpf repl (last_or prev pre) 0 ((c :: u) ++ post))
    with (match re_match re_cpf (last_or prev pre) ((c :: u) ++ post) with
          | Some (S n) => repl ++ re_sub_aux re_cpf repl (Some c) n (u ++ post)
          | _ => c :: re_sub_aux re_cpf repl (Some c) 0 (u ++ post)
          end).
  rewrite Hn, <- Hlen, re_sub_aux_skip. f_equal.
  apply pass_prev.
  rewrite !cpf_match_starts_with_word by exact Hpost. reflexivity.
Qed.

(** The pass for the CPF pattern puts the token in place of the occurrence
    and works on the text before and after it on their own. *)
Lemma cpf_pass_occurrence repl :
  pass re_cpf repl prev (pre ++ w ++ post)
  = pass re_cpf repl prev pre ++ repl ++ pass re_cpf repl None post.
Proof.
  rewrite pass_split by (intros; apply cpf_before_occurrence; assumption).
  rewrite cpf_at_occurrence. reflexivity.
Qed.

End Occurrence.

Lemma sanitize_prompt_apply prompt :
  _sanitize_prompt prompt = apply_patterns patterns prompt.
Proof. destruct prompt; reflexivity. Qed.

Lemma sanitize_prompt_occurrence pre w post :
  occurrence re_cpf pre w post ->
  _sanitize_prompt (pre ++ w ++ post)
  = _sanitize_prompt pre ++ tok "[CPF]" ++ _sanitize_prompt post.
Proof.
  intros Hocc. rewrite !sanitize_prompt_apply.
  change (apply_patterns patterns ?s)
    with (apply_patterns (tl patterns) (pass re_cpf (tok "[CPF]") None s)).
  rewrite (cpf_pass_occurrence None pre w post Hocc).
  apply apply_patterns_around_token; vm_compute; reflexivity.
Qed.

Lemma patterns_entry_wf Q repl :
  In (Q, repl) patterns -> wf_pattern Q = true /\ wf_token repl = true.
Proof.
  intros H. pose proof patterns_wf as Hwf. rewrite forallb_forall in Hwf.
  specialize (Hwf _ H). unfold wf_entry in Hwf. simpl in Hwf.
  apply andb_true_iff in Hwf. exact Hwf.
Qed.

Lemma patterns_pattern_wf P : In P (map fst patterns) -> wf_pattern P = true.
Proof.
  intros H. apply in_map_iff in H as ([Q repl] & <- & H).
  apply (patterns_entry_wf _ _ H).
Qed.

(** A group of digits of the shape of a CPF that touches a letter, a digit
    or an underscore is no match of the pattern, which asks for a word
    boundary on both sides: the pass leaves it. *)
Lemma cpf_shape_after_a_letter_is_kept :
  re_search re_cpf None (tok "cpf123.456.789-01") = false
  /\ _sanitize_prompt (tok "cpf123.456.789-01") = tok "cpf123.456.789-01".
Proof. split; vm_compute; reflexivity. Qed.

(** C6.  The sanitized prompt has no match of the CPF pattern (a match is
    what [re.search] finds: an occurrence of the pattern in the text, word
    boundaries included), so that a group of digits of the shape of a CPF
    that is left touches a letter, a digit or an underscore.  Each
    occurrence [w] of the pattern in the prompt, with [pre] before it and
    [post] after it, has the token [[CPF]] in its place, between the
    sanitized [pre] and the sanitized [post].  The replacements make no new
    match: a pass leaves a match of any pattern of the list only where its
    input had one, and the sanitized prompt has no match of any pattern of
    the list. *)
Theorem sanitize_prompt_removes_cpf (prompt : text) :
  re_search re_cpf None (_sanitize_prompt prompt) = false
  /\ (forall pre w post,
        _sanitize_prompt prompt = pre ++ w ++ post -> Matches re_cpf None w [] ->
        is_word_opt (last_or None pre) = true \/ is_word_opt (head post) = true)
  /\ (forall pre w post,
        prompt = pre ++ w ++ post -> occurrence re_cpf pre w post ->
        _sanitize_prompt prompt
        = _sanitize_prompt pre ++ tok "[CPF]" ++ _sanitize_prompt post)
  /\ (forall P Q repl s,
        In P (map fst patterns) -> In (Q, repl) patterns ->
        re_search P None (re_sub Q repl s) = true -> re_search P None s = true)
  /\ (forall P, In P (map fst patterns) ->
        re_search P None (_sanitize_prompt prompt) = false).
Proof.
  assert (Hall : forall P, In P (map fst patterns) ->
                   re_search P None (_sanitize_prompt prompt) = false).
  { intros P HP. rewrite sanitize_prompt_apply.
    apply apply_patterns_clean;
      [apply patterns_pattern_wf, HP|apply patterns_wf|left; exact HP]. }
  assert (Hcpf : re_search re_cpf None (_sanitize_prompt prompt) = false)
    by (apply Hall; left; reflexivity).
  split; [exact Hcpf|].
  split.
  { intros pre w post Heq Hw.
    destruct (is_word_opt (last_or None pre)) eqn:Hpre; [left; reflexivity|].
    destruct (is_word_opt (head post)) eqn:Hpost; [right; reflexivity|].
    exfalso. rewrite Heq in Hcpf.
    assert (Hf : re_search re_cpf None (pre ++ w ++ post) = true);
      [|rewrite Hf in Hcpf; discriminate].
    apply re_search_occurrence. exists pre, w, post. split; [reflexivity|].
    apply matches_rest with (rest := []); [|symmetry; exact Hpost].
    apply matches_prev with (prev := None); [exact Hw|symmetry; exact Hpre]. }
  split; [intros pre w post ->; apply sanitize_prompt_occurrence|].
  split; [|exact Hall].
  intros P Q repl s HP HQ Hf.
  destruct (patterns_entry_wf _ _ HQ) as [HQw Hrepl].
  destruct (re_search P None s) eqn:Hs; [reflexivity|].
  rewrite (re_sub_no_new_match Q repl HQw Hrepl P s (patterns_pattern_wf _ HP) Hs)
    in Hf.
  discriminate.
Qed.

Lemma sanitize_prompt_removes_cpf_witness :
  re_search re_cpf None (tok "CPF 123.456.789-01 do titular") = true
  /\ _sanitize_prompt (tok "CPF 123.456.789-01 do titular")
     = tok "CPF [CPF] do titular"
  /\ re_search re_cpf None
       (_sanitize_prompt (tok "CPF 123.456.789-01 do titular")) = false.
Proof.
  destruct (sanitize_prompt_removes_cpf (tok "CPF 123.456.789-01 do titular"))
    as (Hgone & _ & Hocc & _).
  split; [vm_compute; reflexivity|]. split; [|exact Hgone].
  rewrite (Hocc (tok "CPF ") (tok "123.456.789-01") (tok " do titular") eq_refl).
  - vm_compute. reflexivity.
  - apply replaced_is_match. vm_compute. reflexivity.
Defined.

End Patterns.
(** ** The retention sweep *)

Lemma filter_none_keeps_all {A} (p : A -> bool) (l : list A) :
  length (List.filter p l) = 0 -> List.filter (fun x => negb (p x)) l = l.
Proof.
  induction l as [|x l IH]; simpl; [reflexivity|].
  destruct (p x); simpl; [discriminate|].
  intros H. f_equal. apply IH, H.
Qed.

Lemma filter_split_length {A} (p : A -> bool) (l : list A) :
  length (List.filter p l) + length (List.filter (fun x => negb (p x)) l) = length l.
Proof.
  induction l as [|x l IH]; simpl; [reflexivity|].
  destruct (p x); simpl; lia.
Qed.

(** C8. For every ledger and cutoff, the sweep keeps exactly the entries
    with [created_at >= cutoff], in their order, removes all the entries with
    [created_at < cutoff] and no other, touches nothing else, and returns the
    number of rows it removed. *)
Theorem cleanup_old_logs_removes_exactly_old (now days_to_keep : Z) (w : World) :
  let cutoff := cutoff_date now days_to_keep in
  let old l := Z.ltb (created_at l) cutoff in
  let w' := snd (cleanup_old_logs now days_to_keep w) in
  ai_usage_logs w' = List.filter (fun l => negb (old l)) (ai_usage_logs w)
  /\ (forall l, In l (ai_usage_logs w') <->
                In l (ai_usage_logs w) /\ (cutoff <= created_at l)%Z)
  /\ fst (cleanup_old_logs now days_to_keep w)
     = Ok (Z.of_nat (length (List.filter old (ai_usage_logs w))))
  /\ fst (cleanup_old_logs now days_to_keep w)
     = Ok (Z.of_nat (length (ai_usage_logs w)) - Z.of_nat (length (ai_usage_logs w')))%Z
  /\ livros w' = livros w /\ atos w' = atos w
  /\ background_tasks w' = background_tasks w.
Proof.
  intros cutoff old w'.
  assert (Hkeep : ai_usage_logs w'
                  = List.filter (fun l => negb (old l)) (ai_usage_logs w)).
  { subst w'. unfold cleanup_old_logs. fold cutoff.
    destruct (Z.gtb _ 0) eqn:Hgt; simpl; [reflexivity|].
    symmetry. apply (filter_none_keeps_all old).
    rewrite Z.gtb_ltb in Hgt. apply Z.ltb_ge in Hgt. subst old. simpl. lia. }
  assert (Hcount : fst (cleanup_old_logs now days_to_keep w)
                   = Ok (Z.of_nat (length (List.filter old (ai_usage_logs w))))).
  { unfold cleanup_old_logs. fold cutoff.
    destruct (Z.gtb _ 0); reflexivity. }
  split; [exact Hkeep|]. split; [|split; [exact Hcount|split]].
  - intros l. rewrite Hkeep, filter_In. subst old. simpl.
    rewrite negb_true_iff, Z.ltb_ge. reflexivity.
  - rewrite Hcount, Hkeep. f_equal.
    pose proof (filter_split_length old (ai_usage_logs w)). lia.
  - subst w'. unfold cleanup_old_logs.
    destruct (Z.gtb _ 0); simpl; auto.
Qed.

(** ** The response adapters *)

(** A response body whose ["outputs"] is missing or is the empty list. *)
Definition outputs_missing_or_empty (response : pyval) : Prop :=
  exists items, response = PDict items
    /\ (dict_lookup "outputs" items = None
        \/ dict_lookup "outputs" items = Some (PList [])).

(** The spec's [ResponseShapeError] is the [ValueError] of the adapters. *)
Definition is_ResponseShapeError (e : exn) : bool :=
  match e with
  | ValueError _ => true
  | _ => false
  end.

Definition empty_search_result : pyval :=
  PDict [("results", PList []); ("total", PInt 0)].

(** The claim as the specification states it: every adapter fails on a
    response without outputs. *)
Definition every_adapter_rejects_missing_outputs : Prop :=
  forall (k : flow_kind) (response : pyval),
    outputs_missing_or_empty response ->
    exists e, response_adapter k response = Raise e /\ is_ResponseShapeError e = true.

(** C4, counterexample. The search adapter returns an empty result set for a
    response whose ["outputs"] is the empty list. *)
Lemma search_adapter_defaults_on_empty_outputs :
  ~ every_adapter_rejects_missing_outputs.
Proof.
  intros H.
  destruct (H SearchActs (PDict [("outputs", PList [])])) as (e & He & _).
  - exists [("outputs", PList [])]. split; [reflexivity|]. right. reflexivity.
  - discriminate He.
Qed.

(** The prefix each adapter puts before the message of the error it wraps. *)
Definition adapter_error_prefix (k : flow_kind) : string :=
  match k with
  | ProcessPdf => "Erro ao interpretar resposta da IA"
  | ExtractActDetails => "Erro ao interpretar detalhes da IA"
  | SearchActs => "Erro ao interpretar resultados da busca"
  | GenerateSummary => "Erro ao interpretar resumo da IA"
  | ClassifyDocument => "Erro ao interpretar classificação da IA"
  end.

(** C4, amended. On a response whose ["outputs"] is missing or empty the
    adapters of document ingestion, detail extraction, summarization and
    classification fail with a [ValueError] (the [ResponseShapeError] of the
    specification) that names the missing outputs; the adapter of semantic
    search returns the empty result set. *)
Theorem adapters_on_missing_outputs (k : flow_kind) (response : pyval) :
  outputs_missing_or_empty response ->
  response_adapter k response
  = match k with
    | SearchActs => Ok empty_search_result
    | _ => Raise (ValueError (adapter_error_prefix k +:+ ": "
                              +:+ "Resposta do LangFlow não contém outputs"))
    end
  /\ (k <> SearchActs ->
      exists e, response_adapter k response = Raise e
                /\ is_ResponseShapeError e = true).
Proof.
  intros (items & -> & H).
  assert (E : response_adapter k (PDict items)
              = match k with
                | SearchActs => Ok empty_search_result
                | _ => Raise (ValueError (adapter_error_prefix k +:+ ": "
                                +:+ "Resposta do LangFlow não contém outputs"))
                end).
  { destruct H as [H|H]; destruct k; simpl;
      unfold _process_pdf_response, _process_pdf_response_body,
        _process_act_details_response, _process_search_response,
        _process_summary_response, _process_classification_response;
      simpl; rewrite H; reflexivity. }
  split; [exact E|].
  intros Hk. rewrite E. destruct k; try contradiction; eexists; split; reflexivity.
Qed.

Lemma adapters_on_missing_outputs_witness :
  response_adapter ClassifyDocument (PDict [("foo", PInt 1)])
  = Raise (ValueError "Erro ao interpretar classificação da IA: Resposta do LangFlow não contém outputs").
Proof.
  apply (adapters_on_missing_outputs ClassifyDocument (PDict [("foo", PInt 1)])).
  exists [("foo", PInt 1)]. split; [reflexivity|]. left. reflexivity.
Defined.

(** ** The average confidence of the ingestion adapter *)

Definition is_ZeroDivisionError (e : exn) : bool :=
  match e with
  | PyError cls _ => String.eqb cls "ZeroDivisionError"
  | _ => false
  end.

(** A computation that does not end in a division by zero. *)
Definition no_zero_division {A} (r : result A) : Prop :=
  forall e, r = Raise e -> is_ZeroDivisionError e = false.

Lemma nzd_ok {A} (a : A) : no_zero_division (Ok a).
Proof. intros e H. discriminate. Qed.

Lemma nzd_bind {A B} (r : result A) (f : A -> result B) :
  no_zero_division r -> (forall a, r = Ok a -> no_zero_division (f a)) ->
  no_zero_division (rbind r f).
Proof.
  intros Hr Hf e. destruct r as [a|e']; simpl.
  - apply (Hf a eq_refl).
  - intros [= ->]. apply Hr. reflexivity.
Qed.

Lemma nzd_py_get obj key d : no_zero_division (py_get obj key d).
Proof. destruct obj; intros e; simpl; intros [= <-]; reflexivity. Qed.

Lemma nzd_py_index0 v : no_zero_division (py_index0 v).
Proof.
  destruct v as [| | | |s|l|items]; intros e; simpl; try (intros [= <-]; reflexivity).
  - destruct s; intros [= <-]; reflexivity.
  - destruct l; intros [= <-]; reflexivity.
Qed.

Lemma nzd_py_iter v : no_zero_division (py_iter v).
Proof. destruct v; intros e; simpl; intros [= <-]; reflexivity. Qed.

Lemma nzd_mapM {A B} (f : A -> result B) (l : list A) :
  (forall a, no_zero_division (f a)) -> no_zero_division (mapM_result f l).
Proof.
  intros Hf. induction l as [|x l IH]; simpl; [apply nzd_ok|].
  apply nzd_bind; [apply Hf|]. intros y _.
  apply nzd_bind; [apply IH|]. intros ys _. apply nzd_ok.
Qed.

Lemma nzd_py_add a b : no_zero_division (py_add a b).
Proof.
  unfold py_add. intros e.
  destruct (as_number a) as [[x|x]|]; destruct (as_number b) as [[y|y]|];
    intros [= <-]; reflexivity.
Qed.

Lemma nzd_py_sum_from xs : forall acc, no_zero_division (py_sum_from acc xs).
Proof.
  induction xs as [|x xs IH]; intros acc; simpl; [apply nzd_ok|].
  apply nzd_bind; [apply nzd_py_add|]. intros acc' _. apply IH.
Qed.

Lemma nzd_processed_ato a : no_zero_division (processed_ato a).
Proof.
  unfold processed_ato.
  repeat (apply nzd_bind; [apply nzd_py_get|intros ? _]). apply nzd_ok.
Qed.

(** The divisor of the average is the length of a non-empty list. *)
Lemma nzd_truediv_by_length total (n : nat) :
  n <> 0 -> no_zero_division (py_truediv total (PInt (Z.of_nat n))).
Proof.
  intros Hn e. unfold py_truediv. simpl.
  destruct (as_number total) as [x|]; [|intros [= <-]; reflexivity].
  destruct (Z.eqb_spec (Z.of_nat n) 0) as [E|_]; [lia|]. discriminate.
Qed.

Lemma nzd_confidence_avg l : no_zero_division (confidence_avg l).
Proof.
  destruct l as [|x l]; [apply nzd_ok|].
  unfold confidence_avg.
  apply nzd_bind; [apply nzd_mapM; intros a; apply nzd_py_get|]. intros confs _.
  apply nzd_bind; [apply nzd_py_sum_from|]. intros total _.
  apply nzd_truediv_by_length. simpl. discriminate.
Qed.

(** C10. The average confidence of the ingestion adapter never divides by
    zero, whatever the response; and a response whose first output is a
    mapping with no acts (["atos"] missing or empty) is adapted to a result
    with no acts, a [total_atos] of 0 and a [confidence_avg] of 0. *)
Theorem process_pdf_response_empty_acts (response : pyval) :
  no_zero_division (_process_pdf_response_body response)
  /\ (forall e, _process_pdf_response response = Raise e
                -> exists msg, e = ValueError msg)
  /\ forall items main rest,
       response = PDict items ->
       dict_lookup "outputs" items = Some (PList (PDict main :: rest)) ->
       dict_lookup "atos" main = None \/ dict_lookup "atos" main = Some (PList []) ->
       _process_pdf_response response
       = Ok (PDict
               [("livro_metadata",
                 default (PDict []) (dict_lookup "livro_metadata" main));
                ("atos", PList []);
                ("processing_stats",
                 PDict [("total_atos", PInt 0);
                        ("processing_time",
                         default (PInt 0) (dict_lookup "processing_time" main));
                        ("confidence_avg", PInt 0)])]).
Proof.
  split; [|split].
  - unfold _process_pdf_response_body.
    apply nzd_bind; [apply nzd_py_get|]. intros outputs _.
    destruct (truthy outputs); simpl; [|intros e [= <-]; reflexivity].
    apply nzd_bind; [apply nzd_py_index0|]. intros main _.
    apply nzd_bind; [apply nzd_py_get|]. intros md _.
    apply nzd_bind; [apply nzd_py_get|]. intros atos _.
    apply nzd_bind; [apply nzd_py_iter|]. intros atos_items _.
    apply nzd_bind; [apply nzd_mapM, nzd_processed_ato|]. intros processed _.
    apply nzd_bind; [apply nzd_py_get|]. intros pt _.
    apply nzd_bind; [apply nzd_confidence_avg|]. intros avg _.
    apply nzd_ok.
  - intros e. unfold _process_pdf_response, reraise_as_ValueError.
    destruct (_process_pdf_response_body response); intros [= <-]. eauto.
  - intros items main rest -> Hout Hatos.
    unfold _process_pdf_response, _process_pdf_response_body. simpl.
    rewrite Hout. simpl.
    destruct Hatos as [-> | ->]; simpl;
      destruct (dict_lookup "livro_metadata" main);
      destruct (dict_lookup "processing_time" main); reflexivity.
Qed.

(** ** The names the orchestrator uses *)

(** Of the methods [pdf_processor.py] calls on its services and the name
    it imports from [app.db.session], these are defined and these are
    not. *)
Lemma orchestrator_names :
  defines LivroService "get_by_id" = false
  /\ defines LivroService "update" = false
  /\ defines LivroService "get_livro_by_id" = true
  /\ defines LivroService "update_livro" = true
  /\ defines LivroService "update_processing_status" = true
  /\ defines AtoService "create" = false
  /\ defines AtoService "create_ato" = true
  /\ defines AiUsageService "create_log" = true
  /\ defines AiUsageService "update_log" = true
  /\ defines app_db_session "get_db_session" = false
  /\ defines app_db_session "get_session" = true.
Proof. repeat split. Qed.

(** ** Reprocessing *)

Definition reprocess_failure : exn :=
  HTTPException HTTP_500_INTERNAL_SERVER_ERROR
    "Erro no reprocessamento: 'LivroService' object has no attribute 'get_by_id'".

(** C2. A reprocess request never reaches the test of the Processing
    status: whatever the book, its status and the force flag, [reprocess_pdf]
    fails with a 500 that reports the missing method [get_by_id], where the
    claim has 409 Conflict.  The database is left as it was, and no run is
    queued.  Such is the request for book 1, in Processing with a stored PDF,
    without force. *)
Theorem reprocess_pdf_never_answers_conflict :
  (forall (env : Env) (livro_id : Z) (force : bool) (w : World),
     reprocess_pdf env livro_id force w = (Raise reprocess_failure, w))
  /\ status sample_book = "processando"
  /\ reprocess_pdf idle_env 1 false (world_of_book 1 sample_book)
     = (Raise reprocess_failure, world_of_book 1 sample_book).
Proof. repeat split. Qed.

(** ** Upload *)

Definition upload_failure : exn :=
  HTTPException HTTP_500_INTERNAL_SERVER_ERROR
    "Erro no upload do PDF: 'LivroService' object has no attribute 'get_by_id'".

Definition not_a_pdf_failure : exn :=
  HTTPException HTTP_400_BAD_REQUEST "Apenas arquivos PDF são aceitos".

(** The one path of [upload_and_process_pdf]. *)
Lemma upload_and_process_pdf_fails
    (to_int : pyval -> option Z) (is_StatusLivro : pyval -> bool)
    (env : Env) (file : UploadFile) (livro_id : Z) (process_immediately : bool)
    (w : World) :
  upload_and_process_pdf to_int is_StatusLivro env file livro_id
    process_immediately w
  = (Raise (if not_a_pdf file then not_a_pdf_failure else upload_failure), w).
Proof.
  unfold upload_and_process_pdf, http_boundary, try_except.
  destruct (not_a_pdf file); reflexivity.
Qed.

(** C9. No upload registers anything: a file that is no PDF is refused with
    400, and for a PDF the function fails with a 500 that reports the missing
    method [get_by_id], whether the book exists or not: there is no NotFound
    for an unknown book, no stored status, no file metadata and no
    acknowledgement.  The database is left as it was.  Such is the upload of
    [livro.pdf] for book 1, which exists. *)
Theorem upload_registers_nothing :
  (forall (to_int : pyval -> option Z) (is_StatusLivro : pyval -> bool)
          (env : Env) (file : UploadFile) (livro_id : Z)
          (process_immediately : bool) (w : World),
     upload_and_process_pdf to_int is_StatusLivro env file livro_id
       process_immediately w
     = (Raise (if not_a_pdf file then not_a_pdf_failure else upload_failure), w))
  /\ not_a_pdf a_pdf = false
  /\ get_livro_by_id (world_of_book 1 sample_book) 1 = Some sample_book
  /\ upload_and_process_pdf int_only four_statuses idle_env a_pdf 1 true
       (world_of_book 1 sample_book)
     = (Raise upload_failure, world_of_book 1 sample_book)
  /\ upload_and_process_pdf int_only four_statuses idle_env a_pdf 2 true
       (world_of_book 1 sample_book)
     = (Raise upload_failure, world_of_book 1 sample_book).
Proof.
  split; [exact upload_and_process_pdf_fails|].
  split; [reflexivity|]. split; [reflexivity|].
  split; apply upload_and_process_pdf_fails.
Qed.

(** ** Persistence of the extracted acts *)

Section Persistence.
Variable to_int : pyval -> option Z.
Variable parse_datetime : pyval -> option Z.
Variable is_StatusLivro : pyval -> bool.

Definition is_dict (v : pyval) : Prop :=
  match v with
  | PDict _ => True
  | _ => False
  end.

(** The keywords [_process_langflow_result] gives [AtoCreate] name neither
    [numero_ato] nor [tipo_ato]: the construction fails for every act. *)
Lemma AtoCreate_new_without_numero_ato (kwargs : dict) :
  dict_lookup "numero_ato" kwargs = None ->
  AtoCreate_new to_int parse_datetime kwargs = Raise ValidationError.
Proof. intros H. unfold AtoCreate_new. rewrite H. reflexivity. Qed.

(** A turn of the loop never returns an act, and changes nothing. *)
Lemma persist_ato_raises (livro_id : Z) (ato_data : pyval) (w : World) :
  exists e, persist_ato to_int parse_datetime livro_id ato_data w = (Raise e, w).
Proof.
  unfold persist_ato, bind, lift.
  match goal with
  | |- context [match ?c with Ok _ => _ | Raise _ => _ end] => destruct c as [a|e]
  end; eexists; reflexivity.
Qed.

(** The loop persists nothing: it leaves the database as it was, and for
    acts that are dicts it returns the list it started with. *)
Lemma persist_atos_persists_nothing (livro_id : Z) (atos_data : list pyval) :
  forall (atos_criados : list Ato) (w : World),
    (exists r,
       persist_atos to_int parse_datetime livro_id atos_data atos_criados w = (r, w))
    /\ (Forall is_dict atos_data ->
        persist_atos to_int parse_datetime livro_id atos_data atos_criados w
        = (Ok atos_criados, w)).
Proof.
  induction atos_data as [|ato_data rest IH]; intros atos_criados w.
  - split; [eexists; reflexivity|reflexivity].
  - simpl. unfold bind at 1. unfold try_except. unfold bind at 1.
    destruct (persist_ato_raises livro_id ato_data w) as [e ->].
    unfold bind at 1. unfold lift at 1.
    destruct ato_data as [| | | | | |items]; simpl;
      try (split; [eexists; reflexivity|intros H; inversion H; contradiction]).
    unfold ret at 1.
    destruct (IH atos_criados w) as [Hr Hd]. split; [exact Hr|].
    intros H. inversion H; subst. auto.
Qed.

(** The one way [_process_langflow_result] ends. *)
Lemma process_langflow_result_raises
    (env : Env) (livro_id : Z) (langflow_result : pyval) (w : World) :
  (exists e,
     _process_langflow_result to_int parse_datetime is_StatusLivro env livro_id
       langflow_result w = (Raise e, w))
  /\ forall kwargs atos_data livro_update,
       livro_update_data env langflow_result = Ok (kwargs, atos_data) ->
       LivroUpdate_new to_int is_StatusLivro kwargs = Ok livro_update ->
       _process_langflow_result to_int parse_datetime is_StatusLivro env livro_id
         langflow_result w
       = (Raise (AttributeError LivroService "update"), w).
Proof.
  split.
  - unfold _process_langflow_result, try_except, bind, lift, raise.
    destruct (livro_update_data env langflow_result) as [[kwargs atos_data]|e];
      simpl; [|eexists; reflexivity].
    destruct (LivroUpdate_new to_int is_StatusLivro kwargs) as [u|e]; simpl;
      eexists; reflexivity.
  - intros kwargs atos_data livro_update H1 H2.
    unfold _process_langflow_result, try_except, bind, lift, raise.
    rewrite H1. simpl. rewrite H2. reflexivity.
Qed.

End Persistence.

(** An extraction result with one well-formed act. *)
Definition one_act_result : pyval :=
  PDict [("livro_metadata", PDict []);
         ("atos",
          PList [PDict [("numero", PStr "1"); ("tipo", PStr "Escritura");
                        ("conteudo_markdown", PStr "# Ato 1");
                        ("confianca_ia", PFloat (QArith_base.Qmake 9 10))]]);
         ("processing_stats",
          PDict [("total_atos", PInt 1); ("processing_time", PInt 12);
                 ("confidence_avg", PFloat (QArith_base.Qmake 9 10))])].

(** C1. The orchestrator persists no act and writes no count: for every
    extraction result, [_process_langflow_result] raises and leaves the
    database as it was.  When the result is well formed the exception is the
    [AttributeError] of the call [self.livro_service.update], a method
    [LivroService] does not have, raised before the loop over the acts.  The
    loop would persist nothing either: the keywords it gives [AtoCreate] do
    not name the required [numero_ato] and [tipo_ato], so every turn fails
    and is skipped.  Such is the result with one well-formed act, for the
    existing book 1. *)
Theorem process_langflow_result_persists_nothing :
  (forall (to_int parse_datetime : pyval -> option Z)
          (is_StatusLivro : pyval -> bool) (env : Env) (livro_id : Z)
          (langflow_result : pyval) (w : World),
     exists e,
       _process_langflow_result to_int parse_datetime is_StatusLivro env livro_id
         langflow_result w = (Raise e, w))
  /\ (forall (to_int parse_datetime : pyval -> option Z) (livro_id : Z)
             (atos_data : list pyval) (w : World),
        Forall is_dict atos_data ->
        persist_atos to_int parse_datetime livro_id atos_data [] w = (Ok [], w))
  /\ _process_langflow_result int_only no_dates four_statuses idle_env 1
       one_act_result (world_of_book 1 sample_book)
     = (Raise (PyError "AttributeError"
                 "'LivroService' object has no attribute 'update'"),
        world_of_book 1 sample_book).
Proof.
  split; [|split].
  - intros. apply process_langflow_result_raises.
  - intros to_int parse_datetime livro_id atos_data w.
    apply persist_atos_persists_nothing.
  - vm_compute. reflexivity.
Qed.

(** ** The asynchronous run *)

Definition import_failure : exn :=
  PyError "ImportError"
    "cannot import name 'get_db_session' from 'app.db.session'".

(** C3. The asynchronous run records no failure, because it does not get
    that far: its first statement imports [get_db_session] from
    [app.db.session], which defines no such name, and the [ImportError] is
    raised outside the [try] of the run.  For every book, bucket and object
    the run ends with that exception, unhandled, and leaves the database as
    it was: the book is not set to Failed and no ledger entry is opened or
    finalized.  Such is the run for book 1 when the AI call would time
    out. *)
Theorem process_pdf_background_propagates_import_error :
  (forall (to_int parse_datetime : pyval -> option Z)
          (is_StatusLivro : pyval -> bool) (py_str : pyval -> string)
          (env : Env) (livro_id : Z) (bucket_name : pyval) (object_name : string)
          (w : World),
     process_pdf_background to_int parse_datetime is_StatusLivro py_str env
       livro_id bucket_name object_name w
     = (Raise import_failure, w))
  /\ http_post idle_env "" PNone [] 300%Z = Raise TimeoutException
  /\ process_pdf_background int_only no_dates four_statuses (fun _ => "") idle_env
       1 (PStr "actnexus-livros") "livros/1/20240101_000000_id.pdf"
       (world_of_book 1 sample_book)
     = (Raise import_failure, world_of_book 1 sample_book).
Proof. repeat split. Qed.

(* ===================================================================== *)
(** * Part III: further properties of the modelled code *)
(* ===================================================================== *)

(** ** Structural sanitization, again *)

(** Induction on a payload, with the property at hand for the elements of a
    list and for the values of a dict. *)
Section PyvalInd.

Variable P : pyval -> Prop.
Hypothesis HNone : P PNone.
Hypothesis HBool : forall b, P (PBool b).
Hypothesis HInt : forall n, P (PInt n).
Hypothesis HFloat : forall q, P (PFloat q).
Hypothesis HStr : forall s, P (PStr s).
Hypothesis HList : forall l, List.Forall P l -> P (PList l).
Hypothesis HDict : forall items, List.Forall (fun kv => P (snd kv)) items -> P (PDict items).

Fixpoint pyval_nested_ind (v : pyval) : P v :=
  match v with
  | PNone => HNone
  | PBool b => HBool b
  | PInt n => HInt n
  | PFloat q => HFloat q
  | PStr s => HStr s
  | PList l =>
      HList l ((fix go (l : list pyval) : List.Forall P l :=
                  match l with
                  | [] => @List.Forall_nil _ P
                  | x :: l' => @List.Forall_cons _ P x l' (pyval_nested_ind x) (go l')
                  end) l)
  | PDict items =>
      HDict items
        ((fix go (items : list (string * pyval))
            : List.Forall (fun kv => P (snd kv)) items :=
            match items with
            | [] => @List.Forall_nil _ (fun kv => P (snd kv))
            | kv :: items' =>
                @List.Forall_cons _ (fun kv => P (snd kv)) kv items'
                  (pyval_nested_ind (snd kv)) (go items')
            end) items)
  end.

End PyvalInd.

(** [True] when some dict of the payload, at any depth, has a sensitive
    key. *)
Fixpoint has_sensitive_key (v : pyval) : bool :=
  match v with
  | PDict items =>
      existsb (fun kv => is_sensitive (fst kv) || has_sensitive_key (snd kv)) items
  | PList l => existsb has_sensitive_key l
  | _ => false
  end.

Lemma sanitize_data_keeps_kind v : is_container (_sanitize_data v) = is_container v.
Proof. destruct v; reflexivity. Qed.

Lemma sanitize_data_twice (data : pyval) :
  _sanitize_data (_sanitize_data data) = _sanitize_data data.
Proof.
  induction data as [| | | | |l IH|items IH] using pyval_nested_ind;
    try reflexivity.
  - simpl. f_equal. rewrite map_map. apply map_ext_Forall. exact IH.
  - rewrite !sanitize_dict. f_equal. rewrite map_map. apply map_ext_Forall.
    eapply List.Forall_impl; [|exact IH]. intros [key value] Hv. simpl in *.
    f_equal. unfold sanitized_value. destruct (is_sensitive key); [reflexivity|].
    exact Hv.
Qed.

(** X1. Sanitizing a payload a second time changes nothing. *)
Theorem sanitize_data_idempotent (data : pyval) :
  _sanitize_data (_sanitize_data data) = _sanitize_data data.
Proof. exact (sanitize_data_twice data). Qed.

(** X2. A payload none of whose dicts has a sensitive key comes back as it
    was. *)
Theorem sanitize_data_without_sensitive_key (data : pyval) :
  has_sensitive_key data = false -> _sanitize_data data = data.
Proof.
  induction data as [| | | | |l IH|items IH] using pyval_nested_ind;
    intros H; try reflexivity.
  - simpl in *. f_equal. rewrite <- (map_id l) at 2. apply map_ext_Forall.
    induction IH as [|x l Hx _ IHl]; [constructor|].
    simpl in H. apply orb_false_iff in H as [H1 H2]. constructor; auto.
  - rewrite sanitize_dict. f_equal. rewrite <- (map_id items) at 2.
    apply map_ext_Forall.
    induction IH as [|[key value] items Hx _ IHl]; [constructor|].
    simpl in H. apply orb_false_iff in H as [H1 H2].
    apply orb_false_iff in H1 as [Hk Hv].
    constructor; [|auto]. simpl in *. unfold sanitized_value. rewrite Hk.
    f_equal. auto.
Qed.

Lemma sanitize_data_without_sensitive_key_witness :
  _sanitize_data
    (PDict [("livro_id", PInt 7);
            ("partes", PList [PDict [("nome", PStr "Ana")]; PDict []])])
  = PDict [("livro_id", PInt 7);
           ("partes", PList [PDict [("nome", PStr "Ana")]; PDict []])].
Proof.
  apply sanitize_data_without_sensitive_key. vm_compute. reflexivity.
Defined.

(** ** Pattern-based sanitization, again *)

Lemma sanitized_prompt_is_clean s p :
  In p patterns -> re_search (fst p) None (_sanitize_prompt s) = false.
Proof.
  intros Hp. rewrite sanitize_prompt_apply.
  assert (HP : In (fst p) (map fst patterns)) by (apply in_map, Hp).
  apply apply_patterns_clean;
    [apply patterns_pattern_wf, HP|apply patterns_wf|left; exact HP].
Qed.

Lemma sanitize_prompt_twice (prompt : text) :
  _sanitize_prompt (_sanitize_prompt prompt) = _sanitize_prompt prompt.
Proof.
  rewrite (sanitize_prompt_apply (_sanitize_prompt prompt)).
  apply apply_patterns_no_match. apply forallb_forall. intros p Hp.
  rewrite (sanitized_prompt_is_clean prompt p Hp). reflexivity.
Qed.

(** X3. Sanitizing a prompt a second time changes nothing. *)
Theorem sanitize_prompt_idempotent (prompt : text) :
  _sanitize_prompt (_sanitize_prompt prompt) = _sanitize_prompt prompt.
Proof. exact (sanitize_prompt_twice prompt). Qed.

Lemma plain_text_has_no_match P prev s :
  wf_pattern P = true -> forallb plain s = true -> re_search P prev s = false.
Proof.
  intros HP Hs. destruct (re_search P prev s) eqn:Hf; [exfalso|reflexivity].
  apply re_search_occurrence in Hf as (pre & w & post & -> & Hm).
  apply (matches_requires special) in Hm; [|apply wf_requires, HP].
  rewrite !forallb_app in Hs. apply andb_true_iff in Hs as [_ Hs].
  apply andb_true_iff in Hs as [Hs _].
  clear -Hm Hs. induction w as [|c w IH]; simpl in *; [discriminate|].
  apply andb_true_iff in Hs as [Hc Hs]. unfold plain in Hc.
  destruct (special c); [discriminate|]. auto.
Qed.

(** X4. A prompt with no digit and no at sign is stored as it is: every
    pattern of the list needs one of them. *)
Theorem sanitize_prompt_without_digit_or_at (prompt : text) :
  forallb (fun c => negb (is_digit c || Ascii.eqb c "@")) prompt = true ->
  _sanitize_prompt prompt = prompt.
Proof.
  intros H. rewrite sanitize_prompt_apply.
  apply apply_patterns_no_match. apply forallb_forall. intros p Hp.
  rewrite plain_text_has_no_match; [reflexivity| |exact H].
  apply patterns_pattern_wf, in_map, Hp.
Qed.

Lemma sanitize_prompt_without_digit_or_at_witness :
  _sanitize_prompt (tok "Extrair os atos do livro de notas, folha a folha.")
  = tok "Extrair os atos do livro de notas, folha a folha.".
Proof.
  apply sanitize_prompt_without_digit_or_at. vm_compute. reflexivity.
Defined.

(** X5. A token in brackets without digit or at sign, such as the six
    placeholders, is kept where it stands, and the text before it and the
    text after it are sanitized each on its own. *)
Theorem sanitize_prompt_around_token (x t y : text) :
  wf_token t = true ->
  _sanitize_prompt (x ++ t ++ y)%list
  = (_sanitize_prompt x ++ t ++ _sanitize_prompt y)%list.
Proof.
  intros Ht. rewrite !sanitize_prompt_apply.
  apply apply_patterns_around_token; [exact Ht|apply patterns_wf].
Qed.

Lemma sanitize_prompt_around_token_witness :
  _sanitize_prompt (tok "de a@b.cc para [EMAIL], CEP 01310-100")
  = tok "de [EMAIL] para [EMAIL], CEP [CEP]".
Proof.
  change (tok "de a@b.cc para [EMAIL], CEP 01310-100")
    with (tok "de a@b.cc para " ++ tok "[EMAIL]" ++ tok ", CEP 01310-100")%list.
  rewrite sanitize_prompt_around_token by (vm_compute; reflexivity).
  vm_compute. reflexivity.
Defined.

(** ** The prompt validator, again *)

Lemma lstrip_all_space s : forallb is_space (lstrip s) = forallb is_space s.
Proof.
  induction s as [|c s IH]; [reflexivity|].
  simpl. destruct (is_space c) eqn:Hc; simpl; [exact IH|].
  rewrite Hc. reflexivity.
Qed.

Lemma rstrip_nil s : rstrip s = [] <-> forallb is_space s = true.
Proof.
  induction s as [|c s IH]; simpl; [tauto|].
  destruct (rstrip s) as [|r rs].
  - destruct (is_space c); simpl.
    + split; [intros _; apply IH; reflexivity|reflexivity].
    + split; discriminate.
  - split; [discriminate|]. intros H. apply andb_true_iff in H as [_ H].
    apply IH in H. discriminate.
Qed.

(** [v.strip()] is empty exactly when [v] is made of white space. *)
Lemma strip_nil v : strip v = [] <-> forallb is_space v = true.
Proof. unfold strip. rewrite rstrip_nil, lstrip_all_space. tauto. Qed.

Lemma blank_spec v :
  Z.eqb (Z.of_nat (length (strip v))) 0 = forallb is_space v.
Proof.
  destruct (forallb is_space v) eqn:H.
  - apply strip_nil in H. rewrite H. reflexivity.
  - destruct (strip v) eqn:E; [|reflexivity].
    apply strip_nil in E. congruence.
Qed.

Lemma validate_prompt_facts (v : text) :
  ((exists e, validate_prompt v = Raise e) <-> forallb is_space v = true)
  /\ forall p,
       validate_prompt v = Ok p ->
       ((Z.of_nat (length v) <= 10000)%Z -> p = v)
       /\ (Z.of_nat (length p) <= 10014)%Z
       /\ validate_prompt p = Ok p.
Proof.
  split.
  - unfold validate_prompt. rewrite blank_spec.
    destruct (forallb is_space v).
    + split; [reflexivity|]. intros _. eexists. reflexivity.
    + split; [|discriminate]. intros (e & He).
      destruct (Z.gtb _ _); discriminate.
  - intros p Hp. pose proof (validate_prompt_capped _ _ Hp) as ->.
    assert (Hblank : forallb is_space v = false).
    { unfold validate_prompt in Hp. rewrite blank_spec in Hp.
      destruct (forallb is_space v); [discriminate|reflexivity]. }
    set (n := Z.to_nat prompt_limit).
    assert (Hn : Z.of_nat n = 10000%Z) by (apply Z2Nat.id; discriminate).
    destruct (Z.gtb_spec (Z.of_nat (length v)) prompt_limit) as [Hgt|Hle].
    + assert (Hc : capped v = (firstn n v ++ truncation_marker)%list).
      { unfold capped. destruct (Z.gtb_spec (Z.of_nat (length v)) prompt_limit);
          [reflexivity|lia]. }
      assert (Hlen : length (capped v) = n + 14).
      { rewrite Hc, length_app, length_firstn.
        change (length truncation_marker) with 14. unfold prompt_limit in Hgt. lia. }
      split; [unfold prompt_limit in Hgt; lia|]. split; [lia|].
      unfold validate_prompt. rewrite blank_spec.
      assert (forallb is_space (capped v) = false) as ->.
      { rewrite Hc, forallb_app.
        change (forallb is_space truncation_marker) with false.
        apply andb_false_r. }
      destruct (Z.gtb_spec (Z.of_nat (length (capped v))) prompt_limit)
        as [_|Hle]; [|unfold prompt_limit in Hle; lia].
      rewrite Hc. fold n. rewrite firstn_app, length_firstn.
      replace (Init.Nat.min n (length v)) with n by (unfold prompt_limit in Hgt; lia).
      rewrite Nat.sub_diag, firstn_firstn, Nat.min_id. simpl.
      rewrite app_nil_r. reflexivity.
    + assert (Hc : capped v = v).
      { unfold capped. destruct (Z.gtb_spec (Z.of_nat (length v)) prompt_limit);
          [lia|reflexivity]. }
      rewrite Hc in *. unfold prompt_limit in Hle.
      split; [reflexivity|]. split; [lia|]. exact Hp.
Qed.

(** X6. The validator refuses exactly the prompts made of white space (the
    empty one among them); a prompt it accepts comes back whole when it has
    at most 10,000 characters, has at most 10,014 characters in any case, and
    is accepted unchanged when validated again. *)
Theorem validate_prompt_accepts (v : text) :
  ((exists e, validate_prompt v = Raise e) <-> forallb is_space v = true)
  /\ forall p,
       validate_prompt v = Ok p ->
       ((Z.of_nat (length v) <= 10000)%Z -> p = v)
       /\ (Z.of_nat (length p) <= 10014)%Z
       /\ validate_prompt p = Ok p.
Proof. exact (validate_prompt_facts v). Qed.

Lemma validate_prompt_accepts_witness :
  validate_prompt (tok "Resumir o ato 12") = Ok (tok "Resumir o ato 12").
Proof.
  destruct (validate_prompt_accepts (tok "Resumir o ato 12")) as [_ H].
  destruct (H (tok "Resumir o ato 12") eq_refl) as (_ & _ & Hv). exact Hv.
Defined.

(** ** The entry-creation schema, again *)

(** X7. A validated entry is valid: validating it again gives the same
    entry; its token counts, cost and latency are not negative, and a total
    given together with counts whose sum is positive is within 10 of that
    sum. *)
Theorem AiUsageLogCreate_new_stable (d d' : AiUsageLogCreate) :
  AiUsageLogCreate_new d = Ok d' ->
  AiUsageLogCreate_new d' = Ok d'
  /\ opt_forall (Z.leb 0) (tokens_input d') = true
  /\ opt_forall (Z.leb 0) (tokens_output d') = true
  /\ opt_forall (Z.leb 0) (tokens_total d') = true
  /\ opt_forall (Z.leb 0) (response_time_ms d') = true
  /\ forall total,
       tokens_total d' = Some total ->
       let expected := (default 0 (tokens_input d') + default 0 (tokens_output d'))%Z in
       (expected > 0)%Z -> (Z.abs (total - expected) <= 10)%Z.
Proof.
  unfold AiUsageLogCreate_new.
  destruct (AiUsageLogBase_fields_ok d) eqn:Hf; [|discriminate]. simpl.
  destruct (validate_tokens_total _ _ _) as [total|] eqn:Ht; [|discriminate].
  destruct (validate_prompt (c_prompt d)) as [p|] eqn:Hp; [|discriminate].
  intros [= <-]. simpl.
  assert (Htot : total = tokens_total d).
  { unfold validate_tokens_total in Ht. destruct (tokens_total d); [|congruence].
    destruct (_ && _); congruence. }
  subst total.
  destruct (validate_prompt_facts (c_prompt d)) as [_ Hv].
  destruct (Hv p Hp) as (_ & _ & Hpp).
  unfold AiUsageLogBase_fields_ok in *. simpl.
  rewrite !andb_true_iff in Hf. destruct Hf as [[[[[[H1 H2] H3] H4] H5] H6] H7].
  rewrite H1, H2, H3, H4, H5, H6, H7, Ht, Hpp. simpl.
  repeat split; try reflexivity.
  intros total Htotal. cbv zeta. intros Hpos. unfold validate_tokens_total in Ht.
  rewrite Htotal in Ht.
  match type of Ht with
  | context [Z.gtb ?e 0] => destruct (Z.gtb_spec e 0); [|lia]
  end. simpl in Ht.
  match type of Ht with
  | context [Z.gtb ?a 10] => destruct (Z.gtb_spec a 10); [discriminate|lia]
  end.
Qed.

Lemma AiUsageLogCreate_new_stable_witness :
  AiUsageLogCreate_new (log_request (tok "Processar PDF do livro 42"))
  = Ok (log_request (tok "Processar PDF do livro 42")).
Proof.
  apply (AiUsageLogCreate_new_stable (log_request (tok "Processar PDF do livro 42"))).
  reflexivity.
Defined.

(** ** The client of the AI workflow service, again *)

Definition ai_timeout : exn :=
  HTTPException HTTP_504_GATEWAY_TIMEOUT "Timeout no processamento de IA".
Definition ai_unavailable : exn :=
  HTTPException HTTP_503_SERVICE_UNAVAILABLE "Serviço de IA indisponível".
Definition ai_internal_error : exn :=
  HTTPException HTTP_500_INTERNAL_SERVER_ERROR "Erro interno no processamento de IA".

(** The three errors [_make_request] lets out. *)
Definition transport_error (e : exn) : Prop :=
  e = ai_timeout \/ e = ai_unavailable \/ e = ai_internal_error.

Lemma make_request_cases settings post flow_id inputs tweaks :
  match _make_request settings post flow_id inputs tweaks with
  | Ok v =>
      exists url payload headers response,
        post url payload headers langflow_timeout = Ok response
        /\ status_code response = 200%Z
        /\ response_json response = Ok v
  | Raise e => transport_error e
  end.
Proof.
  unfold _make_request, transport_error, ai_timeout, ai_unavailable,
    ai_internal_error.
  match goal with
  | |- match (match ?b with _ => _ end) with _ => _ end =>
      destruct b as [v|e] eqn:Hb
  end.
  - unfold rbind in Hb.
    match type of Hb with
    | match ?m with _ => _ end = _ => destruct m as [payload|]; [|discriminate]
    end.
    match type of Hb with
    | match ?m with _ => _ end = _ =>
        destruct m as [response|] eqn:Hpost; [|discriminate]
    end.
    destruct (Z.eqb_spec (status_code response) 200) as [H200|]; [|discriminate].
    eauto 10.
  - destruct e; auto.
Qed.

(** X8. A request to the AI service gives the JSON body of a response with
    status 200, or fails with one of three errors: 504 on a timeout, 503 on
    a connection error, 500 on anything else.  A response with another
    status is answered with the 500: the 502 raised for it does not leave
    the function. *)
Theorem make_request_outcomes
    (settings : Settings) (post : Http) (flow_id : string) (inputs : dict)
    (tweaks : option dict) :
  match _make_request settings post flow_id inputs tweaks with
  | Ok v =>
      exists url payload headers response,
        post url payload headers langflow_timeout = Ok response
        /\ status_code response = 200%Z
        /\ response_json response = Ok v
  | Raise e => transport_error e
  end
  /\ (forall response,
        (forall url payload headers, post url payload headers langflow_timeout
                                     = Ok response) ->
        status_code response <> 200%Z ->
        _make_request settings post flow_id inputs tweaks = Raise ai_internal_error)
  /\ (forall detail,
        _make_request settings post flow_id inputs tweaks
        <> Raise (HTTPException HTTP_502_BAD_GATEWAY detail)).
Proof.
  split; [apply make_request_cases|]. split.
  - intros response Hpost Hcode. unfold _make_request, rbind.
    destruct (dict_lookup "inputs" inputs) as [[]|]; try reflexivity;
      rewrite Hpost; destruct (Z.eqb_spec (status_code response) 200);
      try contradiction; reflexivity.
  - intros detail Hr.
    pose proof (make_request_cases settings post flow_id inputs tweaks) as H.
    rewrite Hr in H. destruct H as [H | [H | H]]; discriminate H.
Qed.

Lemma mapM_result_Forall2 {A B} (f : A -> result B) : forall l ys,
  mapM_result f l = Ok ys -> List.Forall2 (fun x y => f x = Ok y) l ys.
Proof.
  induction l as [|x l IH]; intros ys H; simpl in H.
  - injection H as <-. constructor.
  - destruct (f x) as [y|] eqn:Hx; [|discriminate]. simpl in H.
    destruct (mapM_result f l) as [ys'|]; [|discriminate]. simpl in H.
    injection H as <-. constructor; auto.
Qed.

Lemma reraise_Ok {A} prefix (r : result A) a :
  reraise_as_ValueError prefix r = Ok a -> r = Ok a.
Proof. destruct r; simpl; congruence. Qed.

Lemma reraise_Raise {A} prefix (r : result A) e :
  reraise_as_ValueError prefix r = Raise e -> exists msg, e = ValueError msg.
Proof. destruct r; simpl; [discriminate|]. intros [= <-]. eauto. Qed.

(** The keys of the dict the ingestion adapter builds for an act. *)
Definition processed_ato_keys : list string :=
  ["numero"; "tipo"; "data_ato"; "conteudo_original"; "conteudo_markdown";
   "partes"; "observacoes"; "status_ia"; "confianca_ia"].

Lemma processed_ato_shape a p :
  processed_ato a = Ok p ->
  exists src items,
    a = PDict src /\ p = PDict items
    /\ map fst items = processed_ato_keys
    /\ dict_lookup "numero" items = Some (default PNone (dict_lookup "numero" src))
    /\ dict_lookup "tipo" items = Some (default PNone (dict_lookup "tipo" src))
    /\ dict_lookup "status_ia" items = Some (PStr "processado")
    /\ dict_lookup "confianca_ia" items
       = Some (default (PFloat (QArith_base.inject_Z 0)) (dict_lookup "confidence" src)).
Proof.
  destruct a; try discriminate. unfold processed_ato. simpl.
  intros [= <-]. do 2 eexists. split; [reflexivity|]. split; [reflexivity|].
  repeat split; simpl;
    repeat match goal with
           | |- context [dict_lookup ?k items] => destruct (dict_lookup k items)
           end; reflexivity.
Qed.

(** X9. The result of the ingestion adapter has one processed act for each
    act of the first output of the response, in the same order; its
    [total_atos] is their number; each processed act has the nine keys of the
    adapter, its number and type as the response gives them ([None] when
    absent), and the status ["processado"]. *)
Theorem process_pdf_response_acts (response r : pyval) :
  _process_pdf_response response = Ok r ->
  exists outputs main atos meta acts time avg,
    py_get response "outputs" (PList []) = Ok outputs
    /\ py_index0 outputs = Ok main
    /\ rbind (py_get main "atos" (PList [])) py_iter = Ok atos
    /\ r = PDict [("livro_metadata", meta);
                  ("atos", PList acts);
                  ("processing_stats",
                   PDict [("total_atos", PInt (Z.of_nat (length atos)));
                          ("processing_time", time);
                          ("confidence_avg", avg)])]
    /\ List.Forall2 (fun a p => processed_ato a = Ok p) atos acts
    /\ List.Forall
         (fun p => exists items,
                     p = PDict items
                     /\ map fst items = processed_ato_keys
                     /\ dict_lookup "status_ia" items = Some (PStr "processado"))
         acts.
Proof.
  intros H. apply reraise_Ok in H. unfold _process_pdf_response_body, rbind in H.
  destruct (py_get response "outputs" (PList [])) as [outputs|] eqn:Ho; [|discriminate].
  destruct (negb (truthy outputs)); [discriminate|].
  destruct (py_index0 outputs) as [main|] eqn:Hm; [|discriminate].
  destruct (py_get main "livro_metadata" (PDict [])) as [meta|]; [|discriminate].
  destruct (py_get main "atos" (PList [])) as [atos_v|] eqn:Ha; [|discriminate].
  destruct (py_iter atos_v) as [atos|] eqn:Hi; [|discriminate].
  destruct (mapM_result processed_ato atos) as [acts|] eqn:Hacts; [|discriminate].
  destruct (py_get main "processing_time" (PInt 0)) as [time|]; [|discriminate].
  destruct (confidence_avg acts) as [avg|]; [|discriminate].
  injection H as <-.
  apply mapM_result_Forall2 in Hacts.
  exists outputs, main, atos, meta, acts, time, avg.
  split; [reflexivity|]. split; [exact Hm|].
  split; [unfold rbind; rewrite Ha; exact Hi|].
  split; [rewrite (List.Forall2_length Hacts); reflexivity|].
  split; [exact Hacts|].
  clear -Hacts. induction Hacts as [|a p atos acts Hp _ IH]; constructor; [|exact IH].
  destruct (processed_ato_shape _ _ Hp) as (src & items & _ & -> & Hk & _ & _ & Hs & _).
  eauto.
Qed.

Definition sample_response : pyval :=
  PDict [("outputs",
          PList [PDict [("atos",
                         PList [PDict [("numero", PStr "1"); ("tipo", PStr "Escritura")];
                                PDict [("numero", PStr "2")]])]])].

Lemma process_pdf_response_acts_witness :
  exists acts,
    rbind (_process_pdf_response sample_response)
      (fun r => py_get r "atos" PNone) = Ok (PList acts)
    /\ length acts = 2.
Proof.
  destruct (_process_pdf_response sample_response) as [r|] eqn:Hr;
    [|vm_compute in Hr; discriminate].
  destruct (process_pdf_response_acts sample_response r Hr)
    as (outputs & main & atos & meta & acts & time & avg
        & Ho & Hm & Hi & -> & Hacts & _).
  exists acts. split; [reflexivity|].
  vm_compute in Ho. injection Ho as <-.
  vm_compute in Hm. injection Hm as <-.
  vm_compute in Hi. injection Hi as <-.
  rewrite <- (List.Forall2_length Hacts). reflexivity.
Defined.

(** X10. Whenever the search adapter returns, the [total] of its result is
    the number of its [results]. *)
Theorem process_search_response_total (response r : pyval) :
  _process_search_response response = Ok r ->
  exists items results,
    r = PDict items
    /\ dict_lookup "results" items = Some (PList results)
    /\ dict_lookup "total" items = Some (PInt (Z.of_nat (length results))).
Proof.
  intros H. apply reraise_Ok in H. unfold rbind in H.
  destruct (py_get response "outputs" (PList [])) as [outputs|]; [|discriminate].
  destruct (negb (truthy outputs)).
  - injection H as <-. do 2 eexists. repeat split.
  - destruct (py_index0 outputs) as [main|]; [|discriminate].
    destruct (py_get main "results" (PList [])) as [rv|]; [|discriminate].
    destruct (py_iter rv) as [rs|]; [|discriminate].
    destruct (mapM_result processed_search_result rs) as [prs|]; [|discriminate].
    destruct (py_get main "original_query" (PStr "")) as [q|]; [|discriminate].
    destruct (py_get main "processing_time" (PInt 0)) as [t|]; [|discriminate].
    injection H as <-. do 2 eexists. repeat split.
Qed.

Lemma process_search_response_total_witness :
  exists items,
    _process_search_response
      (PDict [("outputs", PList [PDict [("results", PList [PDict []; PDict []])]])])
    = Ok (PDict items)
    /\ dict_lookup "total" items = Some (PInt 2).
Proof.
  destruct (_process_search_response
              (PDict [("outputs", PList [PDict [("results", PList [PDict []; PDict []])]])]))
    as [r|] eqn:Hr; [|vm_compute in Hr; discriminate].
  destruct (process_search_response_total _ r Hr) as (items & results & -> & Hres & Htot).
  exists items. split; [reflexivity|].
  vm_compute in Hr. injection Hr as <-. reflexivity.
Defined.

Lemma client_failure (request : result pyval) (adapter : pyval -> result pyval) prefix
    body e :
  (forall r, adapter r = reraise_as_ValueError prefix (body r)) ->
  (forall e', request = Raise e' -> transport_error e') ->
  rbind request adapter = Raise e ->
  transport_error e \/ exists msg, e = ValueError msg.
Proof.
  intros Ha Hreq H. destruct request as [r|e']; simpl in H.
  - right. rewrite Ha in H. eapply reraise_Raise, H.
  - injection H as <-. left. apply Hreq. reflexivity.
Qed.

Lemma make_request_failure settings post flow_id inputs tweaks e :
  _make_request settings post flow_id inputs tweaks = Raise e -> transport_error e.
Proof.
  intros H. pose proof (make_request_cases settings post flow_id inputs tweaks) as Hc.
  rewrite H in Hc. exact Hc.
Qed.

(** X11. The five operations of the client fail in two ways only: with one
    of the three errors of the transport (504, 503, 500), or with the
    [ValueError] of their response adapter. *)
Theorem client_failures (settings : Settings) (post : Http) (e : exn) :
  (forall pdf_url livro_id context,
     process_pdf settings post pdf_url livro_id context = Raise e ->
     transport_error e \/ exists msg, e = ValueError msg)
  /\ (forall ato_content ato_id context,
        extract_act_details settings post ato_content ato_id context = Raise e ->
        transport_error e \/ exists msg, e = ValueError msg)
  /\ (forall query filters limit,
        search_acts settings post query filters limit = Raise e ->
        transport_error e \/ exists msg, e = ValueError msg)
  /\ (forall content summary_type context,
        generate_summary settings post content summary_type context = Raise e ->
        transport_error e \/ exists msg, e = ValueError msg)
  /\ (forall content document_type,
        classify_document settings post content document_type = Raise e ->
        transport_error e \/ exists msg, e = ValueError msg).
Proof.
  repeat split; intros;
    match goal with
    | H : _ = Raise e |- _ =>
        eapply client_failure in H;
          [exact H | intros r; reflexivity | intros e'; apply make_request_failure]
    end.
Qed.

(** ** The ledger, again *)

Lemma dict_lookup_set_eq (k : string) (v : pyval) (d : dict) :
  dict_lookup k (dict_set k v d) = Some v.
Proof.
  induction d as [|[k0 v0] d IH]; simpl.
  - rewrite String.eqb_refl. reflexivity.
  - destruct (String.eqb_spec k0 k) as [->|Hne]; simpl.
    + rewrite String.eqb_refl. reflexivity.
    + destruct (String.eqb_spec k0 k); [contradiction|]. exact IH.
Qed.

Lemma dict_lookup_set_ne (k k' : string) (v : pyval) (d : dict) :
  k' <> k -> dict_lookup k' (dict_set k v d) = dict_lookup k' d.
Proof.
  intros Hne. induction d as [|[k0 v0] d IH]; simpl.
  - destruct (String.eqb_spec k k'); [congruence|reflexivity].
  - destruct (String.eqb_spec k0 k) as [->|H0]; simpl.
    + destruct (String.eqb_spec k k'); [congruence|reflexivity].
    + destruct (String.eqb_spec k0 k'); [reflexivity|exact IH].
Qed.

Lemma dict_lookup_listed (k : string) (d : dict) :
  existsb (fun kv => String.eqb k (fst kv)) d = false -> dict_lookup k d = None.
Proof.
  induction d as [|[k0 v0] d IH]; simpl; [reflexivity|].
  intros H. apply orb_false_iff in H as [H1 H2].
  rewrite String.eqb_sym, H1. apply IH, H2.
Qed.

Lemma listed_set (k k' : string) (v : pyval) (d : dict) :
  existsb (fun kv => String.eqb k (fst kv)) d = true ->
  existsb (fun kv => String.eqb k (fst kv)) (dict_set k' v d) = true.
Proof.
  induction d as [|[k0 v0] d IH]; simpl; [discriminate|].
  intros H. destruct (String.eqb k0 k'); simpl; [exact H|].
  apply orb_true_iff in H as [H|H]; apply orb_true_iff; [left|right]; auto.
Qed.

Lemma hasattr_set (k k' : string) (v : pyval) (d : dict) :
  hasattr d k = true -> hasattr (dict_set k' v d) k = true.
Proof.
  unfold hasattr. intros H. apply orb_true_iff in H as [H|H];
    apply orb_true_iff; [left; exact H|right; apply listed_set, H].
Qed.

Lemma hasattr_false (k : string) (d : dict) :
  hasattr d k = false -> dict_lookup k d = None.
Proof.
  unfold hasattr. intros H. apply orb_false_iff in H as [_ H].
  apply dict_lookup_listed, H.
Qed.

(** [update_from_dict] leaves alone what its argument does not name. *)
Lemma update_from_dict_other (name : string) (data : dict) :
  forall attributes,
    ~ In name (map fst data) ->
    dict_lookup name (update_from_dict data attributes) = dict_lookup name attributes.
Proof.
  unfold update_from_dict.
  induction data as [|[k v] data IH]; intros attributes Hn; [reflexivity|].
  simpl in *. rewrite IH by tauto.
  destruct (_ && _); [|reflexivity].
  apply dict_lookup_set_ne. intros ->. tauto.
Qed.

Lemma update_from_dict_hasattr (name : string) (data : dict) :
  forall attributes,
    hasattr attributes name = true ->
    hasattr (update_from_dict data attributes) name = true.
Proof.
  unfold update_from_dict.
  induction data as [|[k v] data IH]; intros attributes H; [exact H|].
  simpl. apply IH. destruct (_ && _); [apply hasattr_set, H|exact H].
Qed.

Definition assignable (key : string) : bool :=
  negb (existsb (String.eqb key) ["id"; "created_at"; "updated_at"]).

(** What [update_from_dict] does with a key its argument names once. *)
Lemma update_from_dict_named (name : string) (v : pyval) (data : dict) :
  forall attributes,
    List.NoDup (map fst data) -> In (name, v) data -> assignable name = true ->
    dict_lookup name (update_from_dict data attributes)
    = if hasattr attributes name then Some v else None.
Proof.
  induction data as [|[k v0] data IH]; intros attributes Hnd Hin Ha; [destruct Hin|].
  simpl in Hnd. apply List.NoDup_cons_iff in Hnd as [Hk Hnd].
  destruct Hin as [[= -> ->]|Hin].
  - change (update_from_dict ((name, v) :: data) attributes)
      with (update_from_dict data
              (if hasattr attributes name && assignable name
               then dict_set name v attributes else attributes)).
    rewrite update_from_dict_other by exact Hk.
    rewrite Ha, andb_true_r.
    destruct (hasattr attributes name) eqn:Hh.
    + apply dict_lookup_set_eq.
    + apply hasattr_false, Hh.
  - assert (Hne : name <> k).
    { intros ->. apply Hk. change k with (fst (k, v)). apply in_map, Hin. }
    change (update_from_dict ((k, v0) :: data) attributes)
      with (update_from_dict data
              (if hasattr attributes k && assignable k
               then dict_set k v0 attributes else attributes)).
    rewrite (IH _ Hnd Hin Ha).
    destruct (hasattr attributes k && assignable k); [|reflexivity].
    destruct (hasattr attributes name) eqn:Hh.
    + rewrite (hasattr_set _ _ _ _ Hh). reflexivity.
    + unfold hasattr in *. apply orb_false_iff in Hh as [Hb Hl]. rewrite Hb. simpl.
      assert (existsb (fun kv => String.eqb name (fst kv)) (dict_set k v0 attributes)
              = false) as ->; [|reflexivity].
      clear -Hl Hne. induction attributes as [|[k1 v1] d IHd]; simpl in *.
      * destruct (String.eqb_spec name k); [contradiction|reflexivity].
      * apply orb_false_iff in Hl as [H1 H2].
        destruct (String.eqb k1 k); simpl.
        -- destruct (String.eqb_spec name k1) as [->|_]; [discriminate|].
           simpl. exact H2.
        -- rewrite H1. simpl. apply IHd, H2.
Qed.

(** The fields of [AiUsageLogUpdate]. *)
Definition AiUsageLogUpdate_fields : list string :=
  ["response_data"; "tokens_input"; "tokens_output"; "tokens_total";
   "cost_estimate"; "response_time_ms"; "status"; "error_message"].

Lemma set_field_keys (name : string) (o : option pyval) (k : string) :
  In k (map fst (set_field name o)) -> k = name.
Proof. destruct o; simpl; [intros [<-|[]]; reflexivity|intros []]. Qed.

Lemma model_dump_fields (u : AiUsageLogUpdate) (k : string) :
  In k (map fst (AiUsageLogUpdate_model_dump u)) -> In k AiUsageLogUpdate_fields.
Proof.
  unfold AiUsageLogUpdate_model_dump. rewrite !map_app, !in_app_iff.
  intros H. repeat destruct H as [H|H]; apply set_field_keys in H; subst;
    simpl; tauto.
Qed.

Lemma NoDup_app_disjoint {A} (l1 l2 : list A) :
  List.NoDup l1 -> List.NoDup l2 -> (forall x, In x l1 -> In x l2 -> False) ->
  List.NoDup (l1 ++ l2).
Proof.
  induction l1 as [|x l1 IH]; simpl; intros H1 H2 Hd; [exact H2|].
  apply List.NoDup_cons_iff in H1 as [Hx H1]. constructor.
  - rewrite in_app_iff. intros [H|H]; [tauto|]. apply (Hd x); auto.
  - apply IH; auto. intros y Hy. apply Hd. auto.
Qed.

Lemma set_field_NoDup (name : string) (o : option pyval) :
  List.NoDup (map fst (set_field name o)).
Proof. destruct o; simpl; repeat constructor. intros []. Qed.

Lemma model_dump_NoDup (u : AiUsageLogUpdate) :
  List.NoDup (map fst (AiUsageLogUpdate_model_dump u)).
Proof.
  unfold AiUsageLogUpdate_model_dump. rewrite !map_app.
  repeat (apply NoDup_app_disjoint;
          [apply set_field_NoDup| |
           intros x Hx Hy; apply set_field_keys in Hx; subst x;
           rewrite ?in_app_iff in Hy;
           repeat destruct Hy as [Hy|Hy];
           apply set_field_keys in Hy; discriminate Hy]).
  apply set_field_NoDup.
Qed.

Lemma get_log_by_id_id (w : World) (id : Z) (log : AiUsageLog) :
  get_log_by_id w id = Some log -> log_id log = id.
Proof.
  unfold get_log_by_id, one_or_none.
  destruct (List.filter _ _) as [|x [|y r]] eqn:Hf; try discriminate.
  intros [= <-].
  assert (Hin : In x (List.filter (fun l => Z.eqb (log_id l) id) (ai_usage_logs w)))
    by (rewrite Hf; left; reflexivity).
  apply filter_In in Hin as [_ H]. apply Z.eqb_eq, H.
Qed.

Definition log_not_found : exn :=
  HTTPException HTTP_404_NOT_FOUND "Log não encontrado".

(** X15. Updating an entry that is not in the ledger is refused with 404
    and changes nothing; given a plain dict for an entry that is there, as
    the orchestrator does, the update fails with 500 and changes nothing.
    Given an [AiUsageLogUpdate], the update changes that entry only, and in
    it only attributes named by the fields of the update: the entry keeps its
    id, its creation time, its prompt, its input payload and its [resposta].
    A field that was set is assigned as it was given when the entry has an
    attribute of that name, and is dropped otherwise: no response is
    sanitized on the way, the key [resposta] that the sanitizing branch tests
    being no field of the update. *)
Theorem update_log_changes_one_entry (id : Z) (w : World) :
  (forall log_data,
     get_log_by_id w id = None -> update_log id log_data w = (Raise log_not_found, w))
  /\ (forall d log,
        get_log_by_id w id = Some log ->
        update_log id (LogUpdateDict d) w = (Raise internal_error, w))
  /\ (forall u log,
        get_log_by_id w id = Some log ->
        exists log',
          update_log id (LogUpdateObject u) w
          = (Ok log',
             set_logs (map (fun l => if Z.eqb (log_id l) id then log' else l)) w)
          /\ log_id log' = id
          /\ created_at log' = created_at log
          /\ (forall name,
                ~ In name AiUsageLogUpdate_fields ->
                dict_lookup name (log_attributes log')
                = dict_lookup name (log_attributes log))
          /\ (forall name v,
                In (name, v) (AiUsageLogUpdate_model_dump u) ->
                dict_lookup name (log_attributes log')
                = if hasattr (log_attributes log) name then Some v else None)).
Proof.
  split; [|split].
  - intros log_data Hg. unfold update_log, try_except, bind, get_world.
    rewrite Hg. reflexivity.
  - intros d log Hg. unfold update_log, try_except, bind, get_world.
    rewrite Hg. reflexivity.
  - intros u log Hg.
    assert (Hres : dict_lookup "resposta" (AiUsageLogUpdate_model_dump u) = None).
    { destruct (dict_lookup "resposta" (AiUsageLogUpdate_model_dump u)) eqn:E;
        [|reflexivity].
      exfalso.
      assert (Hin : In "resposta" (map fst (AiUsageLogUpdate_model_dump u))).
      { clear -E. induction (AiUsageLogUpdate_model_dump u) as [|[k v] d IH];
          simpl in *; [discriminate|].
        destruct (String.eqb_spec k "resposta"); [left; assumption|right; auto]. }
      apply model_dump_fields in Hin. simpl in Hin.
      repeat destruct Hin as [Hin|Hin]; try discriminate Hin; exact Hin. }
    eexists. split; [|split; [|split; [|split]]].
    + unfold update_log, try_except, bind, get_world, lift, modify, ret.
      rewrite Hg. simpl. rewrite Hres. reflexivity.
    + simpl. apply (get_log_by_id_id _ _ _ Hg).
    + reflexivity.
    + intros name Hn. simpl. apply update_from_dict_other.
      intros Hin. apply Hn, (model_dump_fields u), Hin.
    + intros name v Hin. simpl.
      apply update_from_dict_named; [apply model_dump_NoDup|exact Hin|].
      assert (Hf : In name AiUsageLogUpdate_fields).
      { apply (model_dump_fields u). change name with (fst (name, v)).
        apply in_map, Hin. }
      simpl in Hf. repeat destruct Hf as [<-|Hf]; try reflexivity. destruct Hf.
Qed.

(** An entry with the attributes the constructor call of [create_log]
    names. *)
Definition summary_entry : AiUsageLog :=
  {| log_id := 1; created_at := 1704067200;
     log_attributes :=
       [("tipo_operacao", PStr "generate_summary"); ("operacao_id", PNone);
        ("prompt", PStr "Resumir o ato 12"); ("dados_entrada", PNone);
        ("resposta", PNone); ("modelo_utilizado", PNone);
        ("tokens_entrada", PNone); ("tokens_saida", PNone);
        ("custo_estimado", PNone); ("tempo_resposta_ms", PNone);
        ("status", PStr "pendente"); ("erro", PNone); ("metadados", PDict [])] |}.

Definition ledger_of (log : AiUsageLog) : World :=
  {| livros := ∅; atos := []; ai_usage_logs := [log];
     next_ato_id := 1; next_log_id := 2; background_tasks := [] |}.

Definition finished : AiUsageLogUpdate :=
  {| u_response_data :=
       Some (PDict [("api_key", PStr "k-123"); ("texto", PStr "ok")]);
     u_tokens_input := None; u_tokens_output := None; u_tokens_total := None;
     u_cost_estimate := None; u_response_time_ms := Some (PInt 1200);
     u_status := Some (PStr "concluido"); u_error_message := None |}.

Lemma update_log_changes_one_entry_witness :
  exists log' w',
    update_log 1 (LogUpdateObject finished) (ledger_of summary_entry) = (Ok log', w')
    /\ dict_lookup "status" (log_attributes log') = Some (PStr "concluido")
    /\ dict_lookup "response_data" (log_attributes log') = None
    /\ dict_lookup "resposta" (log_attributes log') = Some PNone
    /\ dict_lookup "prompt" (log_attributes log') = Some (PStr "Resumir o ato 12").
Proof.
  destruct (update_log_changes_one_entry 1 (ledger_of summary_entry))
    as (_ & _ & H).
  destruct (H finished summary_entry eq_refl) as (log' & Hu & _ & _ & Ho & Hn).
  exists log', (set_logs (map (fun l => if Z.eqb (log_id l) 1 then log' else l))
                  (ledger_of summary_entry)).
  split; [exact Hu|].
  split; [rewrite (Hn "status" (PStr "concluido")); [reflexivity|simpl; tauto]|].
  split; [rewrite (Hn "response_data"
                     (PDict [("api_key", PStr "k-123"); ("texto", PStr "ok")]));
          [reflexivity|simpl; tauto]|].
  split; (rewrite Ho; [reflexivity|]); simpl;
    intros Hin; repeat destruct Hin as [Hin|Hin]; try discriminate Hin; exact Hin.
Defined.

(** ** The retention sweep, again *)

Lemma filter_filter_negb {A} (p : A -> bool) (l : list A) :
  List.filter p (List.filter (fun x => negb (p x)) l) = [].
Proof.
  induction l as [|x l IH]; simpl; [reflexivity|].
  destruct (p x) eqn:Hx; simpl; [exact IH|]. rewrite Hx. exact IH.
Qed.

Lemma filter_keeps_all {A} (p : A -> bool) (l : list A) :
  List.filter p l = [] -> List.filter (fun x => negb (p x)) l = l.
Proof.
  induction l as [|x l IH]; simpl; [reflexivity|].
  destruct (p x); simpl; [discriminate|]. intros H. f_equal. auto.
Qed.

Lemma cleanup_old_logs_ledger now days w :
  ai_usage_logs (snd (cleanup_old_logs now days w))
  = List.filter (fun l => negb (Z.ltb (created_at l) (cutoff_date now days)))
      (ai_usage_logs w).
Proof.
  unfold cleanup_old_logs.
  destruct (Z.gtb_spec (Z.of_nat (length (List.filter
              (fun l => Z.ltb (created_at l) (cutoff_date now days))
              (ai_usage_logs w)))) 0) as [_|H]; [reflexivity|].
  simpl. symmetry. apply filter_keeps_all.
  destruct (List.filter _ _); [reflexivity|simpl in H; lia].
Qed.

Lemma filter_filter_implied {A} (p q : A -> bool) (l : list A) :
  (forall x, q x = true -> p x = true) ->
  List.filter q (List.filter p l) = List.filter q l.
Proof.
  intros H. induction l as [|x l IH]; simpl; [reflexivity|].
  destruct (p x) eqn:Hp; simpl.
  - rewrite IH. reflexivity.
  - destruct (q x) eqn:Hq; [|exact IH]. rewrite (H x Hq) in Hp. discriminate.
Qed.

(** X16. A second sweep at the same time removes nothing and returns 0; and
    after a sweep, a later sweep with the same retention leaves the ledger
    the later sweep alone would leave. *)
Theorem cleanup_old_logs_again (now later days : Z) (w : World) :
  let w1 := snd (cleanup_old_logs now days w) in
  cleanup_old_logs now days w1 = (Ok 0%Z, w1)
  /\ ((now <= later)%Z ->
      ai_usage_logs (snd (cleanup_old_logs later days w1))
      = ai_usage_logs (snd (cleanup_old_logs later days w))).
Proof.
  intros w1. split.
  - unfold cleanup_old_logs at 1. subst w1.
    rewrite cleanup_old_logs_ledger, filter_filter_negb. reflexivity.
  - intros Hle. subst w1. rewrite !cleanup_old_logs_ledger.
    apply filter_filter_implied. intros l Hl. unfold cutoff_date in *.
    apply negb_true_iff in Hl. apply negb_true_iff.
    apply Z.ltb_ge in Hl. apply Z.ltb_ge. lia.
Qed.

(** ** Upload, again *)

Definition is_HTTPException (e : exn) : Prop :=
  exists code detail, e = HTTPException code detail.

(** X17. An upload that fails fails with an [HTTPException] and leaves the
    database as it was: books, acts, ledger and queue.  A file that is no
    PDF is refused with 400 whether the book exists or not. *)
Theorem upload_failure_changes_nothing
    (to_int : pyval -> option Z) (is_StatusLivro : pyval -> bool)
    (env : Env) (file : UploadFile) (livro_id : Z) (immediately : bool) (w : World) :
  (forall e w',
     upload_and_process_pdf to_int is_StatusLivro env file livro_id immediately w
     = (Raise e, w') ->
     w' = w /\ is_HTTPException e)
  /\ (not_a_pdf file = true ->
      upload_and_process_pdf to_int is_StatusLivro env file livro_id immediately w
      = (Raise (HTTPException HTTP_400_BAD_REQUEST "Apenas arquivos PDF são aceitos"),
         w)).
Proof.
  split.
  - intros e w'. rewrite upload_and_process_pdf_fails. intros [= <- <-].
    split; [reflexivity|].
    destruct (not_a_pdf file); unfold is_HTTPException; eauto.
  - intros Hpdf. rewrite upload_and_process_pdf_fails, Hpdf. reflexivity.
Qed.

Lemma upload_failure_changes_nothing_witness :
  upload_and_process_pdf int_only four_statuses idle_env
    {| content_type := Some "image/png"; filename := Some "capa.png";
       file_content := [] |} 99 true (world_of_book 1 sample_book)
  = (Raise (HTTPException HTTP_400_BAD_REQUEST "Apenas arquivos PDF são aceitos"),
     world_of_book 1 sample_book).
Proof.
  apply (upload_failure_changes_nothing int_only four_statuses idle_env). reflexivity.
Defined.

(** ** The status update *)

Definition status_update_failure : exn :=
  PyError "AttributeError"
    "'str' object has no attribute 'HTTP_500_INTERNAL_SERVER_ERROR'".

(** X18. [update_processing_status] writes the new status into
    [status_processamento] and leaves [status], the attribute the guard of
    [reprocess_pdf] reads, as it was; the number, year, type, stored PDF and
    file metadata of the book, the other books, the acts, the ledger and the
    queue are untouched.  For a book id that no book has, what leaves the
    function is no 404 but an [AttributeError]: the [status] that should
    give the code is the string parameter. *)
Theorem update_processing_status_writes_status_processamento
    (now livro_id : Z) (new_status : string) (metadata : option dict)
    (error_message : option string) (w : World) :
  (get_livro_by_id w livro_id = None ->
   update_processing_status now livro_id new_status metadata error_message w
   = (Raise status_update_failure, w))
  /\ forall livro,
       get_livro_by_id w livro_id = Some livro ->
       exists livro' w',
         update_processing_status now livro_id new_status metadata error_message w
         = (Ok livro', w')
         /\ get_livro_by_id w' livro_id = Some livro'
         /\ status_processamento livro' = Some new_status
         /\ status livro' = status livro
         /\ numero livro' = numero livro /\ ano livro' = ano livro
         /\ tipo livro' = tipo livro
         /\ url_pdf_original livro' = url_pdf_original livro
         /\ metadados_arquivo livro' = metadados_arquivo livro
         /\ (forall other, other <> livro_id ->
               get_livro_by_id w' other = get_livro_by_id w other)
         /\ atos w' = atos w /\ ai_usage_logs w' = ai_usage_logs w
         /\ background_tasks w' = background_tasks w.
Proof.
  split.
  - intros Hl. unfold update_processing_status, try_except, bind, get_world.
    rewrite Hl. reflexivity.
  - intros livro Hl.
    unfold update_processing_status, try_except, bind, get_world, modify, ret.
    rewrite Hl. simpl. do 2 eexists. split; [reflexivity|].
    unfold get_livro_by_id, set_livros. simpl. rewrite lookup_insert_eq.
    repeat split.
    intros other Hne. rewrite lookup_insert_ne by congruence. reflexivity.
Qed.

Lemma update_processing_status_writes_status_processamento_witness :
  (exists livro' w',
     update_processing_status 1704067200 1 "erro" None (Some "Timeout")
       (world_of_book 1 sample_book) = (Ok livro', w')
     /\ status_processamento livro' = Some "erro"
     /\ status livro' = "processando")
  /\ update_processing_status 1704067200 2 "erro" None (Some "Timeout")
       (world_of_book 1 sample_book)
     = (Raise status_update_failure, world_of_book 1 sample_book).
Proof.
  split.
  - destruct (update_processing_status_writes_status_processamento 1704067200 1
                "erro" None (Some "Timeout") (world_of_book 1 sample_book))
      as [_ H].
    destruct (H sample_book eq_refl) as (livro' & w' & Hu & _ & Hsp & Hs & _).
    exists livro', w'. split; [exact Hu|]. split; [exact Hsp|exact Hs].
  - apply (update_processing_status_writes_status_processamento 1704067200 2
             "erro" None (Some "Timeout") (world_of_book 1 sample_book)).
    reflexivity.
Defined.

